(** * GeoPackage geometry decoder of [gpkg.c]: envelope and emptiness queries

    A shallow embedding of the binary geometry decoder of the SQLite
    extension [gpkg.c]: the primitive readers [getInt] and [getDouble], the
    WKB walker (envelope extraction and emptiness test), the GeoPackage
    header decoder, the SQL functions ST_MinX ... ST_MaxM and ST_IsEmpty
    built on them, and GPKG_AddGeometryColumn; followed by the properties of
    the specification that concern them, by the behaviour of the walker on
    the encoding of any well-formed geometry, and by further properties of
    the code (X1, X2, ...).

    Conventions of the embedding.
    - A blob is a [list byte]; [p_blob[i]] is [byte_at p_blob i].  A read
      outside the blob is undefined behaviour in C and is the outcome
      [Fault] here.
    - [int] is a [Z] kept in the range of 32-bit two's complement: every
      arithmetic operation of the source on an [int] is followed by
      [Int.wrap].
    - A [double] is its 64-bit IEEE 754 pattern, a [Z] in [0, 2^64); the
      comparisons of the source are those of [SpecFloat] on the decoded
      pattern.
    - A C function [int f(..., int* index, ...)] becomes a function taking
      the cursor and returning [Ret code index'].  The envelope readers that
      return 0/1 and write [*res] return an [option double]: [None] is the
      return code 0, [Some v] is the return code 1 with [*res = v] (no
      caller reads [*res] after a 0).
    - The mutual recursion between the dispatchers and the per-kind handlers
      goes through the forward declarations of the source: the handlers take
      the dispatcher as an argument and the dispatchers are defined by
      recursion on a fuel that bounds the nesting depth. *)

From Stdlib Require Import ZArith List Bool Lia Strings.Byte.
From Stdlib Require Import Floats.SpecFloat.
From Stdlib Require Strings.String Strings.Ascii.
Import ListNotations.
Local Open Scope Z_scope.

(** ** 32-bit signed integers *)

Module Int.

Definition min_int : Z := -2147483648.
Definition max_int : Z := 2147483647.

(** The 32-bit two's complement representative of [z]. *)
Definition wrap (z : Z) : Z := (z + 2147483648) mod 4294967296 - 2147483648.

Definition add (a b : Z) : Z := wrap (a + b).
Definition sub (a b : Z) : Z := wrap (a - b).
Definition mul (a b : Z) : Z := wrap (a * b).

Definition in_range (z : Z) : Prop := min_int <= z <= max_int.

End Int.

(** ** Constants of the source *)

Definition GPKG_MAGIC1 : Z := 0x47.
Definition GPKG_MAGIC2 : Z := 0x50.
Definition GPKG_VERSION : Z := 0x00.
Definition GPKG_BINARY_TYPE_BIT : Z := Z.shiftl 0x01 5.
Definition GPKG_EMPTY_BIT : Z := Z.shiftl 0x01 4.
Definition GPKG_ENV_BITS : Z := Z.shiftl 0x07 1.
Definition GPKG_BYTEORDER_BIT : Z := 0x01.

Definition LITTLE_ENDIAN : Z := 1.
Definition BIG_ENDIAN : Z := 0.

Definition wkbGeometry : Z := 0.
Definition wkbPoint : Z := 1.
Definition wkbLineString : Z := 2.
Definition wkbPolygon : Z := 3.
Definition wkbMultiPoint : Z := 4.
Definition wkbMultiLineString : Z := 5.
Definition wkbMultiPolygon : Z := 6.
Definition wkbGeometryCollection : Z := 7.

Definition X : Z := 0.
Definition Y : Z := 1.
Definition Z_ : Z := 2.
Definition M : Z := 3.

Definition MIN : Z := 0.
Definition MAX : Z := 1.

(** ** Doubles as IEEE 754 binary64 patterns *)

Definition double : Type := Z.

(** Decoding of a 64-bit pattern: sign (bit 63), biased exponent
    (bits 52..62), fraction (bits 0..51). *)
Definition SF_of_bits (d : double) : spec_float :=
  let s := Z.testbit d 63 in
  let e := Z.land (Z.shiftr d 52) 2047 in
  let m := Z.land d 4503599627370495 in
  if e =? 0 then
    if m =? 0 then S754_zero s else S754_finite s (Z.to_pos m) (-1074)
  else if e =? 2047 then
    if m =? 0 then S754_infinity s else S754_nan
  else S754_finite s (Z.to_pos (m + 4503599627370496)) (e - 1075).

Definition isnan (d : double) : bool :=
  match SF_of_bits d with S754_nan => true | _ => false end.

(** [a < b], [a > b] and [a <= b] of C on doubles. *)
Definition double_lt (a b : double) : bool := SFltb (SF_of_bits a) (SF_of_bits b).
Definition double_gt (a b : double) : bool := SFltb (SF_of_bits b) (SF_of_bits a).
Definition double_le (a b : double) : bool := SFleb (SF_of_bits a) (SF_of_bits b).

(** ** Blobs, cursors and outcomes *)

Definition uchar (b : byte) : Z := Z.of_N (Byte.to_N b).

(** [p_blob[i]]; [None] outside the blob. *)
Definition byte_at (p_blob : list byte) (i : Z) : option Z :=
  if (0 <=? i) && (i <? Z.of_nat (length p_blob))
  then option_map uchar (nth_error p_blob (Z.to_nat i))
  else None.

(** The bytes at the given addresses, in that order. *)
Fixpoint bytes_at (p_blob : list byte) (addrs : list Z) : option (list Z) :=
  match addrs with
  | [] => Some []
  | a :: rest =>
      match byte_at p_blob a, bytes_at p_blob rest with
      | Some b, Some bs => Some (b :: bs)
      | _, _ => None
      end
  end.

Inductive outcome (A : Type) : Type :=
| Ret (a : A) (index : Z)
| Fault
| OutOfFuel.

Arguments Ret {A} a index.
Arguments Fault {A}.
Arguments OutOfFuel {A}.

Definition bind {A B : Type} (m : outcome A) (k : A -> Z -> outcome B) : outcome B :=
  match m with
  | Ret a index => k a index
  | Fault => Fault
  | OutOfFuel => OutOfFuel
  end.

Notation "'let*' ( x , i ) := m 'in' k" :=
  (bind m (fun x i => k))
  (at level 10, x name, i name, m at level 100, k at level 200).

(** The expression [p_blob[( *index)++]]. *)
Definition next_uchar (p_blob : list byte) (index : Z) : outcome Z :=
  match byte_at p_blob index with
  | Some b => Ret b (Int.add index 1)
  | None => Fault
  end.

(** Little-endian value of a byte sequence (first byte least significant). *)
Fixpoint le_combine (bs : list Z) : Z :=
  match bs with
  | [] => 0
  | b :: rest => b + 256 * le_combine rest
  end.

(** The byte order of the processor, the two answers of [endian()]. *)
Inductive cpu_order : Type := LittleEndianCPU | BigEndianCPU.

Section Decoder.

Variable cpu : cpu_order.

Definition endian : Z :=
  match cpu with LittleEndianCPU => LITTLE_ENDIAN | BigEndianCPU => BIG_ENDIAN end.

(** The value the processor gives to bytes laid out in memory in the order
    [bs]: the reinterpreting casts [*(int* )bytes] and [*(double* )bytes]. *)
Definition native (bs : list Z) : Z :=
  match cpu with
  | LittleEndianCPU => le_combine bs
  | BigEndianCPU => le_combine (rev bs)
  end.

(** ** Primitive readers *)

Definition getInt (p_blob : list byte) (index byteOrder : Z) : outcome Z :=
  if byteOrder =? endian then
    match bytes_at p_blob [index; index + 1; index + 2; index + 3] with
    | Some bs => Ret (Int.wrap (native bs)) (Int.add index 4)
    | None => Fault
    end
  else
    match bytes_at p_blob [Int.add index 3; Int.add index 2; Int.add index 1; index] with
    | Some bs => Ret (Int.wrap (native bs)) (Int.add index 4)
    | None => Fault
    end.

Definition getDouble (p_blob : list byte) (index byteOrder : Z) : outcome double :=
  if byteOrder =? endian then
    match bytes_at p_blob [index; index + 1; index + 2; index + 3;
                           index + 4; index + 5; index + 6; index + 7] with
    | Some bs => Ret (native bs) (Int.add index 8)
    | None => Fault
    end
  else
    match bytes_at p_blob [Int.add index 7; Int.add index 6; Int.add index 5;
                           Int.add index 4; Int.add index 3; Int.add index 2;
                           Int.add index 1; index] with
    | Some bs => Ret (native bs) (Int.add index 8)
    | None => Fault
    end.

(** ** WKB walker: points and line strings *)

Definition readWKBPointOrd (p_blob : list byte) (n_bytes index byteOrder dimension ordinate : Z)
  : outcome (option double) :=
  if Int.add index (Int.mul dimension 8) >? n_bytes then Ret None index
  else
    let index := Int.add index (Int.mul ordinate 8) in
    let* (res, index) := getDouble p_blob index byteOrder in
    let index := Int.add index (Int.mul (Int.sub (Int.sub dimension ordinate) 1) 8) in
    Ret (Some res) index.

(** The body of [for (int i = ...; i < dimension; i++)] of [isEmptyWKBPoint],
    [n] iterations from the counter value [i]. *)
Fixpoint isEmptyWKBPoint_loop (n : nat) (p_blob : list byte) (index byteOrder dimension i : Z)
  : outcome Z :=
  match n with
  | O => Ret 1 index
  | S n' =>
      let* (d, index) := getDouble p_blob index byteOrder in
      if negb (isnan d) then
        Ret 0 (Int.add index (Int.mul (Int.sub (Int.sub dimension i) 1) 8))
      else isEmptyWKBPoint_loop n' p_blob index byteOrder dimension (Int.add i 1)
  end.

Definition isEmptyWKBPoint (p_blob : list byte) (n_bytes index byteOrder dimension : Z)
  : outcome Z :=
  if Int.add index (Int.mul dimension 8) >? n_bytes then Ret (-1) index
  else isEmptyWKBPoint_loop (Z.to_nat dimension) p_blob index byteOrder dimension 0.

(** The update of the running extreme shared by every envelope loop:
    [if (maxmin == MIN) { if (res2 < *res) *res = res2; }
     else { if (res2 > *res) *res = res2; }]. *)
Definition fold_extreme (maxmin : Z) (res res2 : double) : double :=
  if maxmin =? MIN then (if double_lt res2 res then res2 else res)
  else (if double_gt res2 res then res2 else res).

(** [n] iterations of the loop over the points after the first one. *)
Fixpoint readWKBLineStringEnv_loop (n : nat) (p_blob : list byte)
  (n_bytes index byteOrder dimension ordinate maxmin : Z) (res : double)
  : outcome (option double) :=
  match n with
  | O => Ret (Some res) index
  | S n' =>
      let* (r, index) := readWKBPointOrd p_blob n_bytes index byteOrder dimension ordinate in
      match r with
      | None => Ret None index
      | Some res2 =>
          readWKBLineStringEnv_loop n' p_blob n_bytes index byteOrder dimension ordinate maxmin
            (fold_extreme maxmin res res2)
      end
  end.

Definition readWKBLineStringEnv (p_blob : list byte)
  (n_bytes index byteOrder dimension ordinate maxmin : Z) : outcome (option double) :=
  let* (numPoints, index) := getInt p_blob index byteOrder in
  if numPoints <? 1 then Ret None index
  else if Int.add index (Int.mul (Int.mul numPoints dimension) 8) >? n_bytes then Ret None index
  else
    let* (r, index) := readWKBPointOrd p_blob n_bytes index byteOrder dimension ordinate in
    match r with
    | None => Ret None index
    | Some res =>
        readWKBLineStringEnv_loop (Z.to_nat (numPoints - 1)) p_blob n_bytes index byteOrder
          dimension ordinate maxmin res
    end.

Definition isEmptyWKBLineString (p_blob : list byte) (n_bytes index byteOrder dimension : Z)
  : outcome Z :=
  let* (numPoints, index) := getInt p_blob index byteOrder in
  if numPoints <? 1 then Ret 1 index
  else if Int.add index (Int.mul (Int.mul numPoints dimension) 8) >? n_bytes then Ret (-1) index
  else Ret 0 (Int.add index (Int.mul (Int.mul numPoints dimension) 8)).

(** Returns 0 on error and 1 otherwise. *)
Definition skipWKBLineString (p_blob : list byte) (n_bytes index byteOrder dimension : Z)
  : outcome Z :=
  let* (numPoints, index) := getInt p_blob index byteOrder in
  if numPoints <? 1 then Ret 0 index
  else if Int.add index (Int.mul (Int.mul numPoints dimension) 8) >? n_bytes then Ret 0 index
  else Ret 1 (Int.add index (Int.mul (Int.mul numPoints dimension) 8)).

(** ** WKB walker: polygons *)

(** [n] iterations of [for (i = 1; i < numRings; i++)] skipping a ring each. *)
Fixpoint readWKBPolygonEnv_skip (n : nat) (p_blob : list byte)
  (n_bytes index byteOrder dimension : Z) (res : double) : outcome (option double) :=
  match n with
  | O => Ret (Some res) index
  | S n' =>
      let* (ok, index) := skipWKBLineString p_blob n_bytes index byteOrder dimension in
      if ok =? 0 then Ret None index
      else readWKBPolygonEnv_skip n' p_blob n_bytes index byteOrder dimension res
  end.

(** [n] iterations of [for (i = 1; i < numRings; i++)] folding a ring each. *)
Fixpoint readWKBPolygonEnv_fold (n : nat) (p_blob : list byte)
  (n_bytes index byteOrder dimension ordinate maxmin : Z) (res : double)
  : outcome (option double) :=
  match n with
  | O => Ret (Some res) index
  | S n' =>
      let* (r, index) :=
        readWKBLineStringEnv p_blob n_bytes index byteOrder dimension ordinate maxmin in
      match r with
      | None => Ret None index
      | Some res2 =>
          readWKBPolygonEnv_fold n' p_blob n_bytes index byteOrder dimension ordinate maxmin
            (fold_extreme maxmin res res2)
      end
  end.

Definition readWKBPolygonEnv (p_blob : list byte)
  (n_bytes index byteOrder dimension ordinate maxmin : Z) : outcome (option double) :=
  let* (numRings, index) := getInt p_blob index byteOrder in
  if numRings <? 1 then Ret None index
  else
    let* (r, index) :=
      readWKBLineStringEnv p_blob n_bytes index byteOrder dimension ordinate maxmin in
    match r with
    | None => Ret None index
    | Some res =>
        if ordinate <? Z_ then
          readWKBPolygonEnv_skip (Z.to_nat (numRings - 1)) p_blob n_bytes index byteOrder
            dimension res
        else
          readWKBPolygonEnv_fold (Z.to_nat (numRings - 1)) p_blob n_bytes index byteOrder
            dimension ordinate maxmin res
    end.

(** [n] iterations of [for (int i = 0; i < numRings; i++)] of
    [isEmptyWKBPolygon]. *)
Fixpoint isEmptyWKBPolygon_loop (n : nat) (p_blob : list byte)
  (n_bytes index byteOrder dimension : Z) : outcome Z :=
  match n with
  | O => Ret 0 index
  | S n' =>
      let* (ok, index) := skipWKBLineString p_blob n_bytes index byteOrder dimension in
      if ok =? 0 then Ret (-1) index
      else isEmptyWKBPolygon_loop n' p_blob n_bytes index byteOrder dimension
  end.

Definition isEmptyWKBPolygon (p_blob : list byte) (n_bytes index byteOrder dimension : Z)
  : outcome Z :=
  let* (numRings, index) := getInt p_blob index byteOrder in
  if numRings <? 1 then Ret (-1) index
  else if numRings =? 1 then isEmptyWKBLineString p_blob n_bytes index byteOrder dimension
  else isEmptyWKBPolygon_loop (Z.to_nat numRings) p_blob n_bytes index byteOrder dimension.

(** ** WKB walker: multi-geometries and collections

    The four envelope readers of the source have the same body up to the
    kind expected of the elements, and so have the four emptiness tests;
    the common bodies are [readWKBMultiEnv] and [isEmptyWKBMulti].  The
    dispatchers they call are the forward declarations of the source, here
    the section variables. *)

Section ForwardDeclarations.

(** [readWKBGeometryEnv p_blob n_bytes index byteOrder ordinate maxmin
    geometryTypeExpected]. *)
Variable readWKBGeometryEnv_fwd :
  list byte -> Z -> Z -> Z -> Z -> Z -> Z -> outcome (option double).

(** [isEmptyWKBGeometry p_blob n_bytes index byteOrder geometryTypeExpected]. *)
Variable isEmptyWKBGeometry_fwd : list byte -> Z -> Z -> Z -> Z -> outcome Z.

(** [n] iterations of [for (i = 1; i < numGeoms; i++)]. *)
Fixpoint readWKBMultiEnv_loop (n : nat) (elementType : Z) (p_blob : list byte)
  (n_bytes index byteOrder ordinate maxmin : Z) (res : double) : outcome (option double) :=
  match n with
  | O => Ret (Some res) index
  | S n' =>
      let* (r, index) :=
        readWKBGeometryEnv_fwd p_blob n_bytes index byteOrder ordinate maxmin elementType in
      match r with
      | None => Ret None index
      | Some res2 =>
          readWKBMultiEnv_loop n' elementType p_blob n_bytes index byteOrder ordinate maxmin
            (fold_extreme maxmin res res2)
      end
  end.

Definition readWKBMultiEnv (elementType : Z) (p_blob : list byte)
  (n_bytes index byteOrder dimension ordinate maxmin : Z) : outcome (option double) :=
  let* (numGeoms, index) := getInt p_blob index byteOrder in
  if numGeoms <? 1 then Ret None index
  else
    let* (r, index) :=
      readWKBGeometryEnv_fwd p_blob n_bytes index byteOrder ordinate maxmin elementType in
    match r with
    | None => Ret None index
    | Some res =>
        readWKBMultiEnv_loop (Z.to_nat (numGeoms - 1)) elementType p_blob n_bytes index
          byteOrder ordinate maxmin res
    end.

Definition readWKBMultiPointEnv := readWKBMultiEnv wkbPoint.
Definition readWKBMultiLineStringEnv := readWKBMultiEnv wkbLineString.
Definition readWKBMultiPolygonEnv := readWKBMultiEnv wkbPolygon.
Definition readWKBGeometryCollectionEnv := readWKBMultiEnv wkbGeometry.

(** [n] iterations of [for (int i = 0; i < numGeoms; i++)] with the running
    answer [res]. *)
Fixpoint isEmptyWKBMulti_loop (n : nat) (elementType : Z) (p_blob : list byte)
  (n_bytes index byteOrder : Z) (res : Z) : outcome Z :=
  match n with
  | O => Ret res index
  | S n' =>
      let* (res2, index) :=
        isEmptyWKBGeometry_fwd p_blob n_bytes index byteOrder elementType in
      if res2 <? 0 then Ret res2 index
      else
        isEmptyWKBMulti_loop n' elementType p_blob n_bytes index byteOrder
          (if res2 =? 0 then res2 else res)
  end.

Definition isEmptyWKBMulti (elementType : Z) (p_blob : list byte)
  (n_bytes index byteOrder dimension : Z) : outcome Z :=
  let* (numGeoms, index) := getInt p_blob index byteOrder in
  if numGeoms <? 1 then Ret 1 index
  else isEmptyWKBMulti_loop (Z.to_nat numGeoms) elementType p_blob n_bytes index byteOrder 1.

Definition isEmptyWKBMultiPoint := isEmptyWKBMulti wkbPoint.
Definition isEmptyWKBMultiLineString := isEmptyWKBMulti wkbLineString.
Definition isEmptyWKBMultiPolygon := isEmptyWKBMulti wkbPolygon.
Definition isEmptyWKBGeometryCollection := isEmptyWKBMulti wkbGeometry.

End ForwardDeclarations.

(** ** WKB walker: the dispatchers *)

(** The decoding of the type code shared by the two dispatchers. *)
Definition hasZ (typeInt : Z) : bool :=
  negb (Z.land typeInt 0x80000000 =? 0)
  || (Z.land typeInt 0xffff / 1000 =? 1) || (Z.land typeInt 0xffff / 1000 =? 3).

Definition hasM (typeInt : Z) : bool :=
  negb (Z.land typeInt 0x40000000 =? 0)
  || (Z.land typeInt 0xffff / 1000 =? 2) || (Z.land typeInt 0xffff / 1000 =? 3).

Definition hasSRID (typeInt : Z) : bool := negb (Z.land typeInt 0x20000000 =? 0).

Definition dimension_of (typeInt : Z) : Z :=
  2 + (if hasZ typeInt then 1 else 0) + (if hasM typeInt then 1 else 0).

Definition geometryType_of (typeInt : Z) : Z := Z.land typeInt 0xffff mod 1000.

(** [newByteOrder = p_blob[( *index)++]; if (newByteOrder == LITTLE_ENDIAN
    || newByteOrder == BIG_ENDIAN) byteOrder = newByteOrder;]. *)
Definition readByteOrder (p_blob : list byte) (index byteOrder : Z) : outcome Z :=
  let* (newByteOrder, index) := next_uchar p_blob index in
  Ret (if (newByteOrder =? LITTLE_ENDIAN) || (newByteOrder =? BIG_ENDIAN)
       then newByteOrder else byteOrder) index.

Fixpoint readWKBGeometryEnv (fuel : nat) (p_blob : list byte)
  (n_bytes index byteOrder ordinate maxmin geometryTypeExpected : Z)
  : outcome (option double) :=
  match fuel with
  | O => OutOfFuel
  | S fuel' =>
      let* (byteOrder, index) := readByteOrder p_blob index byteOrder in
      let* (typeInt, index) := getInt p_blob index byteOrder in
      let dimension := dimension_of typeInt in
      let check (ordinate : Z) :=
        let index := if hasSRID typeInt then Int.add index 4 else index in
        let geometryType := geometryType_of typeInt in
        if negb (geometryTypeExpected =? wkbGeometry)
           && negb (geometryTypeExpected =? geometryType)
        then Ret None index
        else if geometryType =? wkbPoint then
          readWKBPointOrd p_blob n_bytes index byteOrder dimension ordinate
        else if geometryType =? wkbLineString then
          readWKBLineStringEnv p_blob n_bytes index byteOrder dimension ordinate maxmin
        else if geometryType =? wkbPolygon then
          readWKBPolygonEnv p_blob n_bytes index byteOrder dimension ordinate maxmin
        else if geometryType =? wkbMultiPoint then
          readWKBMultiPointEnv (readWKBGeometryEnv fuel') p_blob n_bytes index byteOrder
            dimension ordinate maxmin
        else if geometryType =? wkbMultiLineString then
          readWKBMultiLineStringEnv (readWKBGeometryEnv fuel') p_blob n_bytes index byteOrder
            dimension ordinate maxmin
        else if geometryType =? wkbMultiPolygon then
          readWKBMultiPolygonEnv (readWKBGeometryEnv fuel') p_blob n_bytes index byteOrder
            dimension ordinate maxmin
        else if geometryType =? wkbGeometryCollection then
          readWKBGeometryCollectionEnv (readWKBGeometryEnv fuel') p_blob n_bytes index
            byteOrder dimension ordinate maxmin
        else Ret None index in
      if (dimension =? 3) && (ordinate =? M) then check Z_
      else if dimension <? ordinate then Ret None index
      else check ordinate
  end.

Fixpoint isEmptyWKBGeometry (fuel : nat) (p_blob : list byte)
  (n_bytes index byteOrder geometryTypeExpected : Z) : outcome Z :=
  match fuel with
  | O => OutOfFuel
  | S fuel' =>
      let* (byteOrder, index) := readByteOrder p_blob index byteOrder in
      let* (typeInt, index) := getInt p_blob index byteOrder in
      let dimension := dimension_of typeInt in
      let index := if hasSRID typeInt then Int.add index 4 else index in
      let geometryType := geometryType_of typeInt in
      if negb (geometryTypeExpected =? wkbGeometry)
         && negb (geometryTypeExpected =? geometryType)
      then Ret (-1) index
      else if geometryType =? wkbPoint then
        isEmptyWKBPoint p_blob n_bytes index byteOrder dimension
      else if geometryType =? wkbLineString then
        isEmptyWKBLineString p_blob n_bytes index byteOrder dimension
      else if geometryType =? wkbPolygon then
        isEmptyWKBPolygon p_blob n_bytes index byteOrder dimension
      else if geometryType =? wkbMultiPoint then
        isEmptyWKBMultiPoint (isEmptyWKBGeometry fuel') p_blob n_bytes index byteOrder dimension
      else if geometryType =? wkbMultiLineString then
        isEmptyWKBMultiLineString (isEmptyWKBGeometry fuel') p_blob n_bytes index byteOrder
          dimension
      else if geometryType =? wkbMultiPolygon then
        isEmptyWKBMultiPolygon (isEmptyWKBGeometry fuel') p_blob n_bytes index byteOrder
          dimension
      else if geometryType =? wkbGeometryCollection then
        isEmptyWKBGeometryCollection (isEmptyWKBGeometry fuel') p_blob n_bytes index byteOrder
          dimension
      else Ret (-1) index
  end.

(** ** GeoPackage header decoder *)

(** Returns the code of the source (0, 1 or -1) and the content of [*res],
    which is [res] wherever the source leaves it untouched. *)
Definition readGPKGHeaderEnv (p_blob : list byte) (n_bytes index ordinate maxmin : Z)
  (res : double) : outcome (Z * double) :=
  let* (magic1, index) := next_uchar p_blob index in
  if negb (magic1 =? GPKG_MAGIC1) then Ret (0, res) index else
  let* (magic2, index) := next_uchar p_blob index in
  if negb (magic2 =? GPKG_MAGIC2) then Ret (0, res) index else
  let* (version, index) := next_uchar p_blob index in
  if negb (version =? GPKG_VERSION) then Ret (0, res) index else
  let* (flags, index) := next_uchar p_blob index in
  let isEmpty := Z.shiftr (Z.land flags GPKG_EMPTY_BIT) 4 in
  let index := Int.add index 4 in
  let envelopeType := Z.shiftr (Z.land flags GPKG_ENV_BITS) 1 in
  if negb (isEmpty =? 0) then
    if envelopeType =? 0 then Ret (1, res) index
    else if envelopeType =? 1 then Ret (1, res) (Int.add index 32)
    else if envelopeType =? 2 then Ret (1, res) (Int.add index 48)
    else if envelopeType =? 3 then Ret (1, res) (Int.add index 48)
    else if envelopeType =? 4 then Ret (1, res) (Int.add index 64)
    else Ret (0, res) index
  else
    let byteOrder := Z.land flags GPKG_BYTEORDER_BIT in
    let read (dimension : Z) :=
      if (ordinate =? Z_) && ((envelopeType =? 1) || (envelopeType =? 3))
      then Ret (0, res) index
      else if (ordinate =? M) && ((envelopeType =? 1) || (envelopeType =? 2))
      then Ret (0, res) index
      else
        let ordinate := if (ordinate =? M) && (envelopeType =? 3) then Z_ else ordinate in
        if maxmin =? MIN then
          let index := Int.add index (Int.mul ordinate 8) in
          let* (res, index) := getDouble p_blob index byteOrder in
          if isnan res then
            Ret (-1, res)
              (Int.add index
                 (Int.mul (Int.sub (Int.sub (Int.add dimension dimension) ordinate) 1) 8))
          else Ret (1, res) index
        else
          let index := Int.add index (Int.add dimension (Int.mul ordinate 8)) in
          let* (res, index) := getDouble p_blob index byteOrder in
          if isnan res then
            Ret (-1, res) (Int.add index (Int.mul (Int.sub (Int.sub dimension ordinate) 1) 8))
          else Ret (1, res) index in
    if envelopeType =? 0 then Ret (-1, res) index
    else if envelopeType =? 1 then read 2
    else if envelopeType =? 2 then read 3
    else if envelopeType =? 3 then read 3
    else if envelopeType =? 4 then read 4
    else Ret (0, res) index.

Definition skipGPKGHeader (p_blob : list byte) (n_bytes index : Z) : outcome Z :=
  let* (magic1, index) := next_uchar p_blob index in
  if negb (magic1 =? GPKG_MAGIC1) then Ret 0 index else
  let* (magic2, index) := next_uchar p_blob index in
  if negb (magic2 =? GPKG_MAGIC2) then Ret 0 index else
  let* (version, index) := next_uchar p_blob index in
  if negb (version =? GPKG_VERSION) then Ret 0 index else
  let* (flags, index) := next_uchar p_blob index in
  let index := Int.add index 4 in
  let envelopeType := Z.shiftr (Z.land flags GPKG_ENV_BITS) 1 in
  if envelopeType =? 0 then Ret 1 index
  else if envelopeType =? 1 then Ret 1 (Int.add index 32)
  else if envelopeType =? 2 then Ret 1 (Int.add index 48)
  else if envelopeType =? 3 then Ret 1 (Int.add index 48)
  else if envelopeType =? 4 then Ret 1 (Int.add index 64)
  else Ret 0 index.

(** The compile-time switch [GPKG_ALLWAYS_USE_HEADER] of the source is the
    boolean argument of the two entry points: [true] when the macro is
    defined, [false] for the source as distributed.  [res] is the content of
    the caller's [res] on entry. *)
Definition readGPKGGeometryEnv (GPKG_ALLWAYS_USE_HEADER : bool) (fuel : nat)
  (p_blob : list byte) (n_bytes index byteOrder ordinate maxmin geometryTypeExpected : Z)
  (res : double) : outcome (option double) :=
  if GPKG_ALLWAYS_USE_HEADER then
    let* (h, index) := readGPKGHeaderEnv p_blob n_bytes index ordinate maxmin res in
    let '(headerOk, res) := h in
    if headerOk =? 1 then Ret (Some res) index
    else
      readWKBGeometryEnv fuel p_blob n_bytes index byteOrder ordinate maxmin
        geometryTypeExpected
  else
    let* (ok, index) := skipGPKGHeader p_blob n_bytes index in
    if ok =? 0 then Ret None index
    else
      readWKBGeometryEnv fuel p_blob n_bytes index byteOrder ordinate maxmin
        geometryTypeExpected.

(** Returns the code of the source and the content of [*isEmpty]. *)
Definition readEmptyGPKGHeader (p_blob : list byte) (n_bytes index : Z) : outcome (Z * Z) :=
  let* (magic1, index) := next_uchar p_blob index in
  if negb (magic1 =? GPKG_MAGIC1) then Ret (0, -1) index else
  let* (magic2, index) := next_uchar p_blob index in
  if negb (magic2 =? GPKG_MAGIC2) then Ret (0, -1) index else
  let* (version, index) := next_uchar p_blob index in
  if negb (version =? GPKG_VERSION) then Ret (0, -1) index else
  let* (flags, index) := next_uchar p_blob index in
  let isEmpty := Z.shiftr (Z.land flags GPKG_EMPTY_BIT) 4 in
  let index := Int.add index 4 in
  let envelopeType := Z.shiftr (Z.land flags GPKG_ENV_BITS) 1 in
  if envelopeType =? 0 then Ret (1, isEmpty) index
  else if envelopeType =? 1 then Ret (1, isEmpty) (Int.add index 32)
  else if envelopeType =? 2 then Ret (1, isEmpty) (Int.add index 48)
  else if envelopeType =? 3 then Ret (1, isEmpty) (Int.add index 48)
  else if envelopeType =? 4 then Ret (1, isEmpty) (Int.add index 64)
  else Ret (0, -1) index.

Definition isEmptyGPKGGeometry (GPKG_ALLWAYS_USE_HEADER : bool) (fuel : nat)
  (p_blob : list byte) (n_bytes index byteOrder geometryTypeExpected : Z) : outcome Z :=
  let* (h, index) := readEmptyGPKGHeader p_blob n_bytes index in
  let '(ok, isEmpty) := h in
  if ok =? 0 then Ret (-1) index
  else if GPKG_ALLWAYS_USE_HEADER then Ret isEmpty index
  else if isEmpty =? 1 then Ret 1 index
  else isEmptyWKBGeometry fuel p_blob n_bytes index byteOrder geometryTypeExpected.

End Decoder.

(** ** Notions used to state the properties *)

(** The fields of the flag byte of the header, as the three header
    functions compute them. *)
Definition header_isEmpty (flags : Z) : Z := Z.shiftr (Z.land flags GPKG_EMPTY_BIT) 4.
Definition header_envelopeType (flags : Z) : Z := Z.shiftr (Z.land flags GPKG_ENV_BITS) 1.

(** Number of bytes of the envelope of each kind (0 none, 1 XY, 2 XYZ,
    3 XYM, 4 XYZM). *)
Definition envelope_bytes (envelopeType : Z) : Z :=
  if envelopeType =? 1 then 32
  else if envelopeType =? 2 then 48
  else if envelopeType =? 3 then 48
  else if envelopeType =? 4 then 64
  else 0.

(** A well-formed container header at [index]: the two magic bytes, version
    0, a flag byte with an envelope kind in 0..4. *)
Definition well_formed_header (p_blob : list byte) (index flags : Z) : Prop :=
  byte_at p_blob index = Some GPKG_MAGIC1 /\
  byte_at p_blob (index + 1) = Some GPKG_MAGIC2 /\
  byte_at p_blob (index + 2) = Some GPKG_VERSION /\
  byte_at p_blob (index + 3) = Some flags /\
  0 <= header_envelopeType flags <= 4.

(** Number of ordinates of the envelope of each kind. *)
Definition envelope_dimension (envelopeType : Z) : Z :=
  if envelopeType =? 1 then 2
  else if envelopeType =? 2 then 3
  else if envelopeType =? 3 then 3
  else 4.

(** The requested ordinate is one of those of the envelope: no Z in the XY
    and XYM envelopes, no M in the XY and XYZ envelopes. *)
Definition ordinate_in_envelope (envelopeType ordinate : Z) : bool :=
  negb ((ordinate =? Z_) && ((envelopeType =? 1) || (envelopeType =? 3)))
  && negb ((ordinate =? M) && ((envelopeType =? 1) || (envelopeType =? 2))).

(** Rank of the requested ordinate among those of the envelope: M is the
    third ordinate of the XYM envelope. *)
Definition envelope_ordinate (envelopeType ordinate : Z) : Z :=
  if (ordinate =? M) && (envelopeType =? 3) then Z_ else ordinate.

(** Offset of the WKB body behind a well-formed header at [index]. *)
Definition body_offset (index flags : Z) : Z :=
  index + 8 + envelope_bytes (header_envelopeType flags).

(** [rings cpu p_blob n_bytes byteOrder dimension n i i']: from the cursor
    [i] the blob holds [n] rings, each with a point count of at least 1
    whose coordinates, the [numPoints * dimension * 8] bytes that follow
    the count, end within the [n_bytes] bytes of the buffer, the last ring
    ending at [i']. *)
Inductive rings (cpu : cpu_order) (p_blob : list byte) (n_bytes byteOrder dimension : Z)
  : nat -> Z -> Z -> Prop :=
| rings_O (i : Z) : rings cpu p_blob n_bytes byteOrder dimension O i i
| rings_S (n : nat) (i numPoints i0 i' : Z) :
    getInt cpu p_blob i byteOrder = Ret numPoints i0 ->
    1 <= numPoints ->
    i0 + numPoints * dimension * 8 <= n_bytes ->
    rings cpu p_blob n_bytes byteOrder dimension n (i0 + numPoints * dimension * 8) i' ->
    rings cpu p_blob n_bytes byteOrder dimension (S n) i i'.



(** The three answers of the emptiness tests. *)
Definition tri_state (c : Z) : Prop := c = -1 \/ c = 0 \/ c = 1.

(** [points_read cpu p_blob n_bytes byteOrder dimension ordinate n i vs i']:
    [readWKBPointOrd] succeeds on [n] successive points from the cursor [i]
    with the ordinates [vs] and leaves the cursor at [i']. *)
Inductive points_read (cpu : cpu_order) (p_blob : list byte)
  (n_bytes byteOrder dimension ordinate : Z) : nat -> Z -> list double -> Z -> Prop :=
| points_O (i : Z) : points_read cpu p_blob n_bytes byteOrder dimension ordinate O i [] i
| points_S (n : nat) (i : Z) (v : double) (i1 : Z) (vs : list double) (i' : Z) :
    readWKBPointOrd cpu p_blob n_bytes i byteOrder dimension ordinate = Ret (Some v) i1 ->
    points_read cpu p_blob n_bytes byteOrder dimension ordinate n i1 vs i' ->
    points_read cpu p_blob n_bytes byteOrder dimension ordinate (S n) i (v :: vs) i'.

(** A key that orders the floating-point numbers other than NaN as
    [SFcompare] does: class (negative infinity, negative, zero, positive,
    positive infinity), then exponent, then mantissa. *)
Definition SF_key (f : spec_float) : Z * Z * Z :=
  match f with
  | S754_zero _ => (0, 0, 0)
  | S754_infinity s => (if s then -2 else 2, 0, 0)
  | S754_nan => (0, 0, 0)
  | S754_finite s m e => if s then (-1, - e, Zneg m) else (1, e, Zpos m)
  end.

Definition lex_lt (p q : Z * Z * Z) : Prop :=
  let '(a, b, c) := p in
  let '(a', b', c') := q in
  a < a' \/ (a = a' /\ (b < b' \/ (b = b' /\ c < c'))).

Definition SF_is_nan (f : spec_float) : bool :=
  match f with S754_nan => true | _ => false end.

(** ** Writer of blobs

    The inverse of the primitive readers, used to state what the decoder
    does on every encoded geometry. *)

(** The byte of value [z mod 256]. *)
Definition byte_of_Z (z : Z) : byte :=
  match Byte.of_N (Z.to_N (z mod 256)) with Some b => b | None => x00 end.

(** The [n] low bytes of [z], least significant first. *)
Fixpoint le_split (n : nat) (z : Z) : list byte :=
  match n with
  | O => []
  | S n' => byte_of_Z z :: le_split n' (z / 256)
  end.

(** The [n] bytes of [z] in the declared byte order: least significant
    first for [LITTLE_ENDIAN], most significant first otherwise. *)
Definition put (byteOrder : Z) (n : nat) (z : Z) : list byte :=
  if byteOrder =? LITTLE_ENDIAN then le_split n z else rev (le_split n z).

Definition put_int (byteOrder z : Z) : list byte := put byteOrder 4 z.
Definition put_double (byteOrder : Z) (d : double) : list byte := put byteOrder 8 d.

(** [holds p_blob i bs]: the blob holds the bytes [bs] from the offset [i]. *)
Fixpoint holds (p_blob : list byte) (i : Z) (bs : list byte) : Prop :=
  match bs with
  | [] => True
  | b :: rest => byte_at p_blob i = Some (uchar b) /\ holds p_blob (i + 1) rest
  end.

(** ** Geometries and their encoding

    The records the WKB walker reads, as trees: every record carries its
    byte order marker, its type code (kind, Z, M and SRID flags) and its
    SRID, written only when the type code has the SRID flag.  A point is
    its coordinates, a line string its points, a polygon its rings, and the
    three multi-geometries and the collection are their elements, each a
    full record. *)

#[warnings="-automation"]
Inductive geometry : Type :=
| Point (byteOrder typeInt srid : Z) (coordinates : list double)
| LineString (byteOrder typeInt srid : Z) (points : list (list double))
| Polygon (byteOrder typeInt srid : Z) (rings : list (list (list double)))
| Collection (byteOrder typeInt srid : Z) (elements : list geometry).

(** The bytes [readWKBGeometryEnv] and [isEmptyWKBGeometry] read before
    they dispatch: marker, type code, optional SRID. *)
Definition put_header (byteOrder typeInt srid : Z) : list byte :=
  byte_of_Z byteOrder :: put_int byteOrder typeInt
    ++ (if hasSRID typeInt then put_int byteOrder srid else []).

Definition put_point (byteOrder : Z) (coordinates : list double) : list byte :=
  flat_map (put_double byteOrder) coordinates.

(** A line string or a ring: the number of points, then the points. *)
Definition put_points (byteOrder : Z) (points : list (list double)) : list byte :=
  put_int byteOrder (Z.of_nat (length points)) ++ flat_map (put_point byteOrder) points.

Fixpoint encode (g : geometry) : list byte :=
  match g with
  | Point bo t s c => put_header bo t s ++ put_point bo c
  | LineString bo t s pts => put_header bo t s ++ put_points bo pts
  | Polygon bo t s rings =>
      put_header bo t s ++ put_int bo (Z.of_nat (length rings))
        ++ flat_map (put_points bo) rings
  | Collection bo t s els =>
      put_header bo t s ++ put_int bo (Z.of_nat (length els)) ++ flat_map encode els
  end.

(** Nesting depth: the number of recursive calls of the dispatcher below
    the first one. *)
Fixpoint depth (g : geometry) : nat :=
  match g with
  | Collection _ _ _ els => S (list_max (map depth els))
  | _ => O
  end.

(** The same geometry with every byte-order marker flipped. *)
Fixpoint reorder (g : geometry) : geometry :=
  match g with
  | Point bo t s c => Point (1 - bo) t s c
  | LineString bo t s pts => LineString (1 - bo) t s pts
  | Polygon bo t s rings => Polygon (1 - bo) t s rings
  | Collection bo t s els => Collection (1 - bo) t s (map reorder els)
  end.

(** Well-formed geometries: 64-bit patterns, as many ordinates in every
    point as the type code of the record declares, 32-bit type codes and
    SRIDs, a marker that is 0 or 1, and a type code of the kind of the
    record. *)
Definition wf_double (d : double) : Prop := 0 <= d < 2 ^ 64.

Definition wf_point (dimension : Z) (c : list double) : Prop :=
  Z.of_nat (length c) = dimension /\ Forall wf_double c.

Definition wf_header (byteOrder typeInt srid : Z) : Prop :=
  (byteOrder = LITTLE_ENDIAN \/ byteOrder = BIG_ENDIAN) /\
  Int.in_range typeInt /\ Int.in_range srid.

#[warnings="-automation"]
Inductive wf : geometry -> Prop :=
| wf_Point bo t s c :
    wf_header bo t s -> geometryType_of t = wkbPoint ->
    wf_point (dimension_of t) c -> wf (Point bo t s c)
| wf_LineString bo t s pts :
    wf_header bo t s -> geometryType_of t = wkbLineString ->
    Forall (wf_point (dimension_of t)) pts -> wf (LineString bo t s pts)
| wf_Polygon bo t s rings :
    wf_header bo t s -> geometryType_of t = wkbPolygon ->
    Forall (Forall (wf_point (dimension_of t))) rings -> wf (Polygon bo t s rings)
| wf_Collection bo t s els :
    wf_header bo t s -> wkbMultiPoint <= geometryType_of t <= wkbGeometryCollection ->
    Forall wf els -> wf (Collection bo t s els).

(** ** The two queries on geometries

    What the two walkers compute, as functions of the geometry.  They
    follow the walkers case by case, the theorems
    [readWKBGeometryEnv_encode] and [isEmptyWKBGeometry_encode] below prove
    that the walkers on the encoding return exactly these values. *)

(** The ordinate check of [readWKBGeometryEnv] (lines 631 to 633): M
    becomes Z when the dimension is 3, an ordinate above the dimension is
    rejected. *)
Definition effective_ordinate (typeInt ordinate : Z) : option Z :=
  if (dimension_of typeInt =? 3) && (ordinate =? M) then Some Z_
  else if dimension_of typeInt <? ordinate then None
  else Some ordinate.

(** The check of the kind against the kind the caller expects. *)
Definition kind_accepted (expected typeInt : Z) : bool :=
  (expected =? wkbGeometry) || (expected =? geometryType_of typeInt).

(** The kind that each multi-geometry expects of its elements. *)
Definition element_kind (kind : Z) : Z :=
  if kind =? wkbMultiPoint then wkbPoint
  else if kind =? wkbMultiLineString then wkbLineString
  else if kind =? wkbMultiPolygon then wkbPolygon
  else wkbGeometry.

Definition ordinate_of (o : Z) (c : list double) : double := nth (Z.to_nat o) c 0.

(** The fold of the source: the first value, then [fold_extreme] on each
    following one. *)
Definition extreme (maxmin : Z) (vs : list double) : option double :=
  match vs with
  | [] => None
  | v :: rest => Some (fold_left (fold_extreme maxmin) rest v)
  end.

Definition line_envelope (o maxmin : Z) (pts : list (list double)) : option double :=
  extreme maxmin (map (ordinate_of o) pts).

Section FoldSome.

Context {A : Type}.
Variable f : A -> option double.
Variable maxmin : Z.

Fixpoint fold_some (l : list A) (acc : double) : option double :=
  match l with
  | [] => Some acc
  | x :: rest =>
      match f x with
      | None => None
      | Some v => fold_some rest (fold_extreme maxmin acc v)
      end
  end.

End FoldSome.

Definition nonempty {A : Type} (l : list A) : bool :=
  match l with [] => false | _ => true end.

(** X and Y of a polygon are those of the first ring, the other rings are
    only skipped (and must have a point); Z and M are folded over all the
    rings. *)
Definition polygon_envelope (o maxmin : Z) (rings : list (list (list double)))
  : option double :=
  match rings with
  | [] => None
  | r :: rest =>
      match line_envelope o maxmin r with
      | None => None
      | Some v =>
          if o <? Z_ then (if forallb nonempty rest then Some v else None)
          else fold_some (line_envelope o maxmin) maxmin rest v
      end
  end.

Fixpoint envelope (ordinate maxmin expected : Z) (g : geometry) : option double :=
  match g with
  | Point _ t _ c =>
      match effective_ordinate t ordinate with
      | None => None
      | Some o => if kind_accepted expected t then Some (ordinate_of o c) else None
      end
  | LineString _ t _ pts =>
      match effective_ordinate t ordinate with
      | None => None
      | Some o => if kind_accepted expected t then line_envelope o maxmin pts else None
      end
  | Polygon _ t _ rings =>
      match effective_ordinate t ordinate with
      | None => None
      | Some o => if kind_accepted expected t then polygon_envelope o maxmin rings else None
      end
  | Collection _ t _ els =>
      match effective_ordinate t ordinate with
      | None => None
      | Some o =>
          if kind_accepted expected t then
            match els with
            | [] => None
            | e :: rest =>
                match envelope o maxmin (element_kind (geometryType_of t)) e with
                | None => None
                | Some v =>
                    fold_some (envelope o maxmin (element_kind (geometryType_of t)))
                      maxmin rest v
                end
            end
          else None
      end
  end.

(** The codes of the emptiness test: 1 empty, 0 not empty, -1 malformed. *)
Definition point_emptiness (c : list double) : Z := if forallb isnan c then 1 else 0.

Definition line_emptiness (pts : list (list double)) : Z := if nonempty pts then 0 else 1.

Definition polygon_emptiness (rings : list (list (list double))) : Z :=
  match rings with
  | [] => -1
  | [r] => line_emptiness r
  | _ => if forallb nonempty rings then 0 else -1
  end.

Section Emptinesses.

Context {A : Type}.
Variable f : A -> Z.

(** The loop over the elements: the first negative code stops it, a 0
    makes the result 0. *)
Fixpoint emptinesses (l : list A) (res : Z) : Z :=
  match l with
  | [] => res
  | x :: rest =>
      if f x <? 0 then f x else emptinesses rest (if f x =? 0 then f x else res)
  end.

End Emptinesses.

Fixpoint emptiness (expected : Z) (g : geometry) : Z :=
  match g with
  | Point _ t _ c => if kind_accepted expected t then point_emptiness c else -1
  | LineString _ t _ pts => if kind_accepted expected t then line_emptiness pts else -1
  | Polygon _ t _ rings => if kind_accepted expected t then polygon_emptiness rings else -1
  | Collection _ t _ els =>
      if kind_accepted expected t
      then emptinesses (emptiness (element_kind (geometryType_of t))) els 1
      else -1
  end.

(** The ordinate asked of each record that the envelope query visits is one
    of the ordinates of that record. *)
Fixpoint ordinate_present (ordinate : Z) (g : geometry) : bool :=
  match g with
  | Point _ t _ _ | LineString _ t _ _ | Polygon _ t _ _ =>
      match effective_ordinate t ordinate with
      | None => true
      | Some o => (0 <=? o) && (o <? dimension_of t)
      end
  | Collection _ t _ els =>
      match effective_ordinate t ordinate with
      | None => true
      | Some o => (0 <=? o) && (o <? dimension_of t) && forallb (ordinate_present o) els
      end
  end.

(** Length of a sequence of bytes, as an offset. *)
Definition blen (bs : list byte) : Z := Z.of_nat (length bs).

(** ** Outcomes of the walkers on an encoded geometry

    The outcome has the expected value, and the cursor stops at [stop]
    unless the value is a failure. *)

Definition env_ok (r : outcome (option double)) (v : option double) (stop : Z) : Prop :=
  exists i, r = Ret v i /\ (v <> None -> i = stop).

Definition empty_ok (r : outcome Z) (c : Z) (stop : Z) : Prop :=
  exists i, r = Ret c i /\ (0 <= c -> i = stop).

(** What the envelope dispatcher does once the ordinate has been settled:
    the skip of the SRID, the check of the kind and the switch. *)
Definition env_dispatch (cpu : cpu_order)
  (callee : list byte -> Z -> Z -> Z -> Z -> Z -> Z -> outcome (option double))
  (p_blob : list byte)
  (n_bytes index byteOrder typeInt ordinate maxmin geometryTypeExpected : Z)
  : outcome (option double) :=
  let dimension := dimension_of typeInt in
  let index := if hasSRID typeInt then Int.add index 4 else index in
  let geometryType := geometryType_of typeInt in
  if negb (geometryTypeExpected =? wkbGeometry)
     && negb (geometryTypeExpected =? geometryType)
  then Ret None index
  else if geometryType =? wkbPoint then
    readWKBPointOrd cpu p_blob n_bytes index byteOrder dimension ordinate
  else if geometryType =? wkbLineString then
    readWKBLineStringEnv cpu p_blob n_bytes index byteOrder dimension ordinate maxmin
  else if geometryType =? wkbPolygon then
    readWKBPolygonEnv cpu p_blob n_bytes index byteOrder dimension ordinate maxmin
  else if geometryType =? wkbMultiPoint then
    readWKBMultiPointEnv cpu callee p_blob n_bytes index byteOrder dimension ordinate maxmin
  else if geometryType =? wkbMultiLineString then
    readWKBMultiLineStringEnv cpu callee p_blob n_bytes index byteOrder dimension ordinate
      maxmin
  else if geometryType =? wkbMultiPolygon then
    readWKBMultiPolygonEnv cpu callee p_blob n_bytes index byteOrder dimension ordinate maxmin
  else if geometryType =? wkbGeometryCollection then
    readWKBGeometryCollectionEnv cpu callee p_blob n_bytes index byteOrder dimension ordinate
      maxmin
  else Ret None index.

(** What the loops over the elements of a multi-geometry need of the
    dispatcher they call. *)
Definition element_env_ok (p_blob : list byte) (n_bytes : Z)
  (callee : list byte -> Z -> Z -> Z -> Z -> Z -> Z -> outcome (option double))
  (kind o maxmin : Z) (e : geometry) : Prop :=
  forall i ambient,
    holds p_blob i (encode e) ->
    env_ok (callee p_blob n_bytes i ambient o maxmin kind) (envelope o maxmin kind e)
           (i + blen (encode e)).

Definition element_empty_ok (p_blob : list byte) (n_bytes : Z)
  (callee : list byte -> Z -> Z -> Z -> Z -> outcome Z)
  (kind : Z) (e : geometry) : Prop :=
  forall i ambient,
    holds p_blob i (encode e) ->
    empty_ok (callee p_blob n_bytes i ambient kind) (emptiness kind e) (i + blen (encode e)).

(** ** Example blobs

    Byte for byte, the blobs the examples below run the decoder on. *)

(** The coordinate block of the 2-D point (1.0, 2.0), little-endian: 16 bytes. *)
Definition coords_1_2 : list byte :=
  [x00; x00; x00; x00; x00; x00; xf0; x3f;
   x00; x00; x00; x00; x00; x00; x00; x40].

(** GeoPackage header without envelope (8 bytes), the little-endian WKB point
    (1.0, 2.0) with type code 1 (21 bytes), then the 8 bytes of the double 3.0:
    37 bytes. *)
Definition gpkg_point2d_trailing : list byte :=
  [x47; x50; x00; x01; xe6; x10; x00; x00;
   x01; x01; x00; x00; x00; x00; x00; x00;
   x00; x00; x00; xf0; x3f; x00; x00; x00;
   x00; x00; x00; x00; x40; x00; x00; x00;
   x00; x00; x00; x08; x40].

(** GeoPackage header without envelope and the little-endian WKB point
    (1.0, 2.0) with type code 1: 29 bytes. *)
Definition gpkg_point2d : list byte :=
  [x47; x50; x00; x01; xe6; x10; x00; x00;
   x01; x01; x00; x00; x00; x00; x00; x00;
   x00; x00; x00; xf0; x3f; x00; x00; x00;
   x00; x00; x00; x00; x40].

(** GeoPackage header without envelope and the little-endian WKB point
    (1.0, 2.0, 3.0) with type code 1001 (Z only): 37 bytes. *)
Definition gpkg_pointz : list byte :=
  [x47; x50; x00; x01; xe6; x10; x00; x00;
   x01; xe9; x03; x00; x00; x00; x00; x00;
   x00; x00; x00; xf0; x3f; x00; x00; x00;
   x00; x00; x00; x00; x40; x00; x00; x00;
   x00; x00; x00; x08; x40].

(** GeoPackage header with an XY envelope holding the doubles 1.0, 2.0, 3.0,
    4.0 at float positions 0..3 (40 bytes) and the little-endian WKB line
    string (1.0 2.0, 3.0 4.0) (41 bytes): 81 bytes. *)
Definition gpkg_line_envelope : list byte :=
  [x47; x50; x00; x03; xe6; x10; x00; x00;
   x00; x00; x00; x00; x00; x00; xf0; x3f;
   x00; x00; x00; x00; x00; x00; x00; x40;
   x00; x00; x00; x00; x00; x00; x08; x40;
   x00; x00; x00; x00; x00; x00; x10; x40;
   x01; x02; x00; x00; x00; x02; x00; x00;
   x00; x00; x00; x00; x00; x00; x00; xf0;
   x3f; x00; x00; x00; x00; x00; x00; x00;
   x40; x00; x00; x00; x00; x00; x00; x08;
   x40; x00; x00; x00; x00; x00; x00; x10;
   x40].

(** GeoPackage header with the XY envelope of the point (1.0, 1.0), four
    doubles 1.0 (40 bytes), and the little-endian WKB point (1.0, 1.0)
    (21 bytes): 61 bytes. *)
Definition gpkg_point_envelope : list byte :=
  [x47; x50; x00; x03; xe6; x10; x00; x00;
   x00; x00; x00; x00; x00; x00; xf0; x3f;
   x00; x00; x00; x00; x00; x00; xf0; x3f;
   x00; x00; x00; x00; x00; x00; xf0; x3f;
   x00; x00; x00; x00; x00; x00; xf0; x3f;
   x01; x01; x00; x00; x00; x00; x00; x00;
   x00; x00; x00; xf0; x3f; x00; x00; x00;
   x00; x00; x00; xf0; x3f].

(** GeoPackage header without envelope and the little-endian WKB geometry
    collection (type code 7) of the point (1.0, 2.0) (type code 1) and the
    point (3.0, 4.0, 5.0) (type code 1001): 67 bytes. *)
Definition gpkg_collection_le : list byte :=
  [x47; x50; x00; x01; xe6; x10; x00; x00;
   x01; x07; x00; x00; x00; x02; x00; x00;
   x00; x01; x01; x00; x00; x00; x00; x00;
   x00; x00; x00; x00; xf0; x3f; x00; x00;
   x00; x00; x00; x00; x00; x40; x01; xe9;
   x03; x00; x00; x00; x00; x00; x00; x00;
   x00; x08; x40; x00; x00; x00; x00; x00;
   x00; x10; x40; x00; x00; x00; x00; x00;
   x00; x14; x40].

(** The same geometry as [gpkg_collection_le] written big-endian: every
    byte-order marker flipped, every 4-byte integer and 8-byte double
    byte-swapped. *)
Definition gpkg_collection_be : list byte :=
  [x47; x50; x00; x00; x00; x00; x10; xe6;
   x00; x00; x00; x00; x07; x00; x00; x00;
   x02; x00; x00; x00; x00; x01; x3f; xf0;
   x00; x00; x00; x00; x00; x00; x40; x00;
   x00; x00; x00; x00; x00; x00; x00; x00;
   x00; x03; xe9; x40; x08; x00; x00; x00;
   x00; x00; x00; x40; x10; x00; x00; x00;
   x00; x00; x00; x40; x14; x00; x00; x00;
   x00; x00; x00].

(** GeoPackage header without envelope whose empty flag is set (flags 0x11)
    and the little-endian WKB point (1.0, 2.0): 29 bytes. *)
Definition gpkg_stale_empty : list byte :=
  [x47; x50; x00; x11; xe6; x10; x00; x00;
   x01; x01; x00; x00; x00; x00; x00; x00;
   x00; x00; x00; xf0; x3f; x00; x00; x00;
   x00; x00; x00; x00; x40].

(** GeoPackage header without envelope whose empty flag is clear and the
    little-endian WKB line string with zero points: 17 bytes. *)
Definition gpkg_stale_nonempty : list byte :=
  [x47; x50; x00; x01; xe6; x10; x00; x00;
   x01; x02; x00; x00; x00; x00; x00; x00;
   x00].

(** GeoPackage header with an X,Y envelope (flags 0x03) that stores
    100.0 and 200.0 as the minimum and the maximum of X and of Y, and the
    little-endian WKB point (1.0, 2.0): 61 bytes. *)
Definition gpkg_stale_envelope : list byte :=
  [x47; x50; x00; x03; xe6; x10; x00; x00;
   x00; x00; x00; x00; x00; x00; x59; x40;
   x00; x00; x00; x00; x00; x00; x69; x40;
   x00; x00; x00; x00; x00; x00; x59; x40;
   x00; x00; x00; x00; x00; x00; x69; x40;
   x01; x01; x00; x00; x00; x00; x00; x00;
   x00; x00; x00; xf0; x3f; x00; x00; x00;
   x00; x00; x00; x00; x40].

(** GeoPackage header with an X,Y,Z,M envelope (flags 0x09), whose bytes
    18 to 38 are those of a little-endian WKB point (100.0, 1.0), and a body
    of 42 bytes: a little-endian WKB collection that announces 2 elements
    and holds a polygon of 2 rings, the ring (1.0 1.0) and a ring that
    announces 0x0FFFFFFA points, whose size wraps around to -96 in [int]:
    114 bytes. *)
Definition gpkg_rewind_100 : list byte :=
  [x47; x50; x00; x09; xe6; x10; x00; x00;
   x00; x00; x00; x00; x00; x00; x00; x00;
   x00; x00; x01; x01; x00; x00; x00; x00;
   x00; x00; x00; x00; x00; x59; x40; x00;
   x00; x00; x00; x00; x00; xf0; x3f; x00;
   x00; x00; x00; x00; x00; x00; x00; x00;
   x00; x00; x00; x00; x00; x00; x00; x00;
   x00; x00; x00; x00; x00; x00; x00; x00;
   x00; x00; x00; x00; x00; x00; x00; x00;
   x01; x07; x00; x00; x00; x02; x00; x00;
   x00; x01; x03; x00; x00; x00; x02; x00;
   x00; x00; x01; x00; x00; x00; x00; x00;
   x00; x00; x00; x00; xf0; x3f; x00; x00;
   x00; x00; x00; x00; xf0; x3f; xfa; xff;
   xff; x0f].

(** The blob [gpkg_rewind_100] with 1.0 for 100.0 at the bytes 23 to 30
    of the header: the same body behind another envelope. *)
Definition gpkg_rewind_1 : list byte :=
  [x47; x50; x00; x09; xe6; x10; x00; x00;
   x00; x00; x00; x00; x00; x00; x00; x00;
   x00; x00; x01; x01; x00; x00; x00; x00;
   x00; x00; x00; x00; x00; xf0; x3f; x00;
   x00; x00; x00; x00; x00; xf0; x3f; x00;
   x00; x00; x00; x00; x00; x00; x00; x00;
   x00; x00; x00; x00; x00; x00; x00; x00;
   x00; x00; x00; x00; x00; x00; x00; x00;
   x00; x00; x00; x00; x00; x00; x00; x00;
   x01; x07; x00; x00; x00; x02; x00; x00;
   x00; x01; x03; x00; x00; x00; x02; x00;
   x00; x00; x01; x00; x00; x00; x00; x00;
   x00; x00; x00; x00; xf0; x3f; x00; x00;
   x00; x00; x00; x00; xf0; x3f; xfa; xff;
   xff; x0f].

(** Little-endian WKB polygon with one ring of zero points: 13 bytes. *)
Definition wkb_polygon_empty : list byte :=
  [x01; x03; x00; x00; x00; x01; x00; x00;
   x00; x00; x00; x00; x00].

(** Little-endian WKB polygon with two rings: the ring of zero points of
    [wkb_polygon_empty] and the ring (1.0 1.0, 2.0 2.0): 49 bytes. *)
Definition wkb_polygon_empty_plus_ring : list byte :=
  [x01; x03; x00; x00; x00; x02; x00; x00;
   x00; x00; x00; x00; x00; x02; x00; x00;
   x00; x00; x00; x00; x00; x00; x00; xf0;
   x3f; x00; x00; x00; x00; x00; x00; xf0;
   x3f; x00; x00; x00; x00; x00; x00; x00;
   x40; x00; x00; x00; x00; x00; x00; x00;
   x40].

(** Little-endian WKB polygon with the rings (1.0 2.0) and
    (1.0 1.0, 2.0 2.0): 65 bytes. *)
Definition wkb_polygon_two_rings : list byte :=
  [x01; x03; x00; x00; x00; x02; x00; x00;
   x00; x01; x00; x00; x00; x00; x00; x00;
   x00; x00; x00; xf0; x3f; x00; x00; x00;
   x00; x00; x00; x00; x40; x02; x00; x00;
   x00; x00; x00; x00; x00; x00; x00; xf0;
   x3f; x00; x00; x00; x00; x00; x00; xf0;
   x3f; x00; x00; x00; x00; x00; x00; x00;
   x40; x00; x00; x00; x00; x00; x00; x00;
   x40].

(** Little-endian WKB polygon with two rings that announce 0x20000000
    points each and hold none: 17 bytes. *)
Definition wkb_polygon_overflow : list byte :=
  [x01; x03; x00; x00; x00; x02; x00; x00;
   x00; x00; x00; x00; x20; x00; x00; x00;
   x20].

(** Little-endian WKB line string with the single point (NaN, NaN): 25 bytes. *)
Definition wkb_linestring_nan : list byte :=
  [x01; x02; x00; x00; x00; x01; x00; x00;
   x00; x00; x00; x00; x00; x00; x00; xf8;
   x7f; x00; x00; x00; x00; x00; x00; xf8;
   x7f].

(** Little-endian WKB line string (2.0 1.0, 1.0 3.0, 3.0 2.0): 57 bytes. *)
Definition wkb_linestring_3 : list byte :=
  [x01; x02; x00; x00; x00; x03; x00; x00;
   x00; x00; x00; x00; x00; x00; x00; x00;
   x40; x00; x00; x00; x00; x00; x00; xf0;
   x3f; x00; x00; x00; x00; x00; x00; xf0;
   x3f; x00; x00; x00; x00; x00; x00; x08;
   x40; x00; x00; x00; x00; x00; x00; x08;
   x40; x00; x00; x00; x00; x00; x00; x00;
   x40].

(** Little-endian WKB multi-point of (NaN, NaN), (1.0, 2.0), (NaN, NaN):
    72 bytes. *)
Definition wkb_multipoint_3 : list byte :=
  [x01; x04; x00; x00; x00; x03; x00; x00;
   x00; x01; x01; x00; x00; x00; x00; x00;
   x00; x00; x00; x00; xf8; x7f; x00; x00;
   x00; x00; x00; x00; xf8; x7f; x01; x01;
   x00; x00; x00; x00; x00; x00; x00; x00;
   x00; xf0; x3f; x00; x00; x00; x00; x00;
   x00; x00; x40; x01; x01; x00; x00; x00;
   x00; x00; x00; x00; x00; x00; xf8; x7f;
   x00; x00; x00; x00; x00; x00; xf8; x7f].

(** Little-endian WKB multi-point whose second element is a line string:
    76 bytes. *)
Definition wkb_multipoint_bad : list byte :=
  [x01; x04; x00; x00; x00; x03; x00; x00;
   x00; x01; x01; x00; x00; x00; x00; x00;
   x00; x00; x00; x00; xf0; x3f; x00; x00;
   x00; x00; x00; x00; x00; x40; x01; x02;
   x00; x00; x00; x01; x00; x00; x00; x00;
   x00; x00; x00; x00; x00; xf0; x3f; x00;
   x00; x00; x00; x00; x00; x00; x40; x01;
   x01; x00; x00; x00; x00; x00; x00; x00;
   x00; x00; x08; x40; x00; x00; x00; x00;
   x00; x00; x10; x40].

(** Little-endian WKB geometry collection with zero elements: 9 bytes. *)
Definition wkb_collection_empty : list byte :=
  [x01; x07; x00; x00; x00; x00; x00; x00;
   x00].


(** Bit patterns of the doubles of the examples. *)
Definition d_1 : double := 0x3FF0000000000000.
Definition d_2 : double := 0x4000000000000000.
Definition d_3 : double := 0x4008000000000000.
Definition d_4 : double := 0x4010000000000000.
Definition d_5 : double := 0x4014000000000000.
Definition d_100 : double := 0x4059000000000000.
Definition d_nan : double := 0x7FF8000000000000.

(** The geometry of [gpkg_collection_le]: the collection of POINT(1 2) and
    POINT Z(3 4 5), every record little-endian. *)
Definition collection_of_two_points : geometry :=
  Collection LITTLE_ENDIAN 7 0
    [Point LITTLE_ENDIAN 1 0 [d_1; d_2]; Point LITTLE_ENDIAN 1001 0 [d_3; d_4; d_5]].

(** ** SQL functions on geometries *)

(** The argument [argv[0]] as the functions look at it: its datatype
    ([sqlite3_value_type]) and, for a BLOB, its bytes ([sqlite3_value_blob],
    of which [sqlite3_value_bytes] is the number). *)
Inductive sqlite3_value : Type :=
| SQLITE_INTEGER
| SQLITE_FLOAT
| SQLITE_TEXT
| SQLITE_BLOB (p_blob : list byte)
| SQLITE_NULL.

(** The result a function leaves in its context. *)
Inductive sqlite3_result : Type :=
| sqlite3_result_double (d : double)
| sqlite3_result_int (i : Z)
| sqlite3_result_null.

(** A call of an SQL function sets a result, unless it reads outside the
    blob or needs more fuel than it was given. *)
Inductive sql_outcome : Type :=
| Result (r : sqlite3_result)
| SqlFault
| SqlOutOfFuel.

Definition sqlite3_value_bytes (p_blob : list byte) : Z := Z.of_nat (length p_blob).

Section SqlFunctions.

Variable cpu : cpu_order.
Variable GPKG_ALLWAYS_USE_HEADER : bool.

(** The body shared by [fnct_STMinX] ... [fnct_STMaxM], which differ by the
    ordinate and the selector they pass only.  [res] is the content of the
    local [res], which the source does not initialise. *)
Definition fnct_STEnv (ordinate maxmin : Z) (fuel : nat) (argv0 : sqlite3_value)
  (res : double) : sql_outcome :=
  match argv0 with
  | SQLITE_BLOB p_blob =>
      let n_bytes := sqlite3_value_bytes p_blob in
      if n_bytes >=? 29 then
        match readGPKGGeometryEnv cpu GPKG_ALLWAYS_USE_HEADER fuel p_blob n_bytes 0
                (endian cpu) ordinate maxmin wkbGeometry res with
        | Ret (Some res) _ => Result (sqlite3_result_double res)
        | Ret None _ => Result sqlite3_result_null
        | Fault => SqlFault
        | OutOfFuel => SqlOutOfFuel
        end
      else Result sqlite3_result_null
  | _ => Result sqlite3_result_null
  end.

Definition fnct_STMinX := fnct_STEnv X MIN.
Definition fnct_STMinY := fnct_STEnv Y MIN.
Definition fnct_STMinZ := fnct_STEnv Z_ MIN.
Definition fnct_STMinM := fnct_STEnv M MIN.
Definition fnct_STMaxX := fnct_STEnv X MAX.
Definition fnct_STMaxY := fnct_STEnv Y MAX.
Definition fnct_STMaxZ := fnct_STEnv Z_ MAX.
Definition fnct_STMaxM := fnct_STEnv M MAX.

(** [int res = -1; ...; sqlite3_result_int(context, res);]. *)
Definition fnct_STIsEmpty (fuel : nat) (argv0 : sqlite3_value) : sql_outcome :=
  match argv0 with
  | SQLITE_BLOB p_blob =>
      let n_bytes := sqlite3_value_bytes p_blob in
      if n_bytes >=? 13 then
        match isEmptyGPKGGeometry cpu GPKG_ALLWAYS_USE_HEADER fuel p_blob n_bytes 0
                (endian cpu) wkbGeometry with
        | Ret res _ => Result (sqlite3_result_int res)
        | Fault => SqlFault
        | OutOfFuel => SqlOutOfFuel
        end
      else Result (sqlite3_result_int (-1))
  | _ => Result (sqlite3_result_int (-1))
  end.

End SqlFunctions.

(** ** Geometries without NaN *)

(** No coordinate of the geometry is NaN. *)
Fixpoint without_nan (g : geometry) : bool :=
  match g with
  | Point _ _ _ c => forallb (fun d => negb (isnan d)) c
  | LineString _ _ _ pts => forallb (forallb (fun d => negb (isnan d))) pts
  | Polygon _ _ _ rings => forallb (forallb (forallb (fun d => negb (isnan d)))) rings
  | Collection _ _ _ els => forallb without_nan els
  end.

(** A minimum and a maximum are both missing, or both numbers with the
    minimum below the maximum. *)
Definition ordered_extremes (lo hi : option double) : Prop :=
  match lo, hi with
  | Some lo, Some hi => isnan lo = false /\ isnan hi = false /\ double_le lo hi = true
  | None, None => True
  | _, _ => False
  end.

(** ** Further example blobs *)

(** Little-endian WKB line string that announces 0x20000000 points, a count
    whose size in bytes ([numPoints * 2 * 8]) wraps around to 0 in [int],
    and holds the single point (1.0, 2.0): 25 bytes. *)
Definition wkb_linestring_hostile : list byte :=
  [x01; x02; x00; x00; x00; x00; x00; x00;
   x20; x00; x00; x00; x00; x00; x00; xf0;
   x3f; x00; x00; x00; x00; x00; x00; x00;
   x40].

(** ** GPKG_AddGeometryColumn

    The database connection is a state of some type [sqlite3];
    [sqlite3_exec] and [sqlite3_mprintf] are those of SQLite, of which
    nothing is assumed.  A [const char*] is an [option string], [None] for
    the null pointer. *)

Definition SQLITE_OK : Z := 0.

(** What a function that changes the database leaves: the state of the
    connection and the error it reported with [sqlite3_result_error], if
    any; or no state at all when it passed a null pointer to the C
    library. *)
Inductive sql_effect (sqlite3 : Type) : Type :=
| Completed (db : sqlite3) (error : option String.string)
| Crashed.

Arguments Completed {sqlite3} db error.
Arguments Crashed {sqlite3}.

(** An argument of [sqlite3_mprintf]. *)
Inductive printf_arg : Type :=
| arg_text (s : option String.string)
| arg_int (i : Z).

Section AddGeometryColumn.

Import Stdlib.Strings.String Stdlib.Strings.Ascii.

(** [tolower] of the C locale. *)
Definition tolower (c : ascii) : ascii :=
  let n := N_of_ascii c in
  if ((65 <=? n) && (n <=? 90))%N then ascii_of_N (n + 32) else c.

(** [_stricmp] of the C library: the comparison of the lowercase versions of
    two strings, each ending at its first NUL. *)
Fixpoint _stricmp (string1 string2 : string) : Z :=
  match string1, string2 with
  | EmptyString, EmptyString => 0
  | EmptyString, String c2 _ => 0 - Z.of_N (N_of_ascii (tolower c2))
  | String c1 _, EmptyString => Z.of_N (N_of_ascii (tolower c1))
  | String c1 s1, String c2 s2 =>
      if (N_of_ascii (tolower c1) =? N_of_ascii (tolower c2))%N then
        if (N_of_ascii (tolower c1) =? 0)%N then 0 else _stricmp s1 s2
      else Z.of_N (N_of_ascii (tolower c1)) - Z.of_N (N_of_ascii (tolower c2))
  end.

(** The entries of the array before its terminating NULL. *)
Definition wktGeomtryTypes : list string :=
  ["GEOMETRY"%string; "POINT"%string; "LINESTRING"%string; "POLYGON"%string;
   "MULTIPOINT"%string; "MULTILINESTRING"%string; "MULTIPOLYGON"%string;
   "GEOMCOLLECTION"%string; "GEOMETRYCOLLECTION"%string].

(** [for (; wktGeomtryTypes[igtype] != NULL; igtype++)
      if (_stricmp(gtype, wktGeomtryTypes[igtype]) == 0) break;]
    on the entries that are left, from the counter [igtype]. *)
Fixpoint find_geometry_type (gtype : string) (entries : list string) (igtype : nat) : nat :=
  match entries with
  | [] => igtype
  | entry :: rest =>
      if _stricmp gtype entry =? 0 then igtype
      else find_geometry_type gtype rest (S igtype)
  end.

(** The two statements of the function, as it hands them to
    [sqlite3_mprintf]. *)
Definition insert_gpkg_contents : string :=
  "INSERT OR IGNORE INTO gpkg_contents(table_name, data_type, identifier, srs_id) VALUES(%Q, 'features', %Q, %i)"%string.

Definition insert_gpkg_geometry_columns : string :=
  "INSERT INTO gpkg_geometry_columns(table_name, column_name, geometry_type_name, srs_id, z, m) VALUES(%Q, %Q, '%s', %i, %i, %i)"%string.

(** The lowercase codes of a C string, up to its first NUL: what
    [_stricmp] compares. *)
Fixpoint cstr_lower (s : string) : list N :=
  match s with
  | EmptyString => []
  | String c s' =>
      if (N_of_ascii (tolower c) =? 0)%N then []
      else N_of_ascii (tolower c) :: cstr_lower s'
  end.

Variable sqlite3 : Type.
Variable sqlite3_exec : sqlite3 -> string -> sqlite3 * Z * string.
Variable sqlite3_mprintf : string -> list printf_arg -> string.

(** Returns the state of the connection, the result code of [sql] and the
    error reported to the context, if any. *)
Definition sqlite3_exec_free (db : sqlite3) (sql : string) (errsql : option string)
  : sqlite3 * Z * option string :=
  let '(db, res, err) := sqlite3_exec db sql in
  if negb (res =? SQLITE_OK) then
    let db :=
      match errsql with
      | Some errsql => fst (fst (sqlite3_exec db errsql))
      | None => db
      end in
    (db, res, Some err)
  else (db, res, None).

Definition fnct_GPKGAddGeometryColumn (db : sqlite3)
  (identifier table gcolumn gtype : option string) (srsid zflag mflag : Z)
  : sql_effect sqlite3 :=
  match gtype with
  | None => Crashed
  | Some gtype =>
      let igtype := find_geometry_type gtype wktGeomtryTypes 0 in
      match nth_error wktGeomtryTypes igtype with
      | None =>
          Completed db
            (Some "GPKG_AddGeometryColumn() error: argument 3 [geometryType] unrecognised geometry type"%string)
      | Some _ =>
          let igtype := if (igtype =? 8)%nat then 7%nat else igtype in
          if negb (zflag =? 0) && negb (zflag =? 1) && negb (zflag =? 2) then
            Completed db
              (Some "GPKG_AddGeometryColumn() error: argument 5 [zFlag] must be 0, 1 or 2"%string)
          else if negb (mflag =? 0) && negb (mflag =? 1) && negb (mflag =? 2) then
            Completed db
              (Some "GPKG_AddGeometryColumn() error: argument 6 [mFlag] must be 0, 1 or 2"%string)
          else
            let sql :=
              sqlite3_mprintf insert_gpkg_contents
                [arg_text table; arg_text identifier; arg_int srsid] in
            let '(db, res, error) := sqlite3_exec_free db sql None in
            if negb (res =? SQLITE_OK) then Completed db error
            else
              let sql :=
                sqlite3_mprintf insert_gpkg_geometry_columns
                  [arg_text table; arg_text gcolumn;
                   arg_text (nth_error wktGeomtryTypes igtype);
                   arg_int srsid; arg_int zflag; arg_int mflag] in
              let '(db, _, error) := sqlite3_exec_free db sql None in
              Completed db error
      end
  end.

End AddGeometryColumn.

(** ** Multi-geometries that announce more elements than they hold *)

(** The record of a multi-geometry or collection whose count field holds
    [numGeoms], followed by the encodings of [els]; with
    [numGeoms = length els] it is [encode (Collection bo t s els)]. *)
Definition encode_announcing (numGeoms bo t s : Z) (els : list geometry) : list byte :=
  put_header bo t s ++ put_int bo numGeoms ++ flat_map encode els.

(** GeoPackage header without envelope and a little-endian WKB multi-point
    (type code 4) that announces 2 points and ends after its first point
    (1.0, 2.0): 38 bytes. *)
Definition gpkg_multipoint_short : list byte :=
  [x47; x50; x00; x01; xe6; x10; x00; x00;
   x01; x04; x00; x00; x00; x02; x00; x00;
   x00; x01; x01; x00; x00; x00; x00; x00;
   x00; x00; x00; x00; xf0; x3f; x00; x00;
   x00; x00; x00; x00; x00; x40].

(** * Properties *)

(** ** Reads and cursor arithmetic *)

Lemma Int_wrap_in_range (z : Z) : Int.in_range (Int.wrap z).
Proof.
  unfold Int.in_range, Int.wrap, Int.min_int, Int.max_int.
  pose proof (Z.mod_pos_bound (z + 2147483648) 4294967296 ltac:(lia)). lia.
Qed.

Lemma Int_wrap_small (z : Z) : Int.in_range z -> Int.wrap z = z.
Proof.
  unfold Int.in_range, Int.wrap, Int.min_int, Int.max_int. intros H.
  rewrite Z.mod_small by lia. lia.
Qed.

Lemma Int_add_small (a b : Z) : Int.in_range (a + b) -> Int.add a b = a + b.
Proof. apply Int_wrap_small. Qed.

Lemma Int_sub_small (a b : Z) : Int.in_range (a - b) -> Int.sub a b = a - b.
Proof. apply Int_wrap_small. Qed.

Lemma Int_mul_small (a b : Z) : Int.in_range (a * b) -> Int.mul a b = a * b.
Proof. apply Int_wrap_small. Qed.

Ltac int_range := unfold Int.in_range, Int.min_int, Int.max_int in *; lia.

(** Removes the wrap-around of every operation whose result is in range. *)
Ltac int_simpl :=
  repeat match goal with
  | |- context [Int.add ?a ?b] => rewrite (Int_add_small a b) by int_range
  | |- context [Int.sub ?a ?b] => rewrite (Int_sub_small a b) by int_range
  | |- context [Int.mul ?a ?b] => rewrite (Int_mul_small a b) by int_range
  end.

Lemma uchar_range (b : byte) : 0 <= uchar b < 256.
Proof. unfold uchar. pose proof (Byte.to_N_bounded b). lia. Qed.

Lemma byte_at_Some (p_blob : list byte) (i b : Z) :
  byte_at p_blob i = Some b -> 0 <= i < Z.of_nat (length p_blob) /\ 0 <= b < 256.
Proof.
  unfold byte_at. destruct ((0 <=? i) && (i <? Z.of_nat (length p_blob))) eqn:E; [|discriminate].
  apply andb_prop in E. destruct E as [E1 E2].
  apply Z.leb_le in E1. apply Z.ltb_lt in E2.
  destruct (nth_error p_blob (Z.to_nat i)) as [c|]; [|discriminate].
  simpl. intros H. injection H as <-. split; [lia|apply uchar_range].
Qed.

Lemma byte_at_in (p_blob : list byte) (i : Z) :
  0 <= i < Z.of_nat (length p_blob) -> exists b, byte_at p_blob i = Some b.
Proof.
  intros H. unfold byte_at.
  replace ((0 <=? i) && (i <? Z.of_nat (length p_blob))) with true
    by (symmetry; apply andb_true_intro; split; [apply Z.leb_le|apply Z.ltb_lt]; lia).
  destruct (nth_error p_blob (Z.to_nat i)) as [c|] eqn:E.
  - eexists. reflexivity.
  - apply nth_error_None in E. lia.
Qed.

Lemma bytes_at_in (p_blob : list byte) (addrs : list Z) :
  Forall (fun a => 0 <= a < Z.of_nat (length p_blob)) addrs ->
  exists bs, bytes_at p_blob addrs = Some bs.
Proof.
  induction 1 as [|a rest Ha _ IH]; simpl.
  - eexists. reflexivity.
  - destruct (byte_at_in _ _ Ha) as [b ->]. destruct IH as [bs ->]. eexists. reflexivity.
Qed.

Lemma bytes_at_Some (p_blob : list byte) (addrs : list Z) (bs : list Z) :
  bytes_at p_blob addrs = Some bs ->
  Forall (fun a => 0 <= a < Z.of_nat (length p_blob)) addrs.
Proof.
  revert bs. induction addrs as [|a rest IH]; intros bs; simpl.
  - constructor.
  - destruct (byte_at p_blob a) as [b|] eqn:Ea; [|discriminate].
    destruct (bytes_at p_blob rest) as [bs'|] eqn:Er; [|discriminate].
    intros _. constructor; [apply (byte_at_Some _ _ _ Ea)|eapply IH; reflexivity].
Qed.

Lemma next_uchar_at (p_blob : list byte) (index b : Z) :
  byte_at p_blob index = Some b -> index + 1 <= Int.max_int ->
  next_uchar p_blob index = Ret b (index + 1).
Proof.
  intros Hb Hmax. unfold next_uchar. rewrite Hb.
  destruct (byte_at_Some _ _ _ Hb) as [Hi _].
  rewrite Int_add_small by int_range. reflexivity.
Qed.

Section ReaderFacts.

Variable cpu : cpu_order.

(** A double that lies inside the blob is read, and the cursor moves by 8. *)
Lemma getDouble_in_bounds (p_blob : list byte) (index byteOrder : Z) :
  0 <= index -> index + 8 <= Z.of_nat (length p_blob) -> index + 8 <= Int.max_int ->
  exists d, getDouble cpu p_blob index byteOrder = Ret d (index + 8).
Proof.
  intros H0 H1 H2. unfold getDouble.
  rewrite !Int_add_small by int_range.
  destruct (byteOrder =? endian cpu).
  - destruct (bytes_at_in p_blob
      [index; index + 1; index + 2; index + 3; index + 4; index + 5; index + 6; index + 7])
      as [bs ->]; [repeat constructor; lia|]. eexists. reflexivity.
  - destruct (bytes_at_in p_blob
      [index + 7; index + 6; index + 5; index + 4; index + 3; index + 2; index + 1; index])
      as [bs ->]; [repeat constructor; lia|]. eexists. reflexivity.
Qed.

Lemma getInt_in_bounds (p_blob : list byte) (index byteOrder : Z) :
  0 <= index -> index + 4 <= Z.of_nat (length p_blob) -> index + 4 <= Int.max_int ->
  exists v, getInt cpu p_blob index byteOrder = Ret v (index + 4).
Proof.
  intros H0 H1 H2. unfold getInt.
  rewrite !Int_add_small by int_range.
  destruct (byteOrder =? endian cpu).
  - destruct (bytes_at_in p_blob [index; index + 1; index + 2; index + 3])
      as [bs ->]; [repeat constructor; lia|]. eexists. reflexivity.
  - destruct (bytes_at_in p_blob [index + 3; index + 2; index + 1; index])
      as [bs ->]; [repeat constructor; lia|]. eexists. reflexivity.
Qed.

(** ** C10: bounds of [readWKBPointOrd] *)

(** C10 (as amended).  For a buffer of [n_bytes] bytes, a start index
    [0 <= index], a dimension in 2..4, an ordinate [0 <= ordinate <
    dimension] and a coordinate block whose end [index + dimension * 8] is
    representable as an [int], [readWKBPointOrd] either fails with the
    cursor unchanged, exactly when the block does not fit in the buffer, or
    succeeds (no read leaves the blob: the outcome is not [Fault]) with the
    double stored at [index + ordinate * 8], inside the block, and the
    cursor exactly at the end of the block. *)
Theorem readWKBPointOrd_bounds (p_blob : list byte)
  (n_bytes index byteOrder dimension ordinate : Z) :
  n_bytes = Z.of_nat (length p_blob) ->
  0 <= index ->
  2 <= dimension <= 4 ->
  0 <= ordinate < dimension ->
  index + dimension * 8 <= Int.max_int ->
  (n_bytes < index + dimension * 8 /\
   readWKBPointOrd cpu p_blob n_bytes index byteOrder dimension ordinate = Ret None index)
  \/
  (index + dimension * 8 <= n_bytes /\
   exists res,
     getDouble cpu p_blob (index + ordinate * 8) byteOrder
       = Ret res (index + ordinate * 8 + 8) /\
     readWKBPointOrd cpu p_blob n_bytes index byteOrder dimension ordinate
       = Ret (Some res) (index + dimension * 8)).
Proof.
  intros Hn Hi Hd Ho Hmax. unfold readWKBPointOrd.
  rewrite (Int_mul_small dimension 8) by int_range.
  rewrite (Int_add_small index (dimension * 8)) by int_range.
  destruct (index + dimension * 8 >? n_bytes) eqn:E.
  - left. split; [|reflexivity]. apply Z.gtb_lt in E. lia.
  - right. assert (index + dimension * 8 <= n_bytes) as Hfit
      by (rewrite Z.gtb_ltb in E; apply Z.ltb_ge in E; lia).
    split; [exact Hfit|].
    rewrite (Int_mul_small ordinate 8) by int_range.
    rewrite (Int_add_small index (ordinate * 8)) by int_range.
    destruct (getDouble_in_bounds p_blob (index + ordinate * 8) byteOrder) as [d Hd'];
      try (unfold Int.max_int in *; nia).
    exists d. split; [exact Hd'|]. rewrite Hd'. simpl.
    rewrite (Int_sub_small dimension ordinate) by int_range.
    rewrite (Int_sub_small (dimension - ordinate) 1) by int_range.
    rewrite (Int_mul_small (dimension - ordinate - 1) 8) by int_range.
    rewrite Int_add_small by int_range.
    f_equal. lia.
Qed.

End ReaderFacts.

(** The block of [coords_1_2] fits in its buffer: the second ordinate is
    read and the cursor lands on the end of the block. *)
Lemma readWKBPointOrd_bounds_witness :
  (16 < 0 + 2 * 8 /\
   readWKBPointOrd LittleEndianCPU coords_1_2 16 0 LITTLE_ENDIAN 2 1 = Ret None 0)
  \/
  (0 + 2 * 8 <= 16 /\
   exists res,
     getDouble LittleEndianCPU coords_1_2 (0 + 1 * 8) LITTLE_ENDIAN
       = Ret res (0 + 1 * 8 + 8) /\
     readWKBPointOrd LittleEndianCPU coords_1_2 16 0 LITTLE_ENDIAN 2 1
       = Ret (Some res) (0 + 2 * 8)).
Proof.
  apply (readWKBPointOrd_bounds LittleEndianCPU coords_1_2 16 0 LITTLE_ENDIAN 2 1);
    [reflexivity | lia | lia | lia | unfold Int.max_int; lia].
Defined.

(** C10 as stated fails for a start index within 16 bytes of [INT_MAX]: the
    sum [*index + dimension * 8] of the bounds check wraps around to a
    negative number, the check passes although the block lies outside the
    16-byte buffer, and the read leaves the blob. *)
Lemma readWKBPointOrd_overflow :
  0 <= 2147483640 /\ 0 <= 0 < 2 /\
  readWKBPointOrd LittleEndianCPU coords_1_2 16 2147483640 LITTLE_ENDIAN 2 0 = Fault /\
  ~ (readWKBPointOrd LittleEndianCPU coords_1_2 16 2147483640 LITTLE_ENDIAN 2 0
       = Ret None 2147483640
     \/ exists res,
          readWKBPointOrd LittleEndianCPU coords_1_2 16 2147483640 LITTLE_ENDIAN 2 0
            = Ret (Some res) (2147483640 + 2 * 8)).
Proof.
  split; [lia|]. split; [lia|]. split; [vm_compute; reflexivity|].
  intros [H | [res H]]; vm_compute in H; discriminate H.
Qed.

(** ** C4 and C5: the ordinate check of [readWKBGeometryEnv] *)

(** C4, at the failing input.  The record of [gpkg_point2d_trailing] has
    type code 1, hence dimension 2, and yet the request for Z is not
    rejected: the test [dimension < ordinate] is [2 < 2].  The point reader
    then reads the 8 bytes that follow the coordinate block and the call
    succeeds with that double (3.0); when nothing follows the block, as in
    [gpkg_point2d], the read leaves the blob.  The request for M on the same
    record is rejected. *)
Theorem readWKBGeometryEnv_Z_on_2D (cpu : cpu_order) (res : double) :
  getInt cpu gpkg_point2d_trailing 9 LITTLE_ENDIAN = Ret 1 13 /\
  dimension_of 1 = 2 /\
  readWKBGeometryEnv cpu 1 gpkg_point2d_trailing 37 8 (endian cpu) Z_ MIN wkbGeometry
    = Ret (Some d_3) 29 /\
  readGPKGGeometryEnv cpu false 1 gpkg_point2d_trailing 37 0 (endian cpu) Z_ MIN
    wkbGeometry res = Ret (Some d_3) 29 /\
  readGPKGGeometryEnv cpu false 1 gpkg_point2d 29 0 (endian cpu) Z_ MIN wkbGeometry res
    = Fault /\
  readGPKGGeometryEnv cpu false 1 gpkg_point2d_trailing 37 0 (endian cpu) M MIN
    wkbGeometry res = Ret None 13.
Proof. destruct cpu; vm_compute; repeat split; reflexivity. Qed.

(** C5, at the failing input.  The record of [gpkg_pointz] has type code
    1001: Z present, M absent, dimension 3.  The request for M is answered
    with the third stored ordinate, the Z value 3.0, exactly as the request
    for Z is. *)
Theorem readWKBGeometryEnv_M_on_XYZ (cpu : cpu_order) (res : double) :
  getInt cpu gpkg_pointz 9 LITTLE_ENDIAN = Ret 1001 13 /\
  hasZ 1001 = true /\ hasM 1001 = false /\ dimension_of 1001 = 3 /\
  readWKBGeometryEnv cpu 1 gpkg_pointz 37 8 (endian cpu) M MIN wkbGeometry
    = Ret (Some d_3) 37 /\
  readGPKGGeometryEnv cpu false 1 gpkg_pointz 37 0 (endian cpu) M MIN wkbGeometry res
    = Ret (Some d_3) 37 /\
  readGPKGGeometryEnv cpu false 1 gpkg_pointz 37 0 (endian cpu) Z_ MIN wkbGeometry res
    = Ret (Some d_3) 37.
Proof. destruct cpu; vm_compute; repeat split; reflexivity. Qed.

Section OrdinateCheck.

Variable cpu : cpu_order.

(** The defect behind C5 in general: on a record of dimension 3 the request
    for M is the request for Z, whatever the type code says about Z and M. *)
Lemma readWKBGeometryEnv_M_as_Z (fuel : nat) (p_blob : list byte)
  (n_bytes index byteOrder maxmin geometryTypeExpected bo i1 typeInt i2 : Z) :
  readByteOrder p_blob index byteOrder = Ret bo i1 ->
  getInt cpu p_blob i1 bo = Ret typeInt i2 ->
  dimension_of typeInt = 3 ->
  readWKBGeometryEnv cpu fuel p_blob n_bytes index byteOrder M maxmin geometryTypeExpected
  = readWKBGeometryEnv cpu fuel p_blob n_bytes index byteOrder Z_ maxmin geometryTypeExpected.
Proof.
  intros Hbo Hty Hdim. destruct fuel as [|fuel]; [reflexivity|].
  cbn [readWKBGeometryEnv]. rewrite Hbo. cbn [bind]. rewrite Hty. cbn [bind].
  rewrite Hdim. reflexivity.
Qed.

(** The defect behind C4 in general: asked for the ordinate [dimension], one
    past the last ordinate of the block, [readWKBPointOrd] checks the block
    only and returns the double that follows it. *)
Lemma readWKBPointOrd_past_block (p_blob : list byte) (n_bytes index byteOrder dimension : Z) :
  0 <= index -> 0 <= dimension ->
  index + dimension * 8 <= n_bytes ->
  index + dimension * 8 + 8 <= Z.of_nat (length p_blob) ->
  index + dimension * 8 + 8 <= Int.max_int ->
  exists d,
    getDouble cpu p_blob (index + dimension * 8) byteOrder
      = Ret d (index + dimension * 8 + 8) /\
    readWKBPointOrd cpu p_blob n_bytes index byteOrder dimension dimension
      = Ret (Some d) (index + dimension * 8).
Proof.
  intros Hi Hd Hfit Hlen Hmax.
  destruct (getDouble_in_bounds cpu p_blob (index + dimension * 8) byteOrder) as [d Hget];
    try lia.
  exists d. split; [exact Hget|]. unfold readWKBPointOrd. int_simpl.
  replace (index + dimension * 8 >? n_bytes) with false
    by (symmetry; rewrite Z.gtb_ltb; apply Z.ltb_ge; lia).
  rewrite Hget. cbn [bind]. int_simpl. f_equal. lia.
Qed.

(** On a point record of dimension 2 without SRID the request for Z reaches
    [readWKBPointOrd] with the ordinate 2. *)
Lemma readWKBGeometryEnv_Z_not_rejected (fuel : nat) (p_blob : list byte)
  (n_bytes index byteOrder maxmin bo i1 typeInt i2 : Z) :
  readByteOrder p_blob index byteOrder = Ret bo i1 ->
  getInt cpu p_blob i1 bo = Ret typeInt i2 ->
  dimension_of typeInt = 2 ->
  hasSRID typeInt = false ->
  geometryType_of typeInt = wkbPoint ->
  readWKBGeometryEnv cpu (S fuel) p_blob n_bytes index byteOrder Z_ maxmin wkbGeometry
  = readWKBPointOrd cpu p_blob n_bytes i2 bo 2 Z_.
Proof.
  intros Hbo Hty Hdim Hsrid Hkind.
  cbn [readWKBGeometryEnv]. rewrite Hbo. cbn [bind]. rewrite Hty. cbn [bind].
  rewrite Hdim, Hsrid, Hkind. reflexivity.
Qed.

End OrdinateCheck.

(** ** C1 and C3: the envelope of the header *)

Section HeaderEnvelope.

Variable cpu : cpu_order.

Ltac header_prefix index H1 H2 H3 H4 :=
  rewrite (next_uchar_at _ _ _ H1) by lia; cbn [bind]; rewrite Z.eqb_refl; cbn [negb];
  rewrite (next_uchar_at _ _ _ H2) by lia; cbn [bind]; rewrite Z.eqb_refl; cbn [negb];
  replace (index + 1 + 1) with (index + 2) by lia;
  rewrite (next_uchar_at _ _ _ H3) by lia; cbn [bind]; rewrite Z.eqb_refl; cbn [negb];
  replace (index + 2 + 1) with (index + 3) by lia;
  rewrite (next_uchar_at _ _ _ H4) by lia; cbn [bind].

(** The half of C1 that holds: on a well-formed header that is not flagged
    empty, the minimum is the double at float position [ordinate] of the
    envelope (with M as third ordinate of an XYM envelope), when that double
    is not NaN. *)
Lemma readGPKGHeaderEnv_min (p_blob : list byte) (n_bytes index flags ordinate : Z)
  (res d : double) (i : Z) :
  well_formed_header p_blob index flags ->
  index + 72 <= Int.max_int ->
  header_isEmpty flags = 0 ->
  1 <= header_envelopeType flags ->
  0 <= ordinate <= 3 ->
  ordinate_in_envelope (header_envelopeType flags) ordinate = true ->
  getDouble cpu p_blob
    (index + 8 + 8 * envelope_ordinate (header_envelopeType flags) ordinate)
    (Z.land flags GPKG_BYTEORDER_BIT) = Ret d i ->
  isnan d = false ->
  readGPKGHeaderEnv cpu p_blob n_bytes index ordinate MIN res = Ret (1, d) i.
Proof.
  intros (H1 & H2 & H3 & H4 & He) Hmax Hempty He1 Ho Hin Hget Hnan.
  destruct (byte_at_Some _ _ _ H1) as [Hi _].
  unfold readGPKGHeaderEnv. header_prefix index H1 H2 H3 H4.
  fold (header_envelopeType flags). fold (header_isEmpty flags).
  rewrite Hempty. cbn [Z.eqb negb].
  assert (Ee : header_envelopeType flags = 1 \/ header_envelopeType flags = 2 \/
               header_envelopeType flags = 3 \/ header_envelopeType flags = 4) by lia.
  assert (Eo : ordinate = 0 \/ ordinate = 1 \/ ordinate = 2 \/ ordinate = 3) by lia.
  destruct Ee as [Ee|[Ee|[Ee|Ee]]]; rewrite Ee in *;
    destruct Eo as [Eo|[Eo|[Eo|Eo]]]; subst ordinate;
    try discriminate Hin;
    cbv [envelope_ordinate X Y Z_ M MIN Z.eqb Pos.eqb andb orb] in *;
    int_simpl;
    match goal with
    | Hg : getDouble cpu p_blob ?a _ = _ |- context [getDouble cpu p_blob ?b _] =>
        replace b with a by lia; rewrite Hg
    end;
    cbn [bind]; rewrite Hnan; reflexivity.
Qed.

(** The defect behind C1 and C3 in general: the maximum is the double found
    [dimension + 8 * ordinate] bytes into the envelope, not the one at float
    position [dimension + ordinate]. *)
Lemma readGPKGHeaderEnv_max (p_blob : list byte) (n_bytes index flags ordinate : Z)
  (res d : double) (i : Z) :
  well_formed_header p_blob index flags ->
  index + 72 <= Int.max_int ->
  header_isEmpty flags = 0 ->
  1 <= header_envelopeType flags ->
  0 <= ordinate <= 3 ->
  ordinate_in_envelope (header_envelopeType flags) ordinate = true ->
  getDouble cpu p_blob
    (index + 8 + (envelope_dimension (header_envelopeType flags)
                  + 8 * envelope_ordinate (header_envelopeType flags) ordinate))
    (Z.land flags GPKG_BYTEORDER_BIT) = Ret d i ->
  isnan d = false ->
  readGPKGHeaderEnv cpu p_blob n_bytes index ordinate MAX res = Ret (1, d) i.
Proof.
  intros (H1 & H2 & H3 & H4 & He) Hmax Hempty He1 Ho Hin Hget Hnan.
  destruct (byte_at_Some _ _ _ H1) as [Hi _].
  unfold readGPKGHeaderEnv. header_prefix index H1 H2 H3 H4.
  fold (header_envelopeType flags). fold (header_isEmpty flags).
  rewrite Hempty. cbn [Z.eqb negb].
  assert (Ee : header_envelopeType flags = 1 \/ header_envelopeType flags = 2 \/
               header_envelopeType flags = 3 \/ header_envelopeType flags = 4) by lia.
  assert (Eo : ordinate = 0 \/ ordinate = 1 \/ ordinate = 2 \/ ordinate = 3) by lia.
  destruct Ee as [Ee|[Ee|[Ee|Ee]]]; rewrite Ee in *;
    destruct Eo as [Eo|[Eo|[Eo|Eo]]]; subst ordinate;
    try discriminate Hin;
    cbv [envelope_ordinate envelope_dimension X Y Z_ M MIN MAX Z.eqb Pos.eqb andb orb] in *;
    int_simpl;
    match goal with
    | Hg : getDouble cpu p_blob ?a _ = _ |- context [getDouble cpu p_blob ?b _] =>
        replace b with a by lia; rewrite Hg
    end;
    cbn [bind]; rewrite Hnan; reflexivity.
Qed.

End HeaderEnvelope.

(** C1, at the failing input.  The header of [gpkg_line_envelope] declares
    an XY envelope (dimension 2) and is not flagged empty.  The minimum of X
    is the double at float position 0 of the envelope (1.0).  The maximum of
    X is not the double at float position [dimension + ordinate = 2] (3.0,
    at byte 24): the cursor is advanced by [dimension + ordinate * 8 = 2]
    bytes instead of [(dimension + ordinate) * 8], and the double returned
    is the one assembled from bytes 10..17. *)
Theorem readGPKGHeaderEnv_max_offset (cpu : cpu_order) (res : double) :
  readGPKGHeaderEnv cpu gpkg_line_envelope 81 0 X MIN res = Ret (1, d_1) 16 /\
  getDouble cpu gpkg_line_envelope (8 + 8 * X) LITTLE_ENDIAN = Ret d_1 16 /\
  readGPKGHeaderEnv cpu gpkg_line_envelope 81 0 X MAX res
    = Ret (1, 0x00003FF000000000) 18 /\
  getDouble cpu gpkg_line_envelope (8 + 8 * (2 + X)) LITTLE_ENDIAN = Ret d_3 32 /\
  getDouble cpu gpkg_line_envelope (8 + (2 + X * 8)) LITTLE_ENDIAN
    = Ret 0x00003FF000000000 18 /\
  0x00003FF000000000 <> d_3.
Proof. destruct cpu; vm_compute; repeat split; try reflexivity; discriminate. Qed.

(** C3, at the failing input.  In [gpkg_point_envelope] every double of the
    header envelope is the extreme that the WKB walker computes from the
    body (1.0 for both ordinates and both extremes), and the empty flag is
    clear.  For the maximum of X the entry point compiled with
    [GPKG_ALLWAYS_USE_HEADER] answers from the header with the double
    assembled from bytes 10..17, and the entry point compiled without it
    answers 1.0 from the body. *)
Theorem readGPKGGeometryEnv_modes_differ (cpu : cpu_order) (res : double) :
  getDouble cpu gpkg_point_envelope 8 LITTLE_ENDIAN = Ret d_1 16 /\
  getDouble cpu gpkg_point_envelope 16 LITTLE_ENDIAN = Ret d_1 24 /\
  getDouble cpu gpkg_point_envelope 24 LITTLE_ENDIAN = Ret d_1 32 /\
  getDouble cpu gpkg_point_envelope 32 LITTLE_ENDIAN = Ret d_1 40 /\
  readWKBGeometryEnv cpu 1 gpkg_point_envelope 61 40 (endian cpu) X MIN wkbGeometry
    = Ret (Some d_1) 61 /\
  readWKBGeometryEnv cpu 1 gpkg_point_envelope 61 40 (endian cpu) X MAX wkbGeometry
    = Ret (Some d_1) 61 /\
  readWKBGeometryEnv cpu 1 gpkg_point_envelope 61 40 (endian cpu) Y MIN wkbGeometry
    = Ret (Some d_1) 61 /\
  readWKBGeometryEnv cpu 1 gpkg_point_envelope 61 40 (endian cpu) Y MAX wkbGeometry
    = Ret (Some d_1) 61 /\
  readGPKGGeometryEnv cpu true 1 gpkg_point_envelope 61 0 (endian cpu) X MAX wkbGeometry res
    = Ret (Some 0x00003FF000000000) 18 /\
  readGPKGGeometryEnv cpu false 1 gpkg_point_envelope 61 0 (endian cpu) X MAX wkbGeometry res
    = Ret (Some d_1) 61 /\
  0x00003FF000000000 <> d_1.
Proof. destruct cpu; vm_compute; repeat split; try reflexivity; discriminate. Qed.

(** ** C9: byte order *)

Section ByteOrder.

Variable cpu : cpu_order.

(** The two readers decode by the declared byte order, whatever the
    processor: with the 4 (resp. 8) bytes at the cursor reversed and the
    opposite byte order declared they return the same value and cursor. *)
Lemma getInt_swap (p_blob q_blob : list byte) (index byteOrder : Z) :
  byteOrder = LITTLE_ENDIAN \/ byteOrder = BIG_ENDIAN ->
  0 <= index -> index + 4 <= Int.max_int ->
  (forall k, 0 <= k < 4 -> byte_at q_blob (index + k) = byte_at p_blob (index + 3 - k)) ->
  getInt cpu q_blob index (1 - byteOrder) = getInt cpu p_blob index byteOrder.
Proof.
  intros Hbo H0 Hmax Hswap. unfold getInt.
  rewrite !Int_add_small by int_range.
  pose proof (Hswap 0 ltac:(lia)) as S0. pose proof (Hswap 1 ltac:(lia)) as S1.
  pose proof (Hswap 2 ltac:(lia)) as S2. pose proof (Hswap 3 ltac:(lia)) as S3.
  replace (index + 0) with index in S0 by lia.
  replace (index + 3 - 0) with (index + 3) in S0 by lia.
  replace (index + 3 - 1) with (index + 2) in S1 by lia.
  replace (index + 3 - 2) with (index + 1) in S2 by lia.
  replace (index + 3 - 3) with index in S3 by lia.
  unfold bytes_at. rewrite S0, S1, S2, S3.
  destruct Hbo as [-> | ->]; destruct cpu; simpl; reflexivity.
Qed.

Lemma getDouble_swap (p_blob q_blob : list byte) (index byteOrder : Z) :
  byteOrder = LITTLE_ENDIAN \/ byteOrder = BIG_ENDIAN ->
  0 <= index -> index + 8 <= Int.max_int ->
  (forall k, 0 <= k < 8 -> byte_at q_blob (index + k) = byte_at p_blob (index + 7 - k)) ->
  getDouble cpu q_blob index (1 - byteOrder) = getDouble cpu p_blob index byteOrder.
Proof.
  intros Hbo H0 Hmax Hswap. unfold getDouble.
  rewrite !Int_add_small by int_range.
  pose proof (Hswap 0 ltac:(lia)) as S0. pose proof (Hswap 1 ltac:(lia)) as S1.
  pose proof (Hswap 2 ltac:(lia)) as S2. pose proof (Hswap 3 ltac:(lia)) as S3.
  pose proof (Hswap 4 ltac:(lia)) as S4. pose proof (Hswap 5 ltac:(lia)) as S5.
  pose proof (Hswap 6 ltac:(lia)) as S6. pose proof (Hswap 7 ltac:(lia)) as S7.
  replace (index + 0) with index in S0 by lia.
  replace (index + 7 - 0) with (index + 7) in S0 by lia.
  replace (index + 7 - 1) with (index + 6) in S1 by lia.
  replace (index + 7 - 2) with (index + 5) in S2 by lia.
  replace (index + 7 - 3) with (index + 4) in S3 by lia.
  replace (index + 7 - 4) with (index + 3) in S4 by lia.
  replace (index + 7 - 5) with (index + 2) in S5 by lia.
  replace (index + 7 - 6) with (index + 1) in S6 by lia.
  replace (index + 7 - 7) with index in S7 by lia.
  unfold bytes_at. rewrite S0, S1, S2, S3, S4, S5, S6, S7.
  destruct Hbo as [-> | ->]; destruct cpu; simpl; reflexivity.
Qed.

(** C9, at the failing input.  [gpkg_collection_be] is [gpkg_collection_le]
    written with the opposite byte order.  Both are judged non-empty, and
    the maximum of Z is 5.0 for both, but the minimum of Z differs: the
    collection and its first point have dimension 2, the request for Z is
    not rejected (the test [dimension < ordinate] of C4), and the double
    read in place of the missing Z of the first point is made of the first
    8 bytes of the record that follows (byte-order marker, type code, three
    bytes of X), which the re-encoding does not merely reverse. *)
Theorem readGPKGGeometryEnv_byte_order_Z (res : double) :
  isEmptyGPKGGeometry cpu false 2 gpkg_collection_le 67 0 (endian cpu) wkbGeometry
    = Ret 0 67 /\
  isEmptyGPKGGeometry cpu false 2 gpkg_collection_be 67 0 (endian cpu) wkbGeometry
    = Ret 0 67 /\
  readGPKGGeometryEnv cpu false 2 gpkg_collection_le 67 0 (endian cpu) Z_ MAX wkbGeometry res
    = Ret (Some d_5) 67 /\
  readGPKGGeometryEnv cpu false 2 gpkg_collection_be 67 0 (endian cpu) Z_ MAX wkbGeometry res
    = Ret (Some d_5) 67 /\
  readGPKGGeometryEnv cpu false 2 gpkg_collection_le 67 0 (endian cpu) Z_ MIN wkbGeometry res
    = Ret (Some 0x000000000003E901) 67 /\
  readGPKGGeometryEnv cpu false 2 gpkg_collection_be 67 0 (endian cpu) Z_ MIN wkbGeometry res
    = Ret (Some 0x00000003E9400800) 67 /\
  0x000000000003E901 <> 0x00000003E9400800.
Proof. destruct cpu; vm_compute; repeat split; try reflexivity; discriminate. Qed.

End ByteOrder.

(** ** C2: the entry points compiled without [GPKG_ALLWAYS_USE_HEADER] *)

Section DefaultMode.

Variable cpu : cpu_order.

Lemma envelope_bytes_cases (e : Z) :
  0 <= e <= 4 -> e = 0 \/ e = 1 \/ e = 2 \/ e = 3 \/ e = 4.
Proof. lia. Qed.

(** Both header functions of the default mode stop at the body offset. *)
Lemma skipGPKGHeader_ok (p_blob : list byte) (n_bytes index flags : Z) :
  well_formed_header p_blob index flags -> index + 72 <= Int.max_int ->
  skipGPKGHeader p_blob n_bytes index = Ret 1 (body_offset index flags).
Proof.
  intros (H1 & H2 & H3 & H4 & He) Hmax.
  destruct (byte_at_Some _ _ _ H1) as [Hi _].
  unfold skipGPKGHeader, body_offset.
  rewrite (next_uchar_at _ _ _ H1) by lia. cbn [bind]. rewrite Z.eqb_refl. cbn [negb].
  rewrite (next_uchar_at _ _ _ H2) by lia. cbn [bind]. rewrite Z.eqb_refl. cbn [negb].
  replace (index + 1 + 1) with (index + 2) by lia.
  rewrite (next_uchar_at _ _ _ H3) by lia. cbn [bind]. rewrite Z.eqb_refl. cbn [negb].
  replace (index + 2 + 1) with (index + 3) by lia.
  rewrite (next_uchar_at _ _ _ H4) by lia. cbn [bind].
  fold (header_envelopeType flags).
  destruct (envelope_bytes_cases _ He) as [E|[E|[E|[E|E]]]]; rewrite E;
    unfold envelope_bytes; simpl; int_simpl; f_equal; lia.
Qed.

Lemma readEmptyGPKGHeader_ok (p_blob : list byte) (n_bytes index flags : Z) :
  well_formed_header p_blob index flags -> index + 72 <= Int.max_int ->
  readEmptyGPKGHeader p_blob n_bytes index
    = Ret (1, header_isEmpty flags) (body_offset index flags).
Proof.
  intros (H1 & H2 & H3 & H4 & He) Hmax.
  destruct (byte_at_Some _ _ _ H1) as [Hi _].
  unfold readEmptyGPKGHeader, body_offset.
  rewrite (next_uchar_at _ _ _ H1) by lia. cbn [bind]. rewrite Z.eqb_refl. cbn [negb].
  rewrite (next_uchar_at _ _ _ H2) by lia. cbn [bind]. rewrite Z.eqb_refl. cbn [negb].
  replace (index + 1 + 1) with (index + 2) by lia.
  rewrite (next_uchar_at _ _ _ H3) by lia. cbn [bind]. rewrite Z.eqb_refl. cbn [negb].
  replace (index + 2 + 1) with (index + 3) by lia.
  rewrite (next_uchar_at _ _ _ H4) by lia. cbn [bind].
  fold (header_envelopeType flags). fold (header_isEmpty flags).
  destruct (envelope_bytes_cases _ He) as [E|[E|[E|[E|E]]]]; rewrite E;
    unfold envelope_bytes; simpl; int_simpl; f_equal; lia.
Qed.

(** The empty field is the bit 4 of the flag byte. *)
Lemma header_isEmpty_bit (flags : Z) :
  header_isEmpty flags = Z.b2z (Z.testbit flags 4).
Proof.
  unfold header_isEmpty, GPKG_EMPTY_BIT.
  rewrite Z.shiftr_land. change (Z.shiftr (Z.shiftl 1 5) 4) with 2.
  change (Z.shiftr (Z.shiftl 1 4) 4) with 1.
  change 1 with (Z.ones 1). rewrite Z.land_ones by lia.
  change (2 ^ 1) with 2.
  rewrite <- (Z.bit0_mod (Z.shiftr flags 4)). rewrite Z.shiftr_spec by lia. reflexivity.
Qed.


End DefaultMode.


(** ** C6: emptiness of polygons *)

Section Polygon.

Variable cpu : cpu_order.
Variable p_blob : list byte.
Variables n_bytes byteOrder dimension : Z.

Lemma skipWKBLineString_inv (index c i1 : Z) :
  skipWKBLineString cpu p_blob n_bytes index byteOrder dimension = Ret c i1 ->
  exists numPoints i0,
    getInt cpu p_blob index byteOrder = Ret numPoints i0 /\
    ((c = 0 /\ i1 = i0 /\
      (numPoints < 1 \/ n_bytes < Int.add i0 (Int.mul (Int.mul numPoints dimension) 8)))
     \/
     (c = 1 /\ 1 <= numPoints /\
      Int.add i0 (Int.mul (Int.mul numPoints dimension) 8) <= n_bytes /\
      i1 = Int.add i0 (Int.mul (Int.mul numPoints dimension) 8))).
Proof.
  unfold skipWKBLineString.
  destruct (getInt cpu p_blob index byteOrder) as [numPoints i0| |]; cbn [bind];
    [|discriminate|discriminate].
  intros H. exists numPoints, i0. split; [reflexivity|].
  destruct (numPoints <? 1) eqn:E1.
  - apply Z.ltb_lt in E1. injection H as <- <-. left. auto.
  - apply Z.ltb_ge in E1.
    destruct (Int.add i0 (Int.mul (Int.mul numPoints dimension) 8) >? n_bytes) eqn:E2.
    + apply Z.gtb_lt in E2. injection H as <- <-. left. auto.
    + rewrite Z.gtb_ltb in E2. apply Z.ltb_ge in E2. injection H as <- <-. right.
      repeat split; lia.
Qed.

(** An integer that [getInt] returned lies in the blob, and the cursor is
    then 4 bytes further. *)
Lemma getInt_Ret_inv (index v i0 : Z) :
  Z.of_nat (length p_blob) <= Int.max_int ->
  getInt cpu p_blob index byteOrder = Ret v i0 ->
  0 <= index /\ index + 4 <= Z.of_nat (length p_blob) /\ i0 = index + 4.
Proof.
  intros Hlen. unfold getInt.
  destruct (byteOrder =? endian cpu).
  - destruct (bytes_at p_blob [index; index + 1; index + 2; index + 3]) as [bs|] eqn:E;
      [|discriminate].
    apply bytes_at_Some in E.
    pose proof (Forall_inv E) as H0.
    pose proof (Forall_inv (Forall_inv_tail (Forall_inv_tail (Forall_inv_tail E)))) as H3.
    cbv beta in H0, H3.
    intros H. injection H as _ <-. rewrite Int_add_small by int_range. lia.
  - destruct (bytes_at p_blob [Int.add index 3; Int.add index 2; Int.add index 1; index])
      as [bs|] eqn:E; [|discriminate].
    apply bytes_at_Some in E.
    pose proof (Forall_inv E) as H3.
    pose proof (Forall_inv (Forall_inv_tail (Forall_inv_tail (Forall_inv_tail E)))) as H0.
    cbv beta in H0, H3.
    assert (Hin : index + 3 < Z.of_nat (length p_blob)).
    { destruct (Z_le_gt_dec (index + 3) Int.max_int) as [Hle|Hgt].
      - rewrite Int_add_small in H3 by int_range. lia.
      - exfalso. unfold Int.add, Int.wrap, Int.max_int in *.
        replace ((index + 3 + 2147483648) mod 4294967296)
          with (index + 3 + 2147483648 - 4294967296) in H3
          by (apply Z.mod_unique with (q := 1); lia).
        lia. }
    intros H. injection H as _ <-. rewrite Int_add_small by int_range. lia.
Qed.

(** The end of a ring that [int] can hold is computed without wrap-around. *)
Lemma ring_end_exact (numPoints i0 : Z) :
  2 <= dimension <= 4 -> 0 <= i0 -> 1 <= numPoints ->
  i0 + numPoints * dimension * 8 <= Int.max_int ->
  Int.add i0 (Int.mul (Int.mul numPoints dimension) 8) = i0 + numPoints * dimension * 8.
Proof.
  intros Hd H0 Hn Hmax.
  assert (0 <= numPoints * dimension <= Int.max_int) by (unfold Int.max_int in *; nia).
  rewrite (Int_mul_small numPoints dimension) by int_range.
  rewrite Int_mul_small by int_range.
  rewrite Int_add_small by int_range. reflexivity.
Qed.

Section Buffer.

Hypothesis p_blob_int : Z.of_nat (length p_blob) <= Int.max_int.
Hypothesis n_bytes_int : n_bytes <= Int.max_int.
Hypothesis dimension_range : 2 <= dimension <= 4.

Lemma isEmptyWKBPolygon_loop_rings (n : nat) (index i' : Z) :
  rings cpu p_blob n_bytes byteOrder dimension n index i' ->
  isEmptyWKBPolygon_loop cpu n p_blob n_bytes index byteOrder dimension = Ret 0 i'.
Proof.
  induction 1 as [i|n i numPoints i0 i' Hg Hn Hfit _ IH]; cbn [isEmptyWKBPolygon_loop].
  - reflexivity.
  - destruct (getInt_Ret_inv _ _ _ p_blob_int Hg) as (Hi & _ & Hi0).
    unfold skipWKBLineString. rewrite Hg. cbn [bind].
    rewrite (ring_end_exact numPoints i0) by lia.
    replace (numPoints <? 1) with false by (symmetry; apply Z.ltb_ge; lia).
    replace (i0 + numPoints * dimension * 8 >? n_bytes) with false
      by (symmetry; rewrite Z.gtb_ltb; apply Z.ltb_ge; lia).
    cbn [bind]. simpl. exact IH.
Qed.

Lemma isEmptyWKBPolygon_loop_bad_ring (n k : nat) (index ik numPoints i0 : Z) :
  (k < n)%nat ->
  rings cpu p_blob n_bytes byteOrder dimension k index ik ->
  getInt cpu p_blob ik byteOrder = Ret numPoints i0 ->
  numPoints < 1 \/ n_bytes < i0 + numPoints * dimension * 8 <= Int.max_int ->
  isEmptyWKBPolygon_loop cpu n p_blob n_bytes index byteOrder dimension = Ret (-1) i0.
Proof.
  intros Hk Hr. revert n Hk.
  induction Hr as [i|k i np j0 i' Hg Hn Hfit _ IH]; intros n Hk Hget Hbad;
    (destruct n as [|n]; [lia|]); cbn [isEmptyWKBPolygon_loop]; unfold skipWKBLineString.
  - rewrite Hget. cbn [bind].
    destruct (numPoints <? 1) eqn:E1; [reflexivity|].
    apply Z.ltb_ge in E1.
    destruct (getInt_Ret_inv _ _ _ p_blob_int Hget) as (Hi & _ & Hi0).
    rewrite (ring_end_exact numPoints i0) by lia.
    replace (i0 + numPoints * dimension * 8 >? n_bytes) with true
      by (symmetry; apply Z.gtb_lt; lia).
    reflexivity.
  - destruct (getInt_Ret_inv _ _ _ p_blob_int Hg) as (Hi & _ & Hi0).
    rewrite Hg. cbn [bind].
    rewrite (ring_end_exact np j0) by lia.
    replace (np <? 1) with false by (symmetry; apply Z.ltb_ge; lia).
    replace (j0 + np * dimension * 8 >? n_bytes) with false
      by (symmetry; rewrite Z.gtb_ltb; apply Z.ltb_ge; lia).
    cbn [bind]. simpl. apply IH; [lia|assumption|assumption].
Qed.

(** When the loop over the rings ends with [NotEmpty], every ring fits,
    unless the end of one of them is beyond what [int] can hold. *)
Lemma isEmptyWKBPolygon_loop_not_empty (n : nat) (index i' : Z) :
  isEmptyWKBPolygon_loop cpu n p_blob n_bytes index byteOrder dimension = Ret 0 i' ->
  rings cpu p_blob n_bytes byteOrder dimension n index i' \/
  exists (k : nat) (ik numPoints i0 : Z),
    (k < n)%nat /\
    rings cpu p_blob n_bytes byteOrder dimension k index ik /\
    getInt cpu p_blob ik byteOrder = Ret numPoints i0 /\
    1 <= numPoints /\ Int.max_int < i0 + numPoints * dimension * 8.
Proof.
  revert index. induction n as [|n IH]; intros index; cbn [isEmptyWKBPolygon_loop].
  - intros H. injection H as <-. left. constructor.
  - destruct (skipWKBLineString cpu p_blob n_bytes index byteOrder dimension)
      as [c i1| |] eqn:Hs; cbn [bind]; [|discriminate|discriminate].
    destruct (skipWKBLineString_inv _ _ _ Hs)
      as (numPoints & i0 & Hg & [(-> & _ & _)|(-> & Hn & Hfit & ->)]).
    + simpl. discriminate.
    + simpl. intros H.
      destruct (getInt_Ret_inv _ _ _ p_blob_int Hg) as (Hi & _ & Hi0).
      destruct (Z_le_gt_dec (i0 + numPoints * dimension * 8) Int.max_int) as [Hle|Hgt].
      * rewrite (ring_end_exact numPoints i0) in H, Hfit by lia.
        destruct (IH _ H) as [Hr|(k & ik & np & j0 & Hk & Hr & Hget & Hnp & Hover)].
        -- left. econstructor; eauto.
        -- right. exists (S k), ik, np, j0. repeat split; try assumption; [lia|].
           econstructor; eauto.
      * right. exists O, index, numPoints, i0. repeat split; try assumption; [lia| |lia].
        constructor.
Qed.

End Buffer.

Lemma isEmptyWKBPolygon_loop_code (n : nat) (index c i' : Z) :
  isEmptyWKBPolygon_loop cpu n p_blob n_bytes index byteOrder dimension = Ret c i' ->
  c = 0 \/ c = -1.
Proof.
  revert index. induction n as [|n IH]; intros index; cbn [isEmptyWKBPolygon_loop].
  - intros H. injection H as <- _. auto.
  - destruct (skipWKBLineString cpu p_blob n_bytes index byteOrder dimension)
      as [ok i1| |]; cbn [bind]; [|discriminate|discriminate].
    destruct (ok =? 0).
    + intros H. injection H as <- _. auto.
    + apply IH.
Qed.

Lemma isEmptyWKBLineString_empty (index i' : Z) :
  isEmptyWKBLineString cpu p_blob n_bytes index byteOrder dimension = Ret 1 i'
  <-> exists numPoints, getInt cpu p_blob index byteOrder = Ret numPoints i' /\ numPoints < 1.
Proof.
  unfold isEmptyWKBLineString.
  destruct (getInt cpu p_blob index byteOrder) as [numPoints i0| |]; cbn [bind].
  - destruct (numPoints <? 1) eqn:E1.
    + apply Z.ltb_lt in E1. split.
      * intros H. injection H as <-. eauto.
      * intros (np & H & _). injection H as _ <-. reflexivity.
    + apply Z.ltb_ge in E1. split.
      * destruct (Int.add i0 (Int.mul (Int.mul numPoints dimension) 8) >? n_bytes);
          discriminate.
      * intros (np & H & Hlt). injection H as <- _. lia.
  - split; [discriminate|]. intros (np & H & _). discriminate.
  - split; [discriminate|]. intros (np & H & _). discriminate.
Qed.

(** C6 (as amended).  For a buffer of [n_bytes] bytes that [int] can
    address and a dimension of 2 to 4, with [numRings] the ring count read
    at the cursor:
    - a ring count below 1 is a [Malformed] error;
    - the answer is [Empty] exactly when the ring count is 1 and the point
      count of that ring is below 1; with 2 rings or more it is never
      [Empty];
    - with 2 rings or more the answer is [NotEmpty], with the cursor past
      the last ring, when every ring has a point count of at least 1 and
      coordinates that end within the buffer ([rings]); and when the answer
      is [NotEmpty] every ring is such a ring, unless the end of a ring (its
      [numPoints * dimension * 8] bytes added to the cursor) is beyond what
      [int] can hold;
    - with 2 rings or more, after rings that fit, the first ring whose
      point count is below 1, or whose coordinates end beyond the buffer at
      an offset that [int] can hold, makes the answer [Malformed].
    The point counts are those [getInt] returns: a ring whose count lies
    outside the blob is read all the same, the source checks nothing before
    it reads a count. *)
Theorem isEmptyWKBPolygon_cases (index numRings i1 : Z) :
  Z.of_nat (length p_blob) <= Int.max_int -> n_bytes <= Int.max_int ->
  2 <= dimension <= 4 ->
  getInt cpu p_blob index byteOrder = Ret numRings i1 ->
  (numRings < 1 ->
   isEmptyWKBPolygon cpu p_blob n_bytes index byteOrder dimension = Ret (-1) i1) /\
  (forall i',
     isEmptyWKBPolygon cpu p_blob n_bytes index byteOrder dimension = Ret 1 i' <->
     numRings = 1 /\
     exists numPoints, getInt cpu p_blob i1 byteOrder = Ret numPoints i' /\ numPoints < 1) /\
  (2 <= numRings ->
   forall i',
     (rings cpu p_blob n_bytes byteOrder dimension (Z.to_nat numRings) i1 i' ->
      isEmptyWKBPolygon cpu p_blob n_bytes index byteOrder dimension = Ret 0 i') /\
     (isEmptyWKBPolygon cpu p_blob n_bytes index byteOrder dimension = Ret 0 i' ->
      rings cpu p_blob n_bytes byteOrder dimension (Z.to_nat numRings) i1 i' \/
      exists (k : nat) (ik numPoints i0 : Z),
        (k < Z.to_nat numRings)%nat /\
        rings cpu p_blob n_bytes byteOrder dimension k i1 ik /\
        getInt cpu p_blob ik byteOrder = Ret numPoints i0 /\
        1 <= numPoints /\ Int.max_int < i0 + numPoints * dimension * 8)) /\
  (2 <= numRings ->
   forall (k : nat) (ik numPoints i0 : Z),
     (k < Z.to_nat numRings)%nat ->
     rings cpu p_blob n_bytes byteOrder dimension k i1 ik ->
     getInt cpu p_blob ik byteOrder = Ret numPoints i0 ->
     numPoints < 1 \/ n_bytes < i0 + numPoints * dimension * 8 <= Int.max_int ->
     isEmptyWKBPolygon cpu p_blob n_bytes index byteOrder dimension = Ret (-1) i0).
Proof.
  intros Hlen Hmax Hdim Hget. unfold isEmptyWKBPolygon. rewrite Hget. cbn [bind].
  split; [|split; [|split]].
  - intros H. replace (numRings <? 1) with true by (symmetry; apply Z.ltb_lt; lia).
    reflexivity.
  - intros i'. destruct (numRings <? 1) eqn:E1.
    + apply Z.ltb_lt in E1. split; [discriminate|]. intros [-> _]. lia.
    + apply Z.ltb_ge in E1. destruct (numRings =? 1) eqn:E2.
      * apply Z.eqb_eq in E2. rewrite isEmptyWKBLineString_empty. tauto.
      * apply Z.eqb_neq in E2. split.
        -- intros H. apply isEmptyWKBPolygon_loop_code in H. lia.
        -- intros [-> _]. lia.
  - intros H i'.
    replace (numRings <? 1) with false by (symmetry; apply Z.ltb_ge; lia).
    replace (numRings =? 1) with false by (symmetry; apply Z.eqb_neq; lia).
    split.
    + apply isEmptyWKBPolygon_loop_rings; assumption.
    + apply isEmptyWKBPolygon_loop_not_empty; assumption.
  - intros H k ik numPoints i0 Hk Hr Hg Hbad.
    replace (numRings <? 1) with false by (symmetry; apply Z.ltb_ge; lia).
    replace (numRings =? 1) with false by (symmetry; apply Z.eqb_neq; lia).
    eapply isEmptyWKBPolygon_loop_bad_ring; eauto.
Qed.

End Polygon.

(** The theorem at [wkb_polygon_two_rings]: two rings with points, the
    answer is [NotEmpty] and the cursor is at the end of the polygon. *)
Lemma isEmptyWKBPolygon_cases_witness :
  isEmptyWKBPolygon LittleEndianCPU wkb_polygon_two_rings 65 5 LITTLE_ENDIAN 2 = Ret 0 65.
Proof.
  assert (Hlen : Z.of_nat (length wkb_polygon_two_rings) <= Int.max_int)
    by (vm_compute; discriminate).
  assert (Hmax : 65 <= Int.max_int) by (vm_compute; discriminate).
  assert (Hdim : 2 <= 2 <= 4) by lia.
  assert (Hget : getInt LittleEndianCPU wkb_polygon_two_rings 5 LITTLE_ENDIAN = Ret 2 9)
    by (vm_compute; reflexivity).
  destruct (isEmptyWKBPolygon_cases LittleEndianCPU wkb_polygon_two_rings 65 LITTLE_ENDIAN 2
              5 2 9 Hlen Hmax Hdim Hget) as (_ & _ & H & _).
  apply (H ltac:(lia) 65).
  apply (rings_S _ _ _ _ _ 1%nat 9 1 13 65);
    [vm_compute; reflexivity | lia | lia |].
  apply (rings_S _ _ _ _ _ 0%nat 29 2 33 65);
    [vm_compute; reflexivity | lia | lia |].
  apply rings_O.
Defined.

(** C6 as stated fails for a polygon with two rings whose first ring has no
    point: [wkb_polygon_empty], one ring without points, is [Empty];
    [wkb_polygon_empty_plus_ring], the same exterior ring followed by the
    ring (1.0 1.0, 2.0 2.0), has ring count 2 and is [Malformed], not
    [NotEmpty]: the rings of a polygon with 2 rings or more go through
    [skipWKBLineString], which rejects a point count below 1. *)
Lemma isEmptyWKBPolygon_empty_exterior_plus_ring :
  isEmptyWKBGeometry LittleEndianCPU 1 wkb_polygon_empty 13 0 LITTLE_ENDIAN wkbGeometry
    = Ret 1 13 /\
  getInt LittleEndianCPU wkb_polygon_empty_plus_ring 5 LITTLE_ENDIAN = Ret 2 9 /\
  isEmptyWKBPolygon LittleEndianCPU wkb_polygon_empty_plus_ring 49 5 LITTLE_ENDIAN 2
    = Ret (-1) 13 /\
  isEmptyWKBGeometry LittleEndianCPU 1 wkb_polygon_empty_plus_ring 49 0 LITTLE_ENDIAN
    wkbGeometry = Ret (-1) 13.
Proof. vm_compute. repeat split; reflexivity. Qed.

(** The exception of the theorem is met: each of the two rings of
    [wkb_polygon_overflow] announces 0x20000000 points, whose size
    [numPoints * 2 * 8] wraps around to 0 in [int]; the size check of
    [skipWKBLineString] lets both pass and the 17-byte polygon, which holds
    no coordinate, is [NotEmpty]. *)
Example isEmptyWKBPolygon_overflowing_rings (cpu : cpu_order) :
  getInt cpu wkb_polygon_overflow 9 LITTLE_ENDIAN = Ret 0x20000000 13 /\
  Int.max_int < 13 + 0x20000000 * 2 * 8 /\
  Int.add 13 (Int.mul (Int.mul 0x20000000 2) 8) = 13 /\
  isEmptyWKBPolygon cpu wkb_polygon_overflow 17 5 LITTLE_ENDIAN 2 = Ret 0 17.
Proof. destruct cpu; vm_compute; repeat split; reflexivity. Qed.

(** ** C7: multi-geometries and collections *)

Section MultiLoops.

Variable cpu : cpu_order.

(** The loops over the elements, for any dispatcher. *)
Section AnyDispatcher.

Variable isEmpty : list byte -> Z -> Z -> Z -> Z -> outcome Z.
Variable readEnv : list byte -> Z -> Z -> Z -> Z -> Z -> Z -> outcome (option double).
Variable p_blob : list byte.
Variables n_bytes byteOrder elementType : Z.




Lemma isEmptyWKBMulti_loop_code (n : nat) (index res c i' : Z) :
  (forall i b t c i', isEmpty p_blob n_bytes i b t = Ret c i' -> tri_state c) ->
  tri_state res ->
  isEmptyWKBMulti_loop isEmpty n elementType p_blob n_bytes index byteOrder res = Ret c i' ->
  tri_state c.
Proof.
  intros Hf. revert index res.
  induction n as [|n IH]; intros index res Hres; cbn [isEmptyWKBMulti_loop].
  - intros H. injection H as <- _. exact Hres.
  - destruct (isEmpty p_blob n_bytes index byteOrder elementType) as [c2 i2| |] eqn:E;
      cbn [bind]; [|discriminate|discriminate].
    destruct (c2 <? 0).
    + intros H. injection H as <- _. eapply Hf; eauto.
    + apply IH. destruct (c2 =? 0) eqn:E0; [|exact Hres].
      apply Z.eqb_eq in E0. subst c2. unfold tri_state. auto.
Qed.

End AnyDispatcher.

(** Every emptiness test answers 1, 0 or -1. *)
Lemma isEmptyWKBPoint_loop_code (n : nat) (p_blob : list byte)
  (index byteOrder dimension i c i' : Z) :
  isEmptyWKBPoint_loop cpu n p_blob index byteOrder dimension i = Ret c i' -> tri_state c.
Proof.
  revert index i. induction n as [|n IH]; intros index i; cbn [isEmptyWKBPoint_loop].
  - intros H. injection H as <- _. unfold tri_state. auto.
  - destruct (getDouble cpu p_blob index byteOrder) as [d i2| |]; cbn [bind];
      [|discriminate|discriminate].
    destruct (negb (isnan d)).
    + intros H. injection H as <- _. unfold tri_state. auto.
    + apply IH.
Qed.

Lemma isEmptyWKBGeometry_code (fuel : nat) (p_blob : list byte)
  (n_bytes index byteOrder geometryTypeExpected c i' : Z) :
  isEmptyWKBGeometry cpu fuel p_blob n_bytes index byteOrder geometryTypeExpected = Ret c i' ->
  tri_state c.
Proof.
  revert index byteOrder geometryTypeExpected c i'.
  induction fuel as [|fuel IH]; intros index byteOrder geometryTypeExpected c i';
    cbn [isEmptyWKBGeometry]; [discriminate|].
  destruct (readByteOrder p_blob index byteOrder) as [bo i1| |]; cbn [bind];
    [|discriminate|discriminate].
  destruct (getInt cpu p_blob i1 bo) as [typeInt i2| |]; cbn [bind];
    [|discriminate|discriminate].
  set (i3 := if hasSRID typeInt then Int.add i2 4 else i2).
  assert (Hmulti : forall ty,
    isEmptyWKBMulti cpu (isEmptyWKBGeometry cpu fuel) ty p_blob n_bytes i3 bo
      (dimension_of typeInt) = Ret c i' -> tri_state c).
  { intros ty. unfold isEmptyWKBMulti.
    destruct (getInt cpu p_blob i3 bo) as [numGeoms i4| |]; cbn [bind];
      [|discriminate|discriminate].
    destruct (numGeoms <? 1).
    - intros H. injection H as <- _. unfold tri_state. auto.
    - apply isEmptyWKBMulti_loop_code.
      + intros i b t c0 i0 H. eapply IH; eauto.
      + unfold tri_state. auto. }
  destruct (negb (geometryTypeExpected =? wkbGeometry)
            && negb (geometryTypeExpected =? geometryType_of typeInt)).
  { intros H. injection H as <- _. unfold tri_state. auto. }
  destruct (geometryType_of typeInt =? wkbPoint).
  { unfold isEmptyWKBPoint.
    destruct (Int.add i3 (Int.mul (dimension_of typeInt) 8) >? n_bytes).
    - intros H. injection H as <- _. unfold tri_state. auto.
    - apply isEmptyWKBPoint_loop_code. }
  destruct (geometryType_of typeInt =? wkbLineString).
  { unfold isEmptyWKBLineString.
    destruct (getInt cpu p_blob i3 bo) as [numPoints i4| |]; cbn [bind];
      [|discriminate|discriminate].
    destruct (numPoints <? 1); [intros H; injection H as <- _; unfold tri_state; auto|].
    destruct (Int.add i4 (Int.mul (Int.mul numPoints (dimension_of typeInt)) 8) >? n_bytes);
      intros H; injection H as <- _; unfold tri_state; auto. }
  destruct (geometryType_of typeInt =? wkbPolygon).
  { unfold isEmptyWKBPolygon.
    destruct (getInt cpu p_blob i3 bo) as [numRings i4| |]; cbn [bind];
      [|discriminate|discriminate].
    destruct (numRings <? 1); [intros H; injection H as <- _; unfold tri_state; auto|].
    destruct (numRings =? 1).
    - unfold isEmptyWKBLineString.
      destruct (getInt cpu p_blob i4 bo) as [numPoints i5| |]; cbn [bind];
        [|discriminate|discriminate].
      destruct (numPoints <? 1); [intros H; injection H as <- _; unfold tri_state; auto|].
      destruct (Int.add i5 (Int.mul (Int.mul numPoints (dimension_of typeInt)) 8) >? n_bytes);
        intros H; injection H as <- _; unfold tri_state; auto.
    - intros H. apply isEmptyWKBPolygon_loop_code in H. unfold tri_state. tauto. }
  destruct (geometryType_of typeInt =? wkbMultiPoint); [apply Hmulti|].
  destruct (geometryType_of typeInt =? wkbMultiLineString); [apply Hmulti|].
  destruct (geometryType_of typeInt =? wkbMultiPolygon); [apply Hmulti|].
  destruct (geometryType_of typeInt =? wkbGeometryCollection); [apply Hmulti|].
  intros H. injection H as <- _. unfold tri_state. auto.
Qed.

End MultiLoops.

Section MultiGeometry.

Variable cpu : cpu_order.
Variable fuel : nat.
Variable p_blob : list byte.
Variables n_bytes byteOrder elementType : Z.




End MultiGeometry.


(** ** C8: envelope of a line string *)

Lemma SFltb_key (f g : spec_float) :
  SFltb f g = true <->
  SF_is_nan f = false /\ SF_is_nan g = false /\ lex_lt (SF_key f) (SF_key g).
Proof.
  unfold SFltb, SFcompare.
  destruct f as [s|s| |s m e], g as [s'|s'| |s' m' e'];
    try destruct s; try destruct s'; cbn [SF_key SF_is_nan lex_lt];
    try change (Pos.compare_cont Eq m m') with (Pos.compare m m');
    try (destruct (Z.compare_spec e e') as [He|He|He]);
    try (destruct (Pos.compare_spec m m') as [Hm|Hm|Hm]);
    cbn [CompOpp];
    (split;
     [ intros H; try discriminate H; repeat split; lia
     | intros (H1 & H2 & H3); try discriminate; try reflexivity; try lia ]).
Qed.

Lemma SFleb_key (f g : spec_float) :
  SFleb f g = true <->
  SF_is_nan f = false /\ SF_is_nan g = false /\
  (lex_lt (SF_key f) (SF_key g) \/ SF_key f = SF_key g).
Proof.
  unfold SFleb, SFcompare.
  destruct f as [s|s| |s m e], g as [s'|s'| |s' m' e'];
    try destruct s; try destruct s'; cbn [SF_key SF_is_nan lex_lt];
    try change (Pos.compare_cont Eq m m') with (Pos.compare m m');
    try (destruct (Z.compare_spec e e') as [He|He|He]);
    try (destruct (Pos.compare_spec m m') as [Hm|Hm|Hm]);
    cbn [CompOpp];
    (split;
     [ intros H; try discriminate H; repeat split; try lia;
       try (right; f_equal; f_equal; lia); try (right; reflexivity)
     | intros (H1 & H2 & [H3|H3]); try discriminate; try reflexivity; try lia;
       try (injection H3; intros; lia) ]).
Qed.

Lemma lex_lt_trans (p q r : Z * Z * Z) : lex_lt p q -> lex_lt q r -> lex_lt p r.
Proof.
  destruct p as [[a b] c], q as [[a' b'] c'], r as [[a'' b''] c'']. unfold lex_lt. lia.
Qed.

Lemma SFleb_refl (f : spec_float) : SF_is_nan f = false -> SFleb f f = true.
Proof. intros H. apply SFleb_key. auto. Qed.

Lemma SFleb_trans (f g h : spec_float) :
  SFleb f g = true -> SFleb g h = true -> SFleb f h = true.
Proof.
  rewrite !SFleb_key.
  intros (Hf & Hg & Hfg) (_ & Hh & Hgh). split; [exact Hf|]. split; [exact Hh|].
  destruct Hfg as [Hfg|Hfg], Hgh as [Hgh|Hgh].
  - left. exact (lex_lt_trans _ _ _ Hfg Hgh).
  - left. rewrite <- Hgh. exact Hfg.
  - left. rewrite Hfg. exact Hgh.
  - right. rewrite Hfg. exact Hgh.
Qed.

Lemma SFltb_leb_trans (f g h : spec_float) :
  SFltb f g = true -> SFleb g h = true -> SFleb f h = true /\ SF_is_nan f = false.
Proof.
  rewrite SFltb_key, !SFleb_key.
  intros (Hf & Hg & Hfg) (_ & Hh & Hgh). repeat split; try assumption.
  destruct Hgh as [Hgh|Hgh].
  - left. exact (lex_lt_trans _ _ _ Hfg Hgh).
  - left. rewrite <- Hgh. exact Hfg.
Qed.

Lemma SFleb_ltb_trans (f g h : spec_float) :
  SFleb f g = true -> SFltb g h = true -> SFleb f h = true /\ SF_is_nan h = false.
Proof.
  rewrite SFltb_key, !SFleb_key.
  intros (Hf & Hg & Hfg) (_ & Hh & Hgh). repeat split; try assumption.
  destruct Hfg as [Hfg|Hfg].
  - left. exact (lex_lt_trans _ _ _ Hfg Hgh).
  - left. rewrite Hfg. exact Hgh.
Qed.

Lemma double_le_refl (a : double) : isnan a = false -> double_le a a = true.
Proof. apply SFleb_refl. Qed.

Lemma double_le_trans (a b c : double) :
  double_le a b = true -> double_le b c = true -> double_le a c = true.
Proof. apply SFleb_trans. Qed.

Lemma double_lt_le_trans (a b c : double) :
  double_lt a b = true -> double_le b c = true ->
  double_le a c = true /\ isnan a = false.
Proof. apply SFltb_leb_trans. Qed.

Lemma double_le_lt_trans (a b c : double) :
  double_le a b = true -> double_lt b c = true ->
  double_le a c = true /\ isnan c = false.
Proof. apply SFleb_ltb_trans. Qed.

(** The running minimum stays below the first value and the running maximum
    above it, as long as the first value is not NaN. *)
Lemma fold_min_below (vs : list double) (v acc : double) :
  isnan acc = false -> double_le acc v = true ->
  double_le (fold_left (fold_extreme MIN) vs acc) v = true.
Proof.
  revert acc. induction vs as [|x vs IH]; intros acc Hnan Hle; cbn [fold_left].
  - exact Hle.
  - unfold fold_extreme at 2. cbn [MIN Z.eqb].
    destruct (double_lt x acc) eqn:E.
    + destruct (double_lt_le_trans _ _ _ E Hle). apply IH; assumption.
    + apply IH; assumption.
Qed.

Lemma fold_max_above (vs : list double) (v acc : double) :
  isnan acc = false -> double_le v acc = true ->
  double_le v (fold_left (fold_extreme MAX) vs acc) = true.
Proof.
  revert acc. induction vs as [|x vs IH]; intros acc Hnan Hle; cbn [fold_left].
  - exact Hle.
  - unfold fold_extreme at 2. cbn [MAX MIN Z.eqb].
    destruct (double_gt x acc) eqn:E.
    + unfold double_gt in E. destruct (double_le_lt_trans _ _ _ Hle E). apply IH; assumption.
    + apply IH; assumption.
Qed.

Section LineString.

Variable cpu : cpu_order.
Variable p_blob : list byte.
Variables n_bytes byteOrder dimension ordinate : Z.

Lemma points_read_deterministic (n : nat) (i : Z) (vs ws : list double) (i' j' : Z) :
  points_read cpu p_blob n_bytes byteOrder dimension ordinate n i vs i' ->
  points_read cpu p_blob n_bytes byteOrder dimension ordinate n i ws j' ->
  vs = ws /\ i' = j'.
Proof.
  intros H. revert ws j'.
  induction H as [i|n i v i1 vs i' Hv _ IH]; intros ws j' H'.
  - inversion H'; subst. auto.
  - inversion H' as [|n' k w k1 ws' k' Hw Hrest]; subst.
    rewrite Hv in Hw. injection Hw as <- <-.
    destruct (IH _ _ Hrest) as [-> ->]. auto.
Qed.

Lemma readWKBLineStringEnv_loop_fold (n : nat) (index maxmin : Z) (res r : double) (i' : Z) :
  readWKBLineStringEnv_loop cpu n p_blob n_bytes index byteOrder dimension ordinate maxmin res
    = Ret (Some r) i'
  <-> exists vs,
        points_read cpu p_blob n_bytes byteOrder dimension ordinate n index vs i' /\
        r = fold_left (fold_extreme maxmin) vs res.
Proof.
  revert index res. induction n as [|n IH]; intros index res; cbn [readWKBLineStringEnv_loop].
  - split.
    + intros H. injection H as <- <-. exists []. split; [constructor|reflexivity].
    + intros (vs & Hp & ->). inversion Hp; subst. reflexivity.
  - destruct (readWKBPointOrd cpu p_blob n_bytes index byteOrder dimension ordinate)
      as [[v|] i1| |] eqn:Hv; cbn [bind].
    + rewrite IH. split.
      * intros (vs & Hp & ->). exists (v :: vs). split; [econstructor; eauto|reflexivity].
      * intros (vs & Hp & ->). inversion Hp as [|n' k w k1 ws k' Hw Hrest]; subst.
        rewrite Hv in Hw. injection Hw as <- <-. exists ws. auto.
    + split; [discriminate|]. intros (vs & Hp & _). inversion Hp; subst. congruence.
    + split; [discriminate|]. intros (vs & Hp & _). inversion Hp; subst. congruence.
    + split; [discriminate|]. intros (vs & Hp & _). inversion Hp; subst. congruence.
Qed.

Lemma readWKBLineStringEnv_fold (index maxmin numPoints i0 : Z) (r : double) (i' : Z) :
  getInt cpu p_blob index byteOrder = Ret numPoints i0 ->
  readWKBLineStringEnv cpu p_blob n_bytes index byteOrder dimension ordinate maxmin
    = Ret (Some r) i' ->
  1 <= numPoints /\
  exists v vs,
    points_read cpu p_blob n_bytes byteOrder dimension ordinate (Z.to_nat numPoints) i0
      (v :: vs) i' /\
    r = fold_left (fold_extreme maxmin) vs v.
Proof.
  intros Hget. unfold readWKBLineStringEnv. rewrite Hget. cbn [bind].
  destruct (numPoints <? 1) eqn:E1; [discriminate|]. apply Z.ltb_ge in E1.
  destruct (Int.add i0 (Int.mul (Int.mul numPoints dimension) 8) >? n_bytes); [discriminate|].
  destruct (readWKBPointOrd cpu p_blob n_bytes i0 byteOrder dimension ordinate)
    as [[v|] i1| |] eqn:Hv; cbn [bind]; try discriminate.
  rewrite readWKBLineStringEnv_loop_fold. intros (vs & Hp & ->).
  split; [exact E1|]. exists v, vs. split; [|reflexivity].
  replace (Z.to_nat numPoints) with (S (Z.to_nat (numPoints - 1))) by lia.
  econstructor; eauto.
Qed.

(** C8 (as amended).  With [numPoints] the point count read at the cursor:
    - a point count below 1 makes the envelope read fail;
    - a successful read returns the fold, from the ordinate of the first
      point, of [fold_extreme] over the ordinates of the other points in
      order, and [fold_extreme] replaces the running extreme only by a value
      strictly below it (minimum) or strictly above it (maximum);
    - when the ordinate of the first point is not NaN, the value returned
      for the minimum is [<=] the value returned for the maximum. *)
Theorem readWKBLineStringEnv_min_le_max (index numPoints i0 : Z) :
  getInt cpu p_blob index byteOrder = Ret numPoints i0 ->
  (numPoints < 1 ->
   forall maxmin,
     readWKBLineStringEnv cpu p_blob n_bytes index byteOrder dimension ordinate maxmin
       = Ret None i0) /\
  (forall maxmin r i',
     readWKBLineStringEnv cpu p_blob n_bytes index byteOrder dimension ordinate maxmin
       = Ret (Some r) i' ->
     1 <= numPoints /\
     exists v vs,
       points_read cpu p_blob n_bytes byteOrder dimension ordinate (Z.to_nat numPoints) i0
         (v :: vs) i' /\
       r = fold_left (fold_extreme maxmin) vs v) /\
  (forall res res2,
     fold_extreme MIN res res2 = (if double_lt res2 res then res2 else res) /\
     fold_extreme MAX res res2 = (if double_gt res2 res then res2 else res)) /\
  (forall lo hi i1 i2 v iv,
     readWKBLineStringEnv cpu p_blob n_bytes index byteOrder dimension ordinate MIN
       = Ret (Some lo) i1 ->
     readWKBLineStringEnv cpu p_blob n_bytes index byteOrder dimension ordinate MAX
       = Ret (Some hi) i2 ->
     readWKBPointOrd cpu p_blob n_bytes i0 byteOrder dimension ordinate = Ret (Some v) iv ->
     isnan v = false ->
     double_le lo hi = true).
Proof.
  intros Hget. split; [|split; [|split]].
  - intros H maxmin. unfold readWKBLineStringEnv. rewrite Hget. cbn [bind].
    replace (numPoints <? 1) with true by (symmetry; apply Z.ltb_lt; lia). reflexivity.
  - intros maxmin r i'. apply readWKBLineStringEnv_fold. exact Hget.
  - intros res res2. split; reflexivity.
  - intros lo hi i1 i2 v iv Hmin Hmax Hv Hnan.
    destruct (readWKBLineStringEnv_fold _ _ _ _ _ _ Hget Hmin) as (_ & v1 & vs1 & Hp1 & ->).
    destruct (readWKBLineStringEnv_fold _ _ _ _ _ _ Hget Hmax) as (_ & v2 & vs2 & Hp2 & ->).
    destruct (points_read_deterministic _ _ _ _ _ _ Hp1 Hp2) as [E _].
    injection E as <- <-.
    inversion Hp1 as [|n k w k1 ws k' Hw _]; subst.
    rewrite Hv in Hw. injection Hw as <- _.
    apply double_le_trans with v.
    + apply fold_min_below; [exact Hnan|apply double_le_refl; exact Hnan].
    + apply fold_max_above; [exact Hnan|apply double_le_refl; exact Hnan].
Qed.

End LineString.

(** The theorem at [wkb_linestring_3], the line string
    (2.0 1.0, 1.0 3.0, 3.0 2.0): the minimum of X, 1.0, is [<=] its
    maximum, 3.0. *)
Lemma readWKBLineStringEnv_min_le_max_witness :
  readWKBLineStringEnv LittleEndianCPU wkb_linestring_3 57 5 LITTLE_ENDIAN 2 X MIN
    = Ret (Some d_1) 57 /\
  readWKBLineStringEnv LittleEndianCPU wkb_linestring_3 57 5 LITTLE_ENDIAN 2 X MAX
    = Ret (Some d_3) 57 /\
  double_le d_1 d_3 = true.
Proof.
  assert (Hget : getInt LittleEndianCPU wkb_linestring_3 5 LITTLE_ENDIAN = Ret 3 9)
    by (vm_compute; reflexivity).
  assert (Hmin : readWKBLineStringEnv LittleEndianCPU wkb_linestring_3 57 5 LITTLE_ENDIAN 2 X
                   MIN = Ret (Some d_1) 57) by (vm_compute; reflexivity).
  assert (Hmax : readWKBLineStringEnv LittleEndianCPU wkb_linestring_3 57 5 LITTLE_ENDIAN 2 X
                   MAX = Ret (Some d_3) 57) by (vm_compute; reflexivity).
  split; [exact Hmin|]. split; [exact Hmax|].
  destruct (readWKBLineStringEnv_min_le_max LittleEndianCPU wkb_linestring_3 57 LITTLE_ENDIAN
              2 X 5 3 9 Hget) as (_ & _ & _ & H).
  apply (H d_1 d_3 57 57 d_2 25 Hmin Hmax); vm_compute; reflexivity.
Defined.

(** C8 as stated fails when the ordinate of the first point is NaN:
    [wkb_linestring_nan] has one point, (NaN, NaN), both reads succeed with
    NaN, and NaN [<=] NaN does not hold. *)
Lemma readWKBLineStringEnv_nan :
  getInt LittleEndianCPU wkb_linestring_nan 5 LITTLE_ENDIAN = Ret 1 9 /\
  readWKBLineStringEnv LittleEndianCPU wkb_linestring_nan 25 5 LITTLE_ENDIAN 2 X MIN
    = Ret (Some d_nan) 25 /\
  readWKBLineStringEnv LittleEndianCPU wkb_linestring_nan 25 5 LITTLE_ENDIAN 2 X MAX
    = Ret (Some d_nan) 25 /\
  double_le d_nan d_nan = false.
Proof. vm_compute. repeat split; reflexivity. Qed.

(** ** Fuel

    The fuel of the two dispatchers bounds the nesting depth only: an
    outcome other than [OutOfFuel] is the outcome at every larger fuel. *)

Section Fuel.

Variable cpu : cpu_order.

Lemma isEmptyWKBMulti_loop_ext (f g : list byte -> Z -> Z -> Z -> Z -> outcome Z) :
  (forall p nb i b t o, f p nb i b t = o -> o <> OutOfFuel -> g p nb i b t = o) ->
  forall n ty p nb i b res o,
    isEmptyWKBMulti_loop f n ty p nb i b res = o -> o <> OutOfFuel ->
    isEmptyWKBMulti_loop g n ty p nb i b res = o.
Proof.
  intros Hfg. induction n as [|n IH]; intros ty p nb i b res o; cbn [isEmptyWKBMulti_loop].
  - auto.
  - destruct (f p nb i b ty) as [c i1| |] eqn:E.
    + rewrite (Hfg _ _ _ _ _ _ E) by discriminate. cbn [bind].
      destruct (c <? 0); [auto|]. apply IH.
    + rewrite (Hfg _ _ _ _ _ _ E) by discriminate. auto.
    + cbn [bind]. intros <- H. contradiction H. reflexivity.
Qed.

Lemma readWKBMultiEnv_loop_ext
  (f g : list byte -> Z -> Z -> Z -> Z -> Z -> Z -> outcome (option double)) :
  (forall p nb i b o m t r, f p nb i b o m t = r -> r <> OutOfFuel -> g p nb i b o m t = r) ->
  forall n ty p nb i b o m res r,
    readWKBMultiEnv_loop f n ty p nb i b o m res = r -> r <> OutOfFuel ->
    readWKBMultiEnv_loop g n ty p nb i b o m res = r.
Proof.
  intros Hfg. induction n as [|n IH]; intros ty p nb i b o m res r;
    cbn [readWKBMultiEnv_loop].
  - auto.
  - destruct (f p nb i b o m ty) as [[v|] i1| |] eqn:E.
    + rewrite (Hfg _ _ _ _ _ _ _ _ E) by discriminate. cbn [bind]. apply IH.
    + rewrite (Hfg _ _ _ _ _ _ _ _ E) by discriminate. auto.
    + rewrite (Hfg _ _ _ _ _ _ _ _ E) by discriminate. auto.
    + cbn [bind]. intros <- H. contradiction H. reflexivity.
Qed.

Lemma isEmptyWKBGeometry_fuel_S (fuel : nat) (p_blob : list byte)
  (n_bytes index byteOrder geometryTypeExpected : Z) (o : outcome Z) :
  isEmptyWKBGeometry cpu fuel p_blob n_bytes index byteOrder geometryTypeExpected = o ->
  o <> OutOfFuel ->
  isEmptyWKBGeometry cpu (S fuel) p_blob n_bytes index byteOrder geometryTypeExpected = o.
Proof.
  revert p_blob n_bytes index byteOrder geometryTypeExpected o.
  induction fuel as [|fuel IH]; intros p_blob n_bytes index byteOrder geometryTypeExpected o H Ho.
  - cbn in H. congruence.
  - cbn [isEmptyWKBGeometry] in H.
    remember (S fuel) as fuel1 eqn:Ef. cbn [isEmptyWKBGeometry].
    destruct (readByteOrder p_blob index byteOrder) as [bo i1| |]; cbn [bind] in *;
      [|exact H|exact H].
    destruct (getInt cpu p_blob i1 bo) as [typeInt i2| |]; cbn [bind] in *;
      [|exact H|exact H].
    assert (Hmulti : forall ty i d,
      isEmptyWKBMulti cpu (isEmptyWKBGeometry cpu fuel) ty p_blob n_bytes i bo d = o ->
      isEmptyWKBMulti cpu (isEmptyWKBGeometry cpu fuel1) ty p_blob n_bytes i bo d = o).
    { intros ty i d. unfold isEmptyWKBMulti.
      destruct (getInt cpu p_blob i bo) as [numGeoms i4| |]; cbn [bind]; auto.
      destruct (numGeoms <? 1); auto.
      intros H'. eapply isEmptyWKBMulti_loop_ext; eauto. }
    repeat match goal with
    | |- context [if ?c then _ else _] =>
        match type of H with context [if c then _ else _] => destruct c end
    end;
      try exact H; apply Hmulti; exact H.
Qed.

Lemma readWKBGeometryEnv_fuel_S (fuel : nat) (p_blob : list byte)
  (n_bytes index byteOrder ordinate maxmin geometryTypeExpected : Z)
  (r : outcome (option double)) :
  readWKBGeometryEnv cpu fuel p_blob n_bytes index byteOrder ordinate maxmin
    geometryTypeExpected = r ->
  r <> OutOfFuel ->
  readWKBGeometryEnv cpu (S fuel) p_blob n_bytes index byteOrder ordinate maxmin
    geometryTypeExpected = r.
Proof.
  revert p_blob n_bytes index byteOrder ordinate maxmin geometryTypeExpected r.
  induction fuel as [|fuel IH];
    intros p_blob n_bytes index byteOrder ordinate maxmin geometryTypeExpected r H Hr.
  - cbn in H. congruence.
  - cbn [readWKBGeometryEnv] in H.
    remember (S fuel) as fuel1 eqn:Ef. cbn [readWKBGeometryEnv].
    destruct (readByteOrder p_blob index byteOrder) as [bo i1| |]; cbn [bind] in *;
      [|exact H|exact H].
    destruct (getInt cpu p_blob i1 bo) as [typeInt i2| |]; cbn [bind] in *;
      [|exact H|exact H].
    assert (Hmulti : forall ty i d o m,
      readWKBMultiEnv cpu (readWKBGeometryEnv cpu fuel) ty p_blob n_bytes i bo d o m = r ->
      readWKBMultiEnv cpu (readWKBGeometryEnv cpu fuel1) ty p_blob n_bytes i bo d o m = r).
    { intros ty i d o m. unfold readWKBMultiEnv.
      destruct (getInt cpu p_blob i bo) as [numGeoms i4| |]; cbn [bind]; auto.
      destruct (numGeoms <? 1); auto.
      destruct (readWKBGeometryEnv cpu fuel p_blob n_bytes i4 bo o m ty)
        as [[v|] i5| |] eqn:E.
      - rewrite (IH _ _ _ _ _ _ _ _ E) by discriminate. cbn [bind].
        intros H'. eapply readWKBMultiEnv_loop_ext; eauto.
      - rewrite (IH _ _ _ _ _ _ _ _ E) by discriminate. auto.
      - rewrite (IH _ _ _ _ _ _ _ _ E) by discriminate. auto.
      - cbn [bind]. intros <-. contradiction Hr. reflexivity. }
    repeat match goal with
    | |- context [if ?c then _ else _] =>
        match type of H with context [if c then _ else _] => destruct c end
    end;
      try exact H; apply Hmulti; exact H.
Qed.

Lemma isEmptyWKBGeometry_fuel_le (fuel fuel' : nat) (p_blob : list byte)
  (n_bytes index byteOrder geometryTypeExpected : Z) (o : outcome Z) :
  (fuel <= fuel')%nat ->
  isEmptyWKBGeometry cpu fuel p_blob n_bytes index byteOrder geometryTypeExpected = o ->
  o <> OutOfFuel ->
  isEmptyWKBGeometry cpu fuel' p_blob n_bytes index byteOrder geometryTypeExpected = o.
Proof.
  induction 1 as [|fuel' _ IH]; intros H Ho; [exact H|].
  apply isEmptyWKBGeometry_fuel_S; auto.
Qed.

Lemma readWKBGeometryEnv_fuel_le (fuel fuel' : nat) (p_blob : list byte)
  (n_bytes index byteOrder ordinate maxmin geometryTypeExpected : Z)
  (r : outcome (option double)) :
  (fuel <= fuel')%nat ->
  readWKBGeometryEnv cpu fuel p_blob n_bytes index byteOrder ordinate maxmin
    geometryTypeExpected = r ->
  r <> OutOfFuel ->
  readWKBGeometryEnv cpu fuel' p_blob n_bytes index byteOrder ordinate maxmin
    geometryTypeExpected = r.
Proof.
  induction 1 as [|fuel' _ IH]; intros H Hr; [exact H|].
  apply readWKBGeometryEnv_fuel_S; auto.
Qed.

End Fuel.

(** ** The decoder on encoded geometries

    The walkers on the encoding of any well-formed geometry: the value is
    that of the reference functions [envelope] and [emptiness], whatever
    the byte order markers of the records and the processor. *)

Lemma uchar_byte_of_Z (z : Z) : uchar (byte_of_Z z) = z mod 256.
Proof.
  unfold uchar, byte_of_Z.
  pose proof (Z.mod_pos_bound z 256 ltac:(lia)) as Hz.
  destruct (Byte.of_N (Z.to_N (z mod 256))) as [b|] eqn:E.
  - apply Byte.to_of_N in E. rewrite E. lia.
  - apply Byte.of_N_None_iff in E. lia.
Qed.

Lemma le_combine_split (n : nat) (z : Z) :
  le_combine (map uchar (le_split n z)) = z mod 256 ^ Z.of_nat n.
Proof.
  revert z. induction n as [|n IH]; intros z.
  - simpl. rewrite Z.mod_1_r. reflexivity.
  - cbn [le_split map le_combine]. rewrite IH, uchar_byte_of_Z.
    rewrite Nat2Z.inj_succ, Z.pow_succ_r by lia.
    rewrite (Z.mul_comm 256), Z.rem_mul_r by lia. lia.
Qed.

Lemma length_le_split (n : nat) (z : Z) : length (le_split n z) = n.
Proof. revert z. induction n as [|n IH]; intros z; simpl; [reflexivity|]. rewrite IH. reflexivity. Qed.

Lemma length_put (byteOrder : Z) (n : nat) (z : Z) : length (put byteOrder n z) = n.
Proof. unfold put. destruct (byteOrder =? LITTLE_ENDIAN); rewrite ?length_rev; apply length_le_split. Qed.

Lemma holds_app (p_blob : list byte) (i : Z) (a b : list byte) :
  holds p_blob i (a ++ b) <-> holds p_blob i a /\ holds p_blob (i + Z.of_nat (length a)) b.
Proof.
  revert i. induction a as [|x a IH]; intros i; cbn [app holds length].
  - replace (i + Z.of_nat 0) with i by lia. tauto.
  - rewrite IH. replace (i + 1 + Z.of_nat (length a)) with (i + Z.of_nat (S (length a))) by lia.
    tauto.
Qed.

Lemma holds_bounds (p_blob : list byte) (i : Z) (bs : list byte) :
  holds p_blob i bs -> bs <> [] ->
  0 <= i /\ i + Z.of_nat (length bs) <= Z.of_nat (length p_blob).
Proof.
  revert i. induction bs as [|b rest IH]; intros i H Hne; [congruence|].
  cbn [holds length] in *. destruct H as [Hb Hrest].
  destruct (byte_at_Some _ _ _ Hb) as [Hi _].
  destruct rest as [|c rest'].
  - simpl. lia.
  - destruct (IH _ Hrest ltac:(discriminate)) as [_ H2]. cbn [length] in *. lia.
Qed.

Lemma Int_wrap_mod (v : Z) : Int.in_range v -> Int.wrap (v mod 256 ^ Z.of_nat 4) = v.
Proof.
  intros Hv. unfold Int.wrap. change (256 ^ Z.of_nat 4) with 4294967296.
  rewrite Z.add_mod_idemp_l by lia. unfold Int.in_range, Int.min_int, Int.max_int in Hv.
  rewrite Z.mod_small by lia. lia.
Qed.

Ltac norm_offsets i :=
  replace (i + 1 + 1) with (i + 2) in * by lia;
  replace (i + 2 + 1) with (i + 3) in * by lia;
  replace (i + 3 + 1) with (i + 4) in * by lia;
  replace (i + 4 + 1) with (i + 5) in * by lia;
  replace (i + 5 + 1) with (i + 6) in * by lia;
  replace (i + 6 + 1) with (i + 7) in * by lia.

Section Reading.

Variable cpu : cpu_order.

Lemma getInt_put (p_blob : list byte) (i byteOrder v : Z) :
  byteOrder = LITTLE_ENDIAN \/ byteOrder = BIG_ENDIAN ->
  Int.in_range v ->
  holds p_blob i (put_int byteOrder v) ->
  i + 4 <= Int.max_int ->
  getInt cpu p_blob i byteOrder = Ret v (i + 4).
Proof.
  intros Hbo Hv Hh Hmax.
  assert (Hi : 0 <= i).
  { apply (holds_bounds _ _ _ Hh). unfold put_int.
    intros E. apply (f_equal (@length byte)) in E. rewrite length_put in E. discriminate. }
  pose proof (Int_wrap_mod v Hv) as Hval. rewrite <- le_combine_split in Hval.
  unfold put_int, put in Hh. unfold getInt.
  destruct Hbo as [-> | ->]; cbn [le_split rev app holds map] in *;
    [ rewrite Z.eqb_refl in Hh | change (BIG_ENDIAN =? LITTLE_ENDIAN) with false in Hh ];
    cbn [le_split rev app holds map] in Hh;
    destruct Hh as (B0 & B1 & B2 & B3 & _); norm_offsets i;
    destruct cpu; cbn [endian native]; int_simpl;
    first [ rewrite Z.eqb_refl | change (LITTLE_ENDIAN =? BIG_ENDIAN) with false
          | change (BIG_ENDIAN =? LITTLE_ENDIAN) with false ];
    unfold bytes_at; rewrite B0, B1, B2, B3; cbn [rev app]; rewrite Hval; reflexivity.
Qed.

Lemma getDouble_put (p_blob : list byte) (i byteOrder : Z) (d : double) :
  byteOrder = LITTLE_ENDIAN \/ byteOrder = BIG_ENDIAN ->
  0 <= d < 2 ^ 64 ->
  holds p_blob i (put_double byteOrder d) ->
  i + 8 <= Int.max_int ->
  getDouble cpu p_blob i byteOrder = Ret d (i + 8).
Proof.
  intros Hbo Hd Hh Hmax.
  assert (Hi : 0 <= i).
  { apply (holds_bounds _ _ _ Hh). unfold put_double.
    intros E. apply (f_equal (@length byte)) in E. rewrite length_put in E. discriminate. }
  assert (Hval : le_combine (map uchar (le_split 8 d)) = d).
  { rewrite le_combine_split. change (256 ^ Z.of_nat 8) with (2 ^ 64).
    apply Z.mod_small. exact Hd. }
  unfold put_double, put in Hh. unfold getDouble.
  destruct Hbo as [-> | ->]; cbn [le_split rev app holds map] in *;
    [ rewrite Z.eqb_refl in Hh | change (BIG_ENDIAN =? LITTLE_ENDIAN) with false in Hh ];
    cbn [le_split rev app holds map] in Hh;
    destruct Hh as (B0 & B1 & B2 & B3 & B4 & B5 & B6 & B7 & _); norm_offsets i;
    destruct cpu; cbn [endian native]; int_simpl;
    first [ rewrite Z.eqb_refl | change (LITTLE_ENDIAN =? BIG_ENDIAN) with false
          | change (BIG_ENDIAN =? LITTLE_ENDIAN) with false ];
    unfold bytes_at; rewrite B0, B1, B2, B3, B4, B5, B6, B7; cbn [rev app];
    rewrite Hval; reflexivity.
Qed.

End Reading.

Lemma blen_app (a b : list byte) : blen (a ++ b) = blen a + blen b.
Proof. unfold blen. rewrite length_app. lia. Qed.

Lemma blen_cons (x : byte) (a : list byte) : blen (x :: a) = 1 + blen a.
Proof. unfold blen. cbn [length]. lia. Qed.

Lemma blen_nil : blen [] = 0.
Proof. reflexivity. Qed.

Lemma blen_put_int (bo v : Z) : blen (put_int bo v) = 4.
Proof. unfold blen, put_int. rewrite length_put. reflexivity. Qed.

Lemma blen_put_double (bo : Z) (d : double) : blen (put_double bo d) = 8.
Proof. unfold blen, put_double. rewrite length_put. reflexivity. Qed.

Lemma blen_put_point (bo : Z) (c : list double) :
  blen (put_point bo c) = 8 * Z.of_nat (length c).
Proof.
  unfold put_point. induction c as [|d c IH]; cbn [flat_map length].
  - reflexivity.
  - rewrite blen_app, blen_put_double, IH. lia.
Qed.

Lemma blen_put_point_wf (bo dim : Z) (c : list double) :
  wf_point dim c -> blen (put_point bo c) = 8 * dim.
Proof. intros [H _]. rewrite blen_put_point, H. reflexivity. Qed.

Lemma blen_flat_put_point (bo dim : Z) (pts : list (list double)) :
  Forall (wf_point dim) pts ->
  blen (flat_map (put_point bo) pts) = 8 * dim * Z.of_nat (length pts).
Proof.
  induction 1 as [|c pts Hc _ IH]; cbn [flat_map length].
  - rewrite blen_nil. lia.
  - rewrite blen_app, (blen_put_point_wf _ _ _ Hc), IH. lia.
Qed.

Lemma blen_put_points (bo dim : Z) (pts : list (list double)) :
  Forall (wf_point dim) pts ->
  blen (put_points bo pts) = 4 + 8 * dim * Z.of_nat (length pts).
Proof.
  intros H. unfold put_points. rewrite blen_app, blen_put_int, (blen_flat_put_point _ _ _ H).
  reflexivity.
Qed.

Lemma blen_nonneg (bs : list byte) : 0 <= blen bs.
Proof. unfold blen. lia. Qed.

Lemma holds_app_blen (p_blob : list byte) (i : Z) (a b : list byte) :
  holds p_blob i (a ++ b) <-> holds p_blob i a /\ holds p_blob (i + blen a) b.
Proof. apply holds_app. Qed.

Lemma holds_end (p_blob : list byte) (i : Z) (bs : list byte) :
  holds p_blob i bs -> 0 < blen bs -> 0 <= i /\ i + blen bs <= Z.of_nat (length p_blob).
Proof.
  intros H Hlen. apply holds_bounds; [exact H|].
  intros ->. rewrite blen_nil in Hlen. lia.
Qed.

Lemma dimension_of_range (t : Z) : 2 <= dimension_of t <= 4.
Proof. unfold dimension_of. destruct (hasZ t), (hasM t); lia. Qed.

Section Payload.

Variable cpu : cpu_order.
Variable p_blob : list byte.
Variable n_bytes : Z.
Hypothesis n_bytes_length : n_bytes = Z.of_nat (length p_blob).
Hypothesis n_bytes_int : n_bytes <= Int.max_int.
Variable bo : Z.
Hypothesis bo_valid : bo = LITTLE_ENDIAN \/ bo = BIG_ENDIAN.

Lemma holds_put_point_nth (c : list double) (i : Z) (k : nat) :
  holds p_blob i (put_point bo c) -> (k < length c)%nat ->
  holds p_blob (i + 8 * Z.of_nat k) (put_double bo (nth k c 0)).
Proof.
  revert i k. induction c as [|d c IH]; intros i k H Hk; cbn [length] in Hk; [lia|].
  unfold put_point in H. cbn [flat_map] in H. apply holds_app_blen in H.
  destruct H as [Hd Hrest]. rewrite blen_put_double in Hrest.
  destruct k as [|k]; cbn [nth].
  - replace (i + 8 * Z.of_nat 0) with i by lia. exact Hd.
  - replace (i + 8 * Z.of_nat (S k)) with (i + 8 + 8 * Z.of_nat k) by lia.
    apply IH; [exact Hrest|lia].
Qed.

Lemma readWKBPointOrd_put (dim o i : Z) (c : list double) :
  wf_point dim c -> 0 <= o < dim ->
  holds p_blob i (put_point bo c) ->
  readWKBPointOrd cpu p_blob n_bytes i bo dim o = Ret (Some (ordinate_of o c)) (i + 8 * dim).
Proof.
  intros Hc Ho Hh. pose proof (blen_put_point_wf bo _ _ Hc) as Hlen.
  destruct (holds_end _ _ _ Hh ltac:(lia)) as [Hi Hend]. rewrite Hlen in Hend.
  destruct Hc as [Hclen Hcwf].
  assert (Hk : (Z.to_nat o < length c)%nat) by lia.
  pose proof (holds_put_point_nth c i (Z.to_nat o) Hh Hk) as Hd.
  rewrite Z2Nat.id in Hd by lia.
  assert (Hwf : wf_double (nth (Z.to_nat o) c 0)).
  { rewrite Forall_forall in Hcwf. apply Hcwf. apply nth_In. exact Hk. }
  unfold readWKBPointOrd. int_simpl.
  replace (i + dim * 8 >? n_bytes) with false
    by (symmetry; rewrite Z.gtb_ltb; apply Z.ltb_ge; lia).
  replace (i + o * 8) with (i + 8 * o) by lia.
  rewrite (getDouble_put cpu p_blob (i + 8 * o) bo _ bo_valid Hwf Hd) by lia.
  cbn [bind]. int_simpl. unfold ordinate_of. f_equal. lia.
Qed.

Lemma readWKBLineStringEnv_loop_put (dim o maxmin : Z) (pts : list (list double))
  (i : Z) (acc : double) :
  Forall (wf_point dim) pts -> 0 <= o < dim ->
  holds p_blob i (flat_map (put_point bo) pts) ->
  readWKBLineStringEnv_loop cpu (length pts) p_blob n_bytes i bo dim o maxmin acc
  = Ret (Some (fold_left (fold_extreme maxmin) (map (ordinate_of o) pts) acc))
        (i + 8 * dim * Z.of_nat (length pts)).
Proof.
  intros Hpts Ho. revert i acc.
  induction Hpts as [|c pts Hc _ IH]; intros i acc Hh;
    cbn [length readWKBLineStringEnv_loop map fold_left].
  - f_equal. lia.
  - cbn [flat_map] in Hh. apply holds_app_blen in Hh. destruct Hh as [Hc' Hrest].
    rewrite (blen_put_point_wf _ _ _ Hc) in Hrest.
    rewrite (readWKBPointOrd_put _ _ _ _ Hc Ho Hc'). cbn [bind].
    rewrite (IH _ _ Hrest). f_equal. lia.
Qed.

Lemma readWKBLineStringEnv_put (dim o maxmin i : Z) (pts : list (list double)) :
  Forall (wf_point dim) pts -> 2 <= dim <= 4 -> 0 <= o < dim ->
  holds p_blob i (put_points bo pts) ->
  env_ok (readWKBLineStringEnv cpu p_blob n_bytes i bo dim o maxmin)
         (line_envelope o maxmin pts) (i + blen (put_points bo pts)).
Proof.
  intros Hpts Hdim Ho Hh. pose proof (blen_put_points bo _ _ Hpts) as Hlen.
  destruct (holds_end _ _ _ Hh ltac:(lia)) as [Hi Hend]. rewrite Hlen in *.
  assert (Hn : Z.of_nat (length pts) <= 8 * dim * Z.of_nat (length pts)) by nia.
  unfold put_points in Hh. apply holds_app_blen in Hh. destruct Hh as [Hcount Hdata].
  rewrite blen_put_int in Hdata.
  unfold readWKBLineStringEnv, env_ok.
  rewrite (getInt_put cpu p_blob i bo (Z.of_nat (length pts)) bo_valid)
    by (try exact Hcount; int_range).
  cbn [bind]. destruct pts as [|c pts].
  - cbn [length Z.of_nat]. change (0 <? 1) with true. cbv iota.
    eexists. split; [reflexivity|]. intros H. contradiction H. reflexivity.
  - apply Forall_cons_iff in Hpts. destruct Hpts as [Hc Hpts'].
    replace (Z.of_nat (length (c :: pts)) <? 1) with false
      by (symmetry; apply Z.ltb_ge; cbn [length]; lia).
    int_simpl.
    replace (i + 4 + Z.of_nat (length (c :: pts)) * dim * 8 >? n_bytes) with false
      by (symmetry; rewrite Z.gtb_ltb; apply Z.ltb_ge; lia).
    cbn [flat_map] in Hdata. apply holds_app_blen in Hdata. destruct Hdata as [Hc' Hrest].
    rewrite (blen_put_point_wf _ _ _ Hc) in Hrest.
    rewrite (readWKBPointOrd_put _ _ _ _ Hc Ho Hc'). cbn [bind].
    replace (Z.to_nat (Z.of_nat (length (c :: pts)) - 1)) with (length pts)
      by (cbn [length]; lia).
    rewrite (readWKBLineStringEnv_loop_put _ _ _ _ _ _ Hpts' Ho Hrest).
    eexists. split; [reflexivity|]. intros _. cbn [length]. lia.
Qed.

Lemma skipWKBLineString_put (dim i : Z) (pts : list (list double)) :
  Forall (wf_point dim) pts -> 2 <= dim <= 4 ->
  holds p_blob i (put_points bo pts) ->
  exists i', skipWKBLineString cpu p_blob n_bytes i bo dim
             = Ret (if nonempty pts then 1 else 0) i' /\
             (nonempty pts = true -> i' = i + blen (put_points bo pts)).
Proof.
  intros Hpts Hdim Hh. pose proof (blen_put_points bo _ _ Hpts) as Hlen.
  destruct (holds_end _ _ _ Hh ltac:(lia)) as [Hi Hend]. rewrite Hlen in *.
  assert (Hn : Z.of_nat (length pts) <= 8 * dim * Z.of_nat (length pts)) by nia.
  unfold put_points in Hh. apply holds_app_blen in Hh. destruct Hh as [Hcount Hdata].
  unfold skipWKBLineString.
  rewrite (getInt_put cpu p_blob i bo (Z.of_nat (length pts)) bo_valid)
    by (try exact Hcount; int_range).
  cbn [bind]. destruct pts as [|c pts].
  - cbn [length Z.of_nat nonempty]. change (0 <? 1) with true. cbv iota.
    eexists. split; [reflexivity|]. discriminate.
  - replace (Z.of_nat (length (c :: pts)) <? 1) with false
      by (symmetry; apply Z.ltb_ge; cbn [length]; lia).
    int_simpl.
    replace (i + 4 + Z.of_nat (length (c :: pts)) * dim * 8 >? n_bytes) with false
      by (symmetry; rewrite Z.gtb_ltb; apply Z.ltb_ge; lia).
    eexists. split; [reflexivity|]. intros _. lia.
Qed.

Lemma isEmptyWKBLineString_put (dim i : Z) (pts : list (list double)) :
  Forall (wf_point dim) pts -> 2 <= dim <= 4 ->
  holds p_blob i (put_points bo pts) ->
  isEmptyWKBLineString cpu p_blob n_bytes i bo dim
  = Ret (line_emptiness pts) (i + blen (put_points bo pts)).
Proof.
  intros Hpts Hdim Hh. pose proof (blen_put_points bo _ _ Hpts) as Hlen.
  destruct (holds_end _ _ _ Hh ltac:(lia)) as [Hi Hend]. rewrite Hlen in *.
  assert (Hn : Z.of_nat (length pts) <= 8 * dim * Z.of_nat (length pts)) by nia.
  unfold put_points in Hh. apply holds_app_blen in Hh. destruct Hh as [Hcount Hdata].
  unfold isEmptyWKBLineString.
  rewrite (getInt_put cpu p_blob i bo (Z.of_nat (length pts)) bo_valid)
    by (try exact Hcount; int_range).
  cbn [bind]. destruct pts as [|c pts].
  - cbn [length Z.of_nat line_emptiness nonempty]. change (0 <? 1) with true. cbv iota.
    f_equal. lia.
  - replace (Z.of_nat (length (c :: pts)) <? 1) with false
      by (symmetry; apply Z.ltb_ge; cbn [length]; lia).
    int_simpl.
    replace (i + 4 + Z.of_nat (length (c :: pts)) * dim * 8 >? n_bytes) with false
      by (symmetry; rewrite Z.gtb_ltb; apply Z.ltb_ge; lia).
    cbn [line_emptiness nonempty]. f_equal. lia.
Qed.

Lemma isEmptyWKBPoint_loop_put (dim : Z) (c : list double) (i k : Z) :
  Forall wf_double c -> 0 <= k -> k + Z.of_nat (length c) = dim -> dim <= 4 ->
  holds p_blob i (put_point bo c) -> 0 <= i ->
  isEmptyWKBPoint_loop cpu (length c) p_blob i bo dim k
  = Ret (if forallb isnan c then 1 else 0) (i + 8 * Z.of_nat (length c)).
Proof.
  intros Hc. revert i k.
  induction Hc as [|d c Hd _ IH]; intros i k Hk Hdim Hdim4 Hh Hi;
    cbn [length isEmptyWKBPoint_loop forallb].
  - f_equal. lia.
  - pose proof Hh as Hall. apply holds_end in Hall; [|rewrite blen_put_point; cbn [length]; lia].
    rewrite blen_put_point in Hall. cbn [length] in Hall, Hdim.
    unfold put_point in Hh. cbn [flat_map] in Hh. apply holds_app_blen in Hh.
    destruct Hh as [Hd' Hrest]. rewrite blen_put_double in Hrest.
    rewrite (getDouble_put cpu p_blob i bo d bo_valid Hd Hd') by lia. cbn [bind].
    destruct (isnan d); cbn [negb andb].
    + int_simpl. rewrite (IH (i + 8) (k + 1)) by (try exact Hrest; lia).
      f_equal. lia.
    + int_simpl. f_equal. lia.
Qed.

Lemma isEmptyWKBPoint_put (dim i : Z) (c : list double) :
  wf_point dim c -> 2 <= dim <= 4 ->
  holds p_blob i (put_point bo c) ->
  isEmptyWKBPoint cpu p_blob n_bytes i bo dim = Ret (point_emptiness c) (i + 8 * dim).
Proof.
  intros Hc Hdim Hh. pose proof (blen_put_point_wf bo _ _ Hc) as Hlen.
  destruct (holds_end _ _ _ Hh ltac:(lia)) as [Hi Hend]. rewrite Hlen in Hend.
  destruct Hc as [Hclen Hcwf].
  unfold isEmptyWKBPoint. int_simpl.
  replace (i + dim * 8 >? n_bytes) with false
    by (symmetry; rewrite Z.gtb_ltb; apply Z.ltb_ge; lia).
  replace (Z.to_nat dim) with (length c) by lia.
  rewrite (isEmptyWKBPoint_loop_put dim c i 0 Hcwf) by (try exact Hh; lia).
  unfold point_emptiness. f_equal. lia.
Qed.

(** ** The decoder on encoded polygons *)

Lemma blen_flat_put_points_ge (rings : list (list (list double))) :
  Z.of_nat (length rings) <= blen (flat_map (put_points bo) rings).
Proof.
  induction rings as [|r rings IH]; cbn [flat_map length].
  - rewrite blen_nil. lia.
  - rewrite blen_app. unfold put_points at 1. rewrite blen_app, blen_put_int.
    pose proof (blen_nonneg (flat_map (put_point bo) r)). lia.
Qed.

Lemma readWKBPolygonEnv_skip_put (dim : Z) (rest : list (list (list double)))
  (i : Z) (res : double) :
  Forall (Forall (wf_point dim)) rest -> 2 <= dim <= 4 ->
  holds p_blob i (flat_map (put_points bo) rest) ->
  env_ok (readWKBPolygonEnv_skip cpu (length rest) p_blob n_bytes i bo dim res)
         (if forallb nonempty rest then Some res else None)
         (i + blen (flat_map (put_points bo) rest)).
Proof.
  intros Hrest Hdim. revert i.
  induction Hrest as [|r rest Hr _ IH]; intros i Hh;
    cbn [length readWKBPolygonEnv_skip forallb flat_map].
  - exists i. split; [reflexivity|]. intros _. rewrite blen_nil. lia.
  - cbn [flat_map] in Hh. apply holds_app_blen in Hh. destruct Hh as [Hr' Hrest'].
    destruct (skipWKBLineString_put dim i r Hr Hdim Hr') as (i' & Hs & Hi').
    rewrite Hs. cbn [bind]. destruct (nonempty r); cbn [andb].
    + change (1 =? 0) with false. cbv iota. rewrite (Hi' eq_refl).
      destruct (IH _ Hrest') as (j & Hj & Hend). exists j. split; [exact Hj|].
      intros H. rewrite (Hend H), blen_app. lia.
    + change (0 =? 0) with true. cbv iota. eexists. split; [reflexivity|].
      intros H. contradiction H. reflexivity.
Qed.

Lemma readWKBPolygonEnv_fold_put (dim o maxmin : Z) (rest : list (list (list double)))
  (i : Z) (res : double) :
  Forall (Forall (wf_point dim)) rest -> 2 <= dim <= 4 -> 0 <= o < dim ->
  holds p_blob i (flat_map (put_points bo) rest) ->
  env_ok (readWKBPolygonEnv_fold cpu (length rest) p_blob n_bytes i bo dim o maxmin res)
         (fold_some (line_envelope o maxmin) maxmin rest res)
         (i + blen (flat_map (put_points bo) rest)).
Proof.
  intros Hrest Hdim Ho. revert i res.
  induction Hrest as [|r rest Hr _ IH]; intros i res Hh;
    cbn [length readWKBPolygonEnv_fold fold_some flat_map].
  - exists i. split; [reflexivity|]. intros _. rewrite blen_nil. lia.
  - cbn [flat_map] in Hh. apply holds_app_blen in Hh. destruct Hh as [Hr' Hrest'].
    destruct (readWKBLineStringEnv_put dim o maxmin i r Hr Hdim Ho Hr') as (i' & Hs & Hi').
    rewrite Hs. cbn [bind]. destruct (line_envelope o maxmin r) as [v|].
    + rewrite (Hi' ltac:(discriminate)).
      destruct (IH _ (fold_extreme maxmin res v) Hrest') as (j & Hj & Hend).
      exists j. split; [exact Hj|]. intros H. rewrite (Hend H), blen_app. lia.
    + eexists. split; [reflexivity|]. intros H. contradiction H. reflexivity.
Qed.

Lemma readWKBPolygonEnv_put (dim o maxmin i : Z) (rings : list (list (list double))) :
  Forall (Forall (wf_point dim)) rings -> 2 <= dim <= 4 -> 0 <= o < dim ->
  holds p_blob i (put_int bo (Z.of_nat (length rings)) ++ flat_map (put_points bo) rings) ->
  env_ok (readWKBPolygonEnv cpu p_blob n_bytes i bo dim o maxmin)
         (polygon_envelope o maxmin rings)
         (i + 4 + blen (flat_map (put_points bo) rings)).
Proof.
  intros Hrings Hdim Ho Hh.
  destruct (holds_end _ _ _ Hh) as [Hi Hend];
    [rewrite blen_app, blen_put_int; pose proof (blen_nonneg (flat_map (put_points bo) rings)); lia|].
  rewrite blen_app, blen_put_int in Hend.
  pose proof (blen_flat_put_points_ge rings) as Hn.
  apply holds_app_blen in Hh. destruct Hh as [Hcount Hdata]. rewrite blen_put_int in Hdata.
  unfold readWKBPolygonEnv.
  rewrite (getInt_put cpu p_blob i bo (Z.of_nat (length rings)) bo_valid)
    by (try exact Hcount; int_range).
  cbn [bind]. destruct rings as [|r rest].
  - cbn [length Z.of_nat polygon_envelope]. change (0 <? 1) with true. cbv iota.
    eexists. split; [reflexivity|]. intros H. contradiction H. reflexivity.
  - apply Forall_cons_iff in Hrings. destruct Hrings as [Hr Hrest].
    replace (Z.of_nat (length (r :: rest)) <? 1) with false
      by (symmetry; apply Z.ltb_ge; cbn [length]; lia).
    cbn [flat_map] in Hdata. apply holds_app_blen in Hdata. destruct Hdata as [Hr' Hrest'].
    destruct (readWKBLineStringEnv_put dim o maxmin (i + 4) r Hr Hdim Ho Hr')
      as (i' & Hs & Hi').
    rewrite Hs. cbn [bind polygon_envelope].
    destruct (line_envelope o maxmin r) as [v|].
    + rewrite (Hi' ltac:(discriminate)).
      replace (Z.to_nat (Z.of_nat (length (r :: rest)) - 1)) with (length rest)
        by (cbn [length]; lia).
      destruct (o <? Z_).
      * destruct (readWKBPolygonEnv_skip_put dim rest _ v Hrest Hdim Hrest')
          as (j & Hj & Hstop).
        exists j. split; [exact Hj|]. intros H. rewrite (Hstop H).
        cbn [flat_map]. rewrite blen_app. lia.
      * destruct (readWKBPolygonEnv_fold_put dim o maxmin rest _ v Hrest Hdim Ho Hrest')
          as (j & Hj & Hstop).
        exists j. split; [exact Hj|]. intros H. rewrite (Hstop H).
        cbn [flat_map]. rewrite blen_app. lia.
    + eexists. split; [reflexivity|]. intros H. contradiction H. reflexivity.
Qed.

Lemma isEmptyWKBPolygon_loop_put (dim : Z) (rings : list (list (list double))) (i : Z) :
  Forall (Forall (wf_point dim)) rings -> 2 <= dim <= 4 ->
  holds p_blob i (flat_map (put_points bo) rings) ->
  empty_ok (isEmptyWKBPolygon_loop cpu (length rings) p_blob n_bytes i bo dim)
           (if forallb nonempty rings then 0 else -1)
           (i + blen (flat_map (put_points bo) rings)).
Proof.
  intros Hrings Hdim. revert i.
  induction Hrings as [|r rest Hr _ IH]; intros i Hh;
    cbn [length isEmptyWKBPolygon_loop forallb flat_map].
  - exists i. split; [reflexivity|]. intros _. rewrite blen_nil. lia.
  - cbn [flat_map] in Hh. apply holds_app_blen in Hh. destruct Hh as [Hr' Hrest'].
    destruct (skipWKBLineString_put dim i r Hr Hdim Hr') as (i' & Hs & Hi').
    rewrite Hs. cbn [bind]. destruct (nonempty r); cbn [andb].
    + change (1 =? 0) with false. cbv iota. rewrite (Hi' eq_refl).
      destruct (IH _ Hrest') as (j & Hj & Hend). exists j. split; [exact Hj|].
      intros H. rewrite (Hend H), blen_app. lia.
    + change (0 =? 0) with true. cbv iota. eexists. split; [reflexivity|]. lia.
Qed.

Lemma isEmptyWKBPolygon_put (dim i : Z) (rings : list (list (list double))) :
  Forall (Forall (wf_point dim)) rings -> 2 <= dim <= 4 ->
  holds p_blob i (put_int bo (Z.of_nat (length rings)) ++ flat_map (put_points bo) rings) ->
  empty_ok (isEmptyWKBPolygon cpu p_blob n_bytes i bo dim)
           (polygon_emptiness rings)
           (i + 4 + blen (flat_map (put_points bo) rings)).
Proof.
  intros Hrings Hdim Hh.
  destruct (holds_end _ _ _ Hh) as [Hi Hend];
    [rewrite blen_app, blen_put_int; pose proof (blen_nonneg (flat_map (put_points bo) rings)); lia|].
  rewrite blen_app, blen_put_int in Hend.
  pose proof (blen_flat_put_points_ge rings) as Hn.
  apply holds_app_blen in Hh. destruct Hh as [Hcount Hdata]. rewrite blen_put_int in Hdata.
  unfold isEmptyWKBPolygon.
  rewrite (getInt_put cpu p_blob i bo (Z.of_nat (length rings)) bo_valid)
    by (try exact Hcount; int_range).
  cbn [bind]. destruct rings as [|r [|r2 rest]].
  - cbn [length Z.of_nat polygon_emptiness]. change (0 <? 1) with true. cbv iota.
    eexists. split; [reflexivity|]. lia.
  - cbn [length polygon_emptiness flat_map] in *.
    change (Z.of_nat 1 <? 1) with false. change (Z.of_nat 1 =? 1) with true. cbv iota.
    apply Forall_cons_iff in Hrings. destruct Hrings as [Hr _].
    rewrite app_nil_r in *.
    rewrite (isEmptyWKBLineString_put dim (i + 4) r Hr Hdim Hdata).
    eexists. split; [reflexivity|]. lia.
  - replace (Z.of_nat (length (r :: r2 :: rest)) <? 1) with false
      by (symmetry; apply Z.ltb_ge; cbn [length]; lia).
    replace (Z.of_nat (length (r :: r2 :: rest)) =? 1) with false
      by (symmetry; apply Z.eqb_neq; cbn [length]; lia).
    rewrite Nat2Z.id.
    destruct (isEmptyWKBPolygon_loop_put dim (r :: r2 :: rest) (i + 4) Hrings Hdim Hdata)
      as (j & Hj & Hstop).
    exists j. split; [exact Hj|]. exact Hstop.
Qed.

End Payload.

(** ** The decoder on encoded geometries: the dispatchers *)

Lemma depth_elements (bo t s : Z) (els : list geometry) (fuel : nat) :
  (depth (Collection bo t s els) < S fuel)%nat ->
  Forall (fun e => (depth e < fuel)%nat) els.
Proof.
  cbn [depth]. intros H. apply Forall_forall. intros e He.
  assert (Hle : Forall (fun k => (k <= list_max (map depth els))%nat) (map depth els))
    by (apply list_max_le; lia).
  rewrite Forall_forall in Hle. specialize (Hle (depth e) (in_map depth els e He)). lia.
Qed.

Lemma blen_put_header (bo t s : Z) :
  blen (put_header bo t s) = if hasSRID t then 9 else 5.
Proof.
  unfold put_header. rewrite blen_cons, blen_app, blen_put_int.
  destruct (hasSRID t); [rewrite blen_put_int|rewrite blen_nil]; reflexivity.
Qed.

Lemma blen_encode_pos (g : geometry) : 5 <= blen (encode g).
Proof.
  destruct g as [bo t s c|bo t s pts|bo t s rings|bo t s els]; cbn [encode];
    rewrite blen_app, blen_put_header;
    match goal with |- context [blen ?x] => pose proof (blen_nonneg x) end;
    destruct (hasSRID t); lia.
Qed.

Lemma blen_flat_encode_ge (els : list geometry) :
  Z.of_nat (length els) <= blen (flat_map encode els).
Proof.
  induction els as [|e els IH]; cbn [flat_map length].
  - rewrite blen_nil. lia.
  - rewrite blen_app. pose proof (blen_encode_pos e). lia.
Qed.

Section Dispatch.

Variable cpu : cpu_order.
Variable p_blob : list byte.
Variable n_bytes : Z.
Hypothesis n_bytes_length : n_bytes = Z.of_nat (length p_blob).
Hypothesis n_bytes_int : n_bytes <= Int.max_int.

Lemma readWKBGeometryEnv_S (fuel : nat)
  (index byteOrder ordinate maxmin geometryTypeExpected : Z) :
  readWKBGeometryEnv cpu (S fuel) p_blob n_bytes index byteOrder ordinate maxmin
    geometryTypeExpected
  = let* (byteOrder, index) := readByteOrder p_blob index byteOrder in
    let* (typeInt, index) := getInt cpu p_blob index byteOrder in
    match effective_ordinate typeInt ordinate with
    | None => Ret None index
    | Some o =>
        env_dispatch cpu (readWKBGeometryEnv cpu fuel) p_blob n_bytes index byteOrder typeInt
          o maxmin geometryTypeExpected
    end.
Proof.
  cbn [readWKBGeometryEnv].
  destruct (readByteOrder p_blob index byteOrder) as [bo i1| |]; cbn [bind]; try reflexivity.
  destruct (getInt cpu p_blob i1 bo) as [t i2| |]; cbn [bind]; try reflexivity.
  unfold effective_ordinate.
  destruct ((dimension_of t =? 3) && (ordinate =? M)); [reflexivity|].
  destruct (dimension_of t <? ordinate); reflexivity.
Qed.

Lemma uchar_order (bo : Z) :
  bo = LITTLE_ENDIAN \/ bo = BIG_ENDIAN -> uchar (byte_of_Z bo) = bo.
Proof. intros [-> | ->]; reflexivity. Qed.

Lemma header_put (ambient bo t s i : Z) (rest : list byte) :
  wf_header bo t s ->
  holds p_blob i (put_header bo t s ++ rest) ->
  readByteOrder p_blob i ambient = Ret bo (i + 1) /\
  getInt cpu p_blob (i + 1) bo = Ret t (i + 5) /\
  (if hasSRID t then Int.add (i + 5) 4 else i + 5) = i + blen (put_header bo t s) /\
  holds p_blob (i + blen (put_header bo t s)) rest /\
  0 <= i /\ i + blen (put_header bo t s) <= n_bytes.
Proof.
  intros (Hbo & Ht & Hs) Hh. apply holds_app_blen in Hh. destruct Hh as [Hhdr Hrest].
  pose proof (blen_put_header bo t s) as Hlen.
  destruct (holds_end _ _ _ Hhdr) as [Hi Hend]; [destruct (hasSRID t); lia|].
  assert (H5 : i + 5 <= n_bytes) by (destruct (hasSRID t); lia).
  unfold put_header in Hhdr. cbn [holds] in Hhdr. destruct Hhdr as [Hmark Hhdr].
  apply holds_app_blen in Hhdr. destruct Hhdr as [Htype Hsrid]. rewrite blen_put_int in Hsrid.
  rewrite (uchar_order _ Hbo) in Hmark.
  split; [|split; [|split; [|split; [|split]]]]; try assumption; try lia.
  - unfold readByteOrder, next_uchar. rewrite Hmark. cbn [bind]. int_simpl.
    destruct Hbo as [-> | ->]; reflexivity.
  - replace (i + 5) with (i + 1 + 4) by lia. apply getInt_put; try assumption. lia.
  - rewrite Hlen. destruct (hasSRID t); [|lia]. int_simpl. lia.
Qed.

Section Elements.

Variable callee_env : list byte -> Z -> Z -> Z -> Z -> Z -> Z -> outcome (option double).
Variable callee_empty : list byte -> Z -> Z -> Z -> Z -> outcome Z.
Variables kind o maxmin bo : Z.
Hypothesis bo_valid : bo = LITTLE_ENDIAN \/ bo = BIG_ENDIAN.

Lemma readWKBMultiEnv_loop_put (rest : list geometry) (i : Z) (acc : double) :
  Forall (element_env_ok p_blob n_bytes callee_env kind o maxmin) rest ->
  holds p_blob i (flat_map encode rest) ->
  env_ok (readWKBMultiEnv_loop callee_env (length rest) kind p_blob n_bytes i bo o maxmin acc)
         (fold_some (envelope o maxmin kind) maxmin rest acc)
         (i + blen (flat_map encode rest)).
Proof.
  intros Hrest. revert i acc.
  induction Hrest as [|e rest He _ IH]; intros i acc Hh;
    cbn [length readWKBMultiEnv_loop fold_some flat_map].
  - exists i. split; [reflexivity|]. intros _. rewrite blen_nil. lia.
  - cbn [flat_map] in Hh. apply holds_app_blen in Hh. destruct Hh as [He' Hrest'].
    destruct (He i bo He') as (i' & Hs & Hi').
    rewrite Hs. cbn [bind]. destruct (envelope o maxmin kind e) as [v|].
    + rewrite (Hi' ltac:(discriminate)).
      destruct (IH _ (fold_extreme maxmin acc v) Hrest') as (j & Hj & Hend).
      exists j. split; [exact Hj|]. intros H. rewrite (Hend H), blen_app. lia.
    + eexists. split; [reflexivity|]. intros H. contradiction H. reflexivity.
Qed.

Lemma readWKBMultiEnv_put (dim i : Z) (els : list geometry) :
  Forall (element_env_ok p_blob n_bytes callee_env kind o maxmin) els ->
  holds p_blob i (put_int bo (Z.of_nat (length els)) ++ flat_map encode els) ->
  env_ok (readWKBMultiEnv cpu callee_env kind p_blob n_bytes i bo dim o maxmin)
         (match els with
          | [] => None
          | e :: rest =>
              match envelope o maxmin kind e with
              | None => None
              | Some v => fold_some (envelope o maxmin kind) maxmin rest v
              end
          end)
         (i + 4 + blen (flat_map encode els)).
Proof.
  intros Hels Hh.
  destruct (holds_end _ _ _ Hh) as [Hi Hend];
    [rewrite blen_app, blen_put_int; pose proof (blen_nonneg (flat_map encode els)); lia|].
  rewrite blen_app, blen_put_int in Hend.
  pose proof (blen_flat_encode_ge els) as Hn.
  apply holds_app_blen in Hh. destruct Hh as [Hcount Hdata]. rewrite blen_put_int in Hdata.
  unfold readWKBMultiEnv.
  rewrite (getInt_put cpu p_blob i bo (Z.of_nat (length els)) bo_valid)
    by (try exact Hcount; int_range).
  cbn [bind]. destruct els as [|e rest].
  - cbn [length Z.of_nat]. change (0 <? 1) with true. cbv iota.
    eexists. split; [reflexivity|]. intros H. contradiction H. reflexivity.
  - apply Forall_cons_iff in Hels. destruct Hels as [He Hrest].
    replace (Z.of_nat (length (e :: rest)) <? 1) with false
      by (symmetry; apply Z.ltb_ge; cbn [length]; lia).
    cbn [flat_map] in Hdata. apply holds_app_blen in Hdata. destruct Hdata as [He' Hrest'].
    destruct (He (i + 4) bo He') as (i' & Hs & Hi').
    rewrite Hs. cbn [bind]. destruct (envelope o maxmin kind e) as [v|].
    + rewrite (Hi' ltac:(discriminate)).
      replace (Z.to_nat (Z.of_nat (length (e :: rest)) - 1)) with (length rest)
        by (cbn [length]; lia).
      destruct (readWKBMultiEnv_loop_put rest _ v Hrest Hrest') as (j & Hj & Hstop).
      exists j. split; [exact Hj|]. intros H. rewrite (Hstop H).
      cbn [flat_map]. rewrite blen_app. lia.
    + eexists. split; [reflexivity|]. intros H. contradiction H. reflexivity.
Qed.

Lemma isEmptyWKBMulti_loop_put (els : list geometry) (i res : Z) :
  Forall (element_empty_ok p_blob n_bytes callee_empty kind) els ->
  holds p_blob i (flat_map encode els) ->
  empty_ok (isEmptyWKBMulti_loop callee_empty (length els) kind p_blob n_bytes i bo res)
           (emptinesses (emptiness kind) els res)
           (i + blen (flat_map encode els)).
Proof.
  intros Hels. revert i res.
  induction Hels as [|e els He _ IH]; intros i res Hh;
    cbn [length isEmptyWKBMulti_loop emptinesses flat_map].
  - exists i. split; [reflexivity|]. intros _. rewrite blen_nil. lia.
  - cbn [flat_map] in Hh. apply holds_app_blen in Hh. destruct Hh as [He' Hrest'].
    destruct (He i bo He') as (i' & Hs & Hi').
    rewrite Hs. cbn [bind]. destruct (emptiness kind e <? 0) eqn:E.
    + exists i'. split; [reflexivity|]. apply Z.ltb_lt in E. lia.
    + apply Z.ltb_ge in E. rewrite (Hi' E).
      destruct (IH _ (if emptiness kind e =? 0 then emptiness kind e else res) Hrest')
        as (j & Hj & Hend).
      exists j. split; [exact Hj|]. intros H. rewrite (Hend H), blen_app. lia.
Qed.

Lemma isEmptyWKBMulti_put (dim i : Z) (els : list geometry) :
  Forall (element_empty_ok p_blob n_bytes callee_empty kind) els ->
  holds p_blob i (put_int bo (Z.of_nat (length els)) ++ flat_map encode els) ->
  empty_ok (isEmptyWKBMulti cpu callee_empty kind p_blob n_bytes i bo dim)
           (emptinesses (emptiness kind) els 1)
           (i + 4 + blen (flat_map encode els)).
Proof.
  intros Hels Hh.
  destruct (holds_end _ _ _ Hh) as [Hi Hend];
    [rewrite blen_app, blen_put_int; pose proof (blen_nonneg (flat_map encode els)); lia|].
  rewrite blen_app, blen_put_int in Hend.
  pose proof (blen_flat_encode_ge els) as Hn.
  apply holds_app_blen in Hh. destruct Hh as [Hcount Hdata]. rewrite blen_put_int in Hdata.
  unfold isEmptyWKBMulti.
  rewrite (getInt_put cpu p_blob i bo (Z.of_nat (length els)) bo_valid)
    by (try exact Hcount; int_range).
  cbn [bind]. destruct els as [|e rest].
  - cbn [length Z.of_nat emptinesses flat_map]. change (0 <? 1) with true. cbv iota.
    eexists. split; [reflexivity|]. intros _. rewrite blen_nil. lia.
  - replace (Z.of_nat (length (e :: rest)) <? 1) with false
      by (symmetry; apply Z.ltb_ge; cbn [length]; lia).
    rewrite Nat2Z.id.
    destruct (isEmptyWKBMulti_loop_put (e :: rest) (i + 4) 1 Hels Hdata) as (j & Hj & Hstop).
    exists j. split; [exact Hj|]. exact Hstop.
Qed.

End Elements.


Lemma env_ok_none (i stop : Z) : env_ok (Ret None i) None stop.
Proof. exists i. split; [reflexivity|]. intros H. contradiction H. reflexivity. Qed.

Lemma env_ok_stop (r : outcome (option double)) (v : option double) (stop stop' : Z) :
  stop = stop' -> env_ok r v stop -> env_ok r v stop'.
Proof. intros <-. auto. Qed.

Lemma empty_ok_stop (r : outcome Z) (c : Z) (stop stop' : Z) :
  stop = stop' -> empty_ok r c stop -> empty_ok r c stop'.
Proof. intros <-. auto. Qed.

Lemma kind_check (expected t : Z) :
  negb (expected =? wkbGeometry) && negb (expected =? geometryType_of t)
  = negb (kind_accepted expected t).
Proof.
  unfold kind_accepted.
  destruct (expected =? wkbGeometry), (expected =? geometryType_of t); reflexivity.
Qed.

(** The envelope query on an encoded geometry is the envelope of the
    geometry, for every request whose ordinate is present in the records
    visited, and the cursor stops at the end of the encoding. *)
Theorem readWKBGeometryEnv_encode (fuel : nat) (g : geometry)
  (i ambient ordinate maxmin expected : Z) :
  wf g -> (depth g < fuel)%nat ->
  ordinate_present ordinate g = true ->
  holds p_blob i (encode g) ->
  env_ok (readWKBGeometryEnv cpu fuel p_blob n_bytes i ambient ordinate maxmin expected)
         (envelope ordinate maxmin expected g) (i + blen (encode g)).
Proof.
  revert g i ambient ordinate maxmin expected.
  induction fuel as [|fuel IH]; intros g i ambient ordinate maxmin expected Hwf Hdepth Hpres Hh;
    [lia|].
  rewrite readWKBGeometryEnv_S.
  destruct Hwf as [bo t s c Hhdr Hkind Hc | bo t s pts Hhdr Hkind Hpts
                  | bo t s rings Hhdr Hkind Hrings | bo t s els Hhdr Hkind Hels];
    cbn [encode] in Hh |- *;
    destruct (header_put ambient bo t s i _ Hhdr Hh) as (Hbo & Hty & Hidx & Hpay & Hi & Hend);
    rewrite Hbo; cbn [bind]; rewrite Hty; cbn [bind];
    cbn [envelope ordinate_present] in Hpres |- *;
    (destruct (effective_ordinate t ordinate) as [o|]; [|apply env_ok_none]);
    unfold env_dispatch; rewrite Hidx, kind_check;
    (destruct (kind_accepted expected t); cbn [negb]; [|apply env_ok_none]);
    pose proof (dimension_of_range t) as Hdim;
    destruct Hhdr as (Hbov & _ & _); rewrite blen_app.
  - apply andb_prop in Hpres. destruct Hpres as [H0 H1].
    apply Z.leb_le in H0. apply Z.ltb_lt in H1.
    rewrite Hkind. change (wkbPoint =? wkbPoint) with true. cbv iota.
    rewrite (readWKBPointOrd_put cpu p_blob n_bytes n_bytes_length n_bytes_int bo Hbov
               _ o _ c Hc) by (try exact Hpay; lia).
    exists (i + blen (put_header bo t s) + 8 * dimension_of t). split; [reflexivity|].
    intros _. rewrite (blen_put_point_wf _ _ _ Hc). lia.
  - apply andb_prop in Hpres. destruct Hpres as [H0 H1].
    apply Z.leb_le in H0. apply Z.ltb_lt in H1.
    rewrite Hkind. change (wkbLineString =? wkbPoint) with false.
    change (wkbLineString =? wkbLineString) with true. cbv iota.
    eapply env_ok_stop; [|apply (readWKBLineStringEnv_put cpu p_blob n_bytes n_bytes_length
                                   n_bytes_int bo Hbov); try eassumption; lia].
    lia.
  - apply andb_prop in Hpres. destruct Hpres as [H0 H1].
    apply Z.leb_le in H0. apply Z.ltb_lt in H1.
    rewrite Hkind. change (wkbPolygon =? wkbPoint) with false.
    change (wkbPolygon =? wkbLineString) with false.
    change (wkbPolygon =? wkbPolygon) with true. cbv iota.
    eapply env_ok_stop; [|apply (readWKBPolygonEnv_put cpu p_blob n_bytes n_bytes_length
                                   n_bytes_int bo Hbov); try eassumption; lia].
    rewrite blen_app, blen_put_int. lia.
  - apply andb_prop in Hpres. destruct Hpres as [Hpres Hall].
    apply andb_prop in Hpres. destruct Hpres as [H0 H1].
    apply Z.leb_le in H0. apply Z.ltb_lt in H1.
    assert (Hok : forall kind,
      Forall (element_env_ok p_blob n_bytes (readWKBGeometryEnv cpu fuel) kind o maxmin) els).
    { intros kind. apply Forall_forall. intros e He j amb Hj.
      apply IH; try assumption.
      - rewrite Forall_forall in Hels. apply Hels. exact He.
      - pose proof (depth_elements _ _ _ _ _ Hdepth) as Hd.
        rewrite Forall_forall in Hd. apply Hd. exact He.
      - rewrite forallb_forall in Hall. apply Hall. exact He. }
    unfold wkbMultiPoint, wkbGeometryCollection in Hkind.
    assert (Hk : geometryType_of t = wkbMultiPoint \/ geometryType_of t = wkbMultiLineString
                 \/ geometryType_of t = wkbMultiPolygon
                 \/ geometryType_of t = wkbGeometryCollection)
      by (unfold wkbMultiPoint, wkbMultiLineString, wkbMultiPolygon, wkbGeometryCollection;
          lia).
    destruct Hk as [Hk|[Hk|[Hk|Hk]]]; rewrite Hk;
      cbv [wkbPoint wkbLineString wkbPolygon wkbMultiPoint wkbMultiLineString wkbMultiPolygon
           wkbGeometryCollection element_kind Z.eqb Pos.eqb];
      (eapply env_ok_stop;
       [|apply (readWKBMultiEnv_put (readWKBGeometryEnv cpu fuel) _ o maxmin bo Hbov);
         [apply Hok|exact Hpay]]);
      rewrite blen_app, blen_put_int; lia.
Qed.

(** The emptiness test on an encoded geometry is the emptiness of the
    geometry, and the cursor stops at the end of the encoding unless the
    answer is an error. *)
Theorem isEmptyWKBGeometry_encode (fuel : nat) (g : geometry) (i ambient expected : Z) :
  wf g -> (depth g < fuel)%nat ->
  holds p_blob i (encode g) ->
  empty_ok (isEmptyWKBGeometry cpu fuel p_blob n_bytes i ambient expected)
           (emptiness expected g) (i + blen (encode g)).
Proof.
  revert g i ambient expected.
  induction fuel as [|fuel IH]; intros g i ambient expected Hwf Hdepth Hh; [lia|].
  cbn [isEmptyWKBGeometry].
  destruct Hwf as [bo t s c Hhdr Hkind Hc | bo t s pts Hhdr Hkind Hpts
                  | bo t s rings Hhdr Hkind Hrings | bo t s els Hhdr Hkind Hels];
    cbn [encode] in Hh |- *;
    destruct (header_put ambient bo t s i _ Hhdr Hh) as (Hbo & Hty & Hidx & Hpay & Hi & Hend);
    rewrite Hbo; cbn [bind]; rewrite Hty; cbn [bind];
    cbn [emptiness]; rewrite Hidx, kind_check;
    (destruct (kind_accepted expected t); cbn [negb];
     [|eexists; split; [reflexivity|lia]]);
    pose proof (dimension_of_range t) as Hdim;
    destruct Hhdr as (Hbov & _ & _); rewrite blen_app.
  - rewrite Hkind. change (wkbPoint =? wkbPoint) with true. cbv iota.
    rewrite (isEmptyWKBPoint_put cpu p_blob n_bytes n_bytes_length n_bytes_int bo Hbov
               _ _ c Hc Hdim Hpay).
    eexists. split; [reflexivity|]. intros _. rewrite (blen_put_point_wf _ _ _ Hc). lia.
  - rewrite Hkind. change (wkbLineString =? wkbPoint) with false.
    change (wkbLineString =? wkbLineString) with true. cbv iota.
    rewrite (isEmptyWKBLineString_put cpu p_blob n_bytes n_bytes_length n_bytes_int bo Hbov
               _ _ pts Hpts Hdim Hpay).
    eexists. split; [reflexivity|]. intros _. lia.
  - rewrite Hkind. change (wkbPolygon =? wkbPoint) with false.
    change (wkbPolygon =? wkbLineString) with false.
    change (wkbPolygon =? wkbPolygon) with true. cbv iota.
    eapply empty_ok_stop; [|apply (isEmptyWKBPolygon_put cpu p_blob n_bytes n_bytes_length
                                     n_bytes_int bo Hbov); try eassumption].
    rewrite blen_app, blen_put_int. lia.
  - assert (Hok : forall kind,
      Forall (element_empty_ok p_blob n_bytes (isEmptyWKBGeometry cpu fuel) kind) els).
    { intros kind. apply Forall_forall. intros e He j amb Hj.
      apply IH; try assumption.
      - rewrite Forall_forall in Hels. apply Hels. exact He.
      - pose proof (depth_elements _ _ _ _ _ Hdepth) as Hd.
        rewrite Forall_forall in Hd. apply Hd. exact He. }
    assert (Hk : geometryType_of t = wkbMultiPoint \/ geometryType_of t = wkbMultiLineString
                 \/ geometryType_of t = wkbMultiPolygon
                 \/ geometryType_of t = wkbGeometryCollection)
      by (unfold wkbMultiPoint, wkbMultiLineString, wkbMultiPolygon, wkbGeometryCollection
            in *; lia).
    destruct Hk as [Hk|[Hk|[Hk|Hk]]]; rewrite Hk;
      cbv [wkbPoint wkbLineString wkbPolygon wkbMultiPoint wkbMultiLineString wkbMultiPolygon
           wkbGeometryCollection element_kind Z.eqb Pos.eqb];
      (eapply empty_ok_stop;
       [|apply (isEmptyWKBMulti_put (isEmptyWKBGeometry cpu fuel) _ bo Hbov);
         [apply Hok|exact Hpay]]);
      rewrite blen_app, blen_put_int; lia.
Qed.

End Dispatch.

(** ** C2: the default mode on an encoded geometry *)



(** The envelope that the header of [gpkg_stale_envelope] stores is not
    read: the answers are the coordinates of the point, on both
    processors. *)
Example stale_envelope_ignored (cpu : cpu_order) (res : double) :
  getDouble cpu gpkg_stale_envelope 8 LITTLE_ENDIAN = Ret d_100 16 /\
  readGPKGGeometryEnv cpu false 1 gpkg_stale_envelope 61 0 (endian cpu) X MIN wkbGeometry res
    = Ret (Some d_1) 61 /\
  readGPKGGeometryEnv cpu false 1 gpkg_stale_envelope 61 0 (endian cpu) X MAX wkbGeometry res
    = Ret (Some d_1) 61 /\
  readGPKGGeometryEnv cpu false 1 gpkg_stale_envelope 61 0 (endian cpu) Y MAX wkbGeometry res
    = Ret (Some d_2) 61.
Proof. destruct cpu; vm_compute; repeat split; reflexivity. Qed.

(** Why the body has to be an encoding.  The blobs [gpkg_rewind_100] and
    [gpkg_rewind_1] have well-formed headers and the same 42 bytes of body,
    and differ by one double of the envelope of the header.  The second
    ring of the polygon of the body announces 0x0FFFFFFA points: in
    [skipWKBLineString] the size [numPoints * 2 * 8] wraps around to -96,
    the check against [n_bytes] passes and the cursor goes from 114 back
    to 18, in the header, where the second element of the collection is
    read.  The maximum of X is 100.0 for the one and 1.0 for the other. *)
Example readGPKGGeometryEnv_cursor_back_in_header (cpu : cpu_order) (res : double) :
  well_formed_header gpkg_rewind_100 0 0x09 /\
  well_formed_header gpkg_rewind_1 0 0x09 /\
  body_offset 0 0x09 = 72 /\
  skipn 72 gpkg_rewind_100 = skipn 72 gpkg_rewind_1 /\
  Int.add 114 (Int.mul (Int.mul 0x0FFFFFFA 2) 8) = 18 /\
  readGPKGGeometryEnv cpu false 2 gpkg_rewind_100 114 0 (endian cpu) X MAX wkbGeometry res
    = Ret (Some d_100) 39 /\
  readGPKGGeometryEnv cpu false 2 gpkg_rewind_1 114 0 (endian cpu) X MAX wkbGeometry res
    = Ret (Some d_1) 39.
Proof.
  destruct cpu; repeat split; try (vm_compute; reflexivity); vm_compute; congruence.
Qed.

(** ** Re-encoding with the opposite byte order *)

Lemma fold_some_map_ext {A : Type} (f g : A -> option double) (h : A -> A) (maxmin : Z)
  (l : list A) (acc : double) :
  Forall (fun x => g (h x) = f x) l ->
  fold_some g maxmin (map h l) acc = fold_some f maxmin l acc.
Proof.
  intros H. revert acc. induction H as [|x l Hx _ IH]; intros acc; cbn [map fold_some].
  - reflexivity.
  - rewrite Hx. destruct (f x); [apply IH|reflexivity].
Qed.

Lemma emptinesses_map_ext {A : Type} (f g : A -> Z) (h : A -> A) (l : list A) (res : Z) :
  Forall (fun x => g (h x) = f x) l ->
  emptinesses g (map h l) res = emptinesses f l res.
Proof.
  intros H. revert res. induction H as [|x l Hx _ IH]; intros res; cbn [map emptinesses].
  - reflexivity.
  - rewrite Hx. destruct (f x <? 0); [reflexivity|apply IH].
Qed.

Lemma forallb_map_ext {A : Type} (f g : A -> bool) (h : A -> A) (l : list A) :
  Forall (fun x => g (h x) = f x) l ->
  forallb g (map h l) = forallb f l.
Proof.
  induction 1 as [|x l Hx _ IH]; cbn [map forallb]; [reflexivity|]. rewrite Hx, IH. reflexivity.
Qed.

Lemma wf_header_flip (bo t s : Z) : wf_header bo t s -> wf_header (1 - bo) t s.
Proof.
  intros ([-> | ->] & Ht & Hs); (split; [|split; assumption]); [right|left]; reflexivity.
Qed.

Lemma reorder_facts (n : nat) (g : geometry) :
  (depth g < n)%nat ->
  depth (reorder g) = depth g /\
  (wf g -> wf (reorder g)) /\
  (forall o maxmin expected,
     envelope o maxmin expected (reorder g) = envelope o maxmin expected g) /\
  (forall expected, emptiness expected (reorder g) = emptiness expected g) /\
  (forall o, ordinate_present o (reorder g) = ordinate_present o g).
Proof.
  revert g. induction n as [|n IH]; intros g Hd; [lia|].
  destruct g as [bo t s c|bo t s pts|bo t s rings|bo t s els]; cbn [reorder].
  - repeat split; try reflexivity.
    intros H. inversion H; subst. constructor; auto using wf_header_flip.
  - repeat split; try reflexivity.
    intros H. inversion H; subst. constructor; auto using wf_header_flip.
  - repeat split; try reflexivity.
    intros H. inversion H; subst. constructor; auto using wf_header_flip.
  - pose proof (depth_elements _ _ _ _ _ Hd) as Hels.
    assert (Hall : Forall (fun e =>
      depth (reorder e) = depth e /\
      (wf e -> wf (reorder e)) /\
      (forall o maxmin expected,
         envelope o maxmin expected (reorder e) = envelope o maxmin expected e) /\
      (forall expected, emptiness expected (reorder e) = emptiness expected e) /\
      (forall o, ordinate_present o (reorder e) = ordinate_present o e)) els).
    { apply Forall_forall. intros e He. apply IH.
      rewrite Forall_forall in Hels. apply Hels. exact He. }
    split; [|split; [|split; [|split]]].
    + cbn [depth]. f_equal. f_equal. rewrite map_map. apply map_ext_in.
      intros e He. rewrite Forall_forall in Hall. apply (Hall e He).
    + intros H. inversion H as [| | |bo' t' s' els' Hhdr Hkind Hwf]; subst.
      constructor; auto using wf_header_flip.
      apply Forall_forall. intros e' He'. apply in_map_iff in He'.
      destruct He' as (e & <- & He). rewrite Forall_forall in Hall, Hwf.
      apply (Hall e He). apply Hwf. exact He.
    + intros o maxmin expected. cbn [envelope].
      destruct (effective_ordinate t o) as [o'|]; [|reflexivity].
      destruct (kind_accepted expected t); [|reflexivity].
      destruct els as [|e rest]; [reflexivity|]. cbn [map].
      apply Forall_cons_iff in Hall. destruct Hall as [(_ & _ & He & _) Hrest].
      rewrite He. destruct (envelope o' maxmin (element_kind (geometryType_of t)) e);
        [|reflexivity].
      apply fold_some_map_ext. apply Forall_forall. intros x Hx.
      rewrite Forall_forall in Hrest. apply (Hrest x Hx).
    + intros expected. cbn [emptiness].
      destruct (kind_accepted expected t); [|reflexivity].
      apply emptinesses_map_ext. apply Forall_forall. intros x Hx.
      rewrite Forall_forall in Hall. apply (Hall x Hx).
    + intros o. cbn [ordinate_present].
      destruct (effective_ordinate t o) as [o'|]; [|reflexivity].
      f_equal. apply forallb_map_ext. apply Forall_forall. intros x Hx.
      rewrite Forall_forall in Hall. apply (Hall x Hx).
Qed.

(** X and Y are ordinates of every record. *)
Lemma ordinate_present_XY (n : nat) (g : geometry) (ordinate : Z) :
  (depth g < n)%nat -> ordinate = X \/ ordinate = Y ->
  ordinate_present ordinate g = true.
Proof.
  revert g. induction n as [|n IH]; intros g Hd Ho; [lia|].
  assert (Heff : forall t, effective_ordinate t ordinate = Some ordinate).
  { intros t. unfold effective_ordinate. pose proof (dimension_of_range t).
    replace (ordinate =? M) with false
      by (symmetry; apply Z.eqb_neq; unfold X, Y, M in *; lia).
    rewrite andb_false_r.
    replace (dimension_of t <? ordinate) with false
      by (symmetry; apply Z.ltb_ge; unfold X, Y in *; lia).
    reflexivity. }
  assert (Hin : forall t, (0 <=? ordinate) && (ordinate <? dimension_of t) = true).
  { intros t. pose proof (dimension_of_range t). apply andb_true_intro. split;
      [apply Z.leb_le|apply Z.ltb_lt]; unfold X, Y in *; lia. }
  destruct g as [bo t s c|bo t s pts|bo t s rings|bo t s els]; cbn [ordinate_present];
    rewrite Heff, Hin; try reflexivity.
  cbn [andb]. apply forallb_forall. intros e He. apply IH; [|exact Ho].
  pose proof (depth_elements _ _ _ _ _ Hd) as Hels.
  rewrite Forall_forall in Hels. apply Hels. exact He.
Qed.

Lemma holds_middle (pre bs post : list byte) : holds (pre ++ bs ++ post) (blen pre) bs.
Proof.
  revert pre. induction bs as [|b bs IH]; intros pre; cbn [holds]; [exact I|].
  split.
  - unfold byte_at, blen.
    replace ((0 <=? Z.of_nat (length pre))
             && (Z.of_nat (length pre) <? Z.of_nat (length (pre ++ (b :: bs) ++ post))))
      with true
      by (symmetry; apply andb_true_intro; split; [apply Z.leb_le|apply Z.ltb_lt];
          rewrite ?length_app; cbn [length]; lia).
    rewrite Nat2Z.id, nth_error_app2 by lia. rewrite Nat.sub_diag. reflexivity.
  - specialize (IH (pre ++ [b])). rewrite <- app_assoc in IH. cbn [app] in IH.
    replace (blen pre + 1) with (blen (pre ++ [b])) by (rewrite blen_app; reflexivity).
    exact IH.
Qed.

Lemma holds_whole (bs : list byte) : holds bs 0 bs.
Proof.
  pose proof (holds_middle [] bs []) as H. rewrite app_nil_r in H. exact H.
Qed.

Lemma blen_flat_map_ext {A : Type} (f g : A -> list byte) (h : A -> A) (l : list A) :
  Forall (fun x => blen (g (h x)) = blen (f x)) l ->
  blen (flat_map g (map h l)) = blen (flat_map f l).
Proof.
  induction 1 as [|x l Hx _ IH]; cbn [map flat_map]; [reflexivity|].
  rewrite !blen_app, Hx, IH. reflexivity.
Qed.

Lemma blen_put_points_order (bo bo' : Z) (pts : list (list double)) :
  blen (put_points bo' pts) = blen (put_points bo pts).
Proof.
  unfold put_points. rewrite !blen_app, !blen_put_int. f_equal.
  rewrite <- (map_id pts) at 1. apply blen_flat_map_ext.
  apply Forall_forall. intros c _. rewrite !blen_put_point. reflexivity.
Qed.

(** The encoding has the same length in both byte orders. *)
Lemma blen_encode_reorder (n : nat) (g : geometry) :
  (depth g < n)%nat -> blen (encode (reorder g)) = blen (encode g).
Proof.
  revert g. induction n as [|n IH]; intros g Hd; [lia|].
  destruct g as [bo t s c|bo t s pts|bo t s rings|bo t s els]; cbn [reorder encode];
    rewrite !blen_app, !blen_put_header; f_equal.
  - rewrite !blen_put_point. reflexivity.
  - apply blen_put_points_order.
  - rewrite !blen_put_int. f_equal.
    rewrite <- (map_id rings) at 1. apply blen_flat_map_ext.
    apply Forall_forall. intros r _. apply blen_put_points_order.
  - rewrite !blen_put_int. f_equal.
    apply blen_flat_map_ext. apply Forall_forall. intros e He. apply IH.
    pose proof (depth_elements _ _ _ _ _ Hd) as Hels.
    rewrite Forall_forall in Hels. apply Hels. exact He.
Qed.

(** The walkers on a blob that is exactly the encoding of a geometry, with
    the recursion depth the geometry needs. *)
Corollary readWKBGeometryEnv_round_trip (cpu : cpu_order) (g : geometry)
  (ambient ordinate maxmin expected : Z) :
  wf g -> ordinate_present ordinate g = true -> blen (encode g) <= Int.max_int ->
  env_ok (readWKBGeometryEnv cpu (S (depth g)) (encode g) (blen (encode g)) 0 ambient
            ordinate maxmin expected)
         (envelope ordinate maxmin expected g) (blen (encode g)).
Proof.
  intros Hwf Ho Hlen.
  apply (readWKBGeometryEnv_encode cpu (encode g) (blen (encode g)) eq_refl Hlen
           (S (depth g)) g 0 ambient ordinate maxmin expected Hwf (Nat.lt_succ_diag_r _) Ho).
  apply holds_whole.
Qed.

Corollary isEmptyWKBGeometry_round_trip (cpu : cpu_order) (g : geometry)
  (ambient expected : Z) :
  wf g -> blen (encode g) <= Int.max_int ->
  empty_ok (isEmptyWKBGeometry cpu (S (depth g)) (encode g) (blen (encode g)) 0 ambient
              expected)
           (emptiness expected g) (blen (encode g)).
Proof.
  intros Hwf Hlen.
  apply (isEmptyWKBGeometry_encode cpu (encode g) (blen (encode g)) eq_refl Hlen
           (S (depth g)) g 0 ambient expected Hwf (Nat.lt_succ_diag_r _)).
  apply holds_whole.
Qed.

Section Reencoding.

Variables cpu cpu' : cpu_order.

(** The walkers on a geometry and on the same geometry encoded with every
    byte order marker flipped, on any two processors, with the recursion
    depth the geometry needs. *)
Theorem isEmptyWKBGeometry_reorder (g : geometry) (p q : list byte) (i j : Z)
  (ambient ambient' expected : Z) :
  wf g -> blen p <= Int.max_int -> blen q <= Int.max_int ->
  holds p i (encode g) -> holds q j (encode (reorder g)) ->
  exists i' j',
    isEmptyWKBGeometry cpu (S (depth g)) p (blen p) i ambient expected
      = Ret (emptiness expected g) i' /\
    isEmptyWKBGeometry cpu' (S (depth g)) q (blen q) j ambient' expected
      = Ret (emptiness expected g) j'.
Proof.
  intros Hwf Hp Hq Hhp Hhq.
  destruct (reorder_facts (S (depth g)) g (Nat.lt_succ_diag_r _))
    as (Hd & Hw & _ & He & _).
  destruct (isEmptyWKBGeometry_encode cpu p (blen p) eq_refl Hp (S (depth g)) g i ambient
              expected Hwf (Nat.lt_succ_diag_r _) Hhp) as (i' & Hi & _).
  destruct (isEmptyWKBGeometry_encode cpu' q (blen q) eq_refl Hq (S (depth g)) (reorder g) j
              ambient' expected (Hw Hwf)) as (j' & Hj & _); [lia|exact Hhq|].
  rewrite He in Hj. exists i', j'. split; assumption.
Qed.

Theorem readWKBGeometryEnv_reorder (g : geometry) (p q : list byte) (i j : Z)
  (ambient ambient' ordinate maxmin expected : Z) :
  wf g -> ordinate_present ordinate g = true ->
  blen p <= Int.max_int -> blen q <= Int.max_int ->
  holds p i (encode g) -> holds q j (encode (reorder g)) ->
  exists i' j',
    readWKBGeometryEnv cpu (S (depth g)) p (blen p) i ambient ordinate maxmin expected
      = Ret (envelope ordinate maxmin expected g) i' /\
    readWKBGeometryEnv cpu' (S (depth g)) q (blen q) j ambient' ordinate maxmin expected
      = Ret (envelope ordinate maxmin expected g) j'.
Proof.
  intros Hwf Ho Hp Hq Hhp Hhq.
  destruct (reorder_facts (S (depth g)) g (Nat.lt_succ_diag_r _))
    as (Hd & Hw & Hv & _ & Hop).
  destruct (readWKBGeometryEnv_encode cpu p (blen p) eq_refl Hp (S (depth g)) g i ambient
              ordinate maxmin expected Hwf (Nat.lt_succ_diag_r _) Ho Hhp) as (i' & Hi & _).
  destruct (readWKBGeometryEnv_encode cpu' q (blen q) eq_refl Hq (S (depth g)) (reorder g) j
              ambient' ordinate maxmin expected (Hw Hwf)) as (j' & Hj & _);
    [lia|rewrite Hop; exact Ho|exact Hhq|].
  rewrite Hv in Hj. exists i', j'. split; assumption.
Qed.

(** The entry points of the default mode on two blobs with well-formed
    container headers whose bodies are the two encodings of a geometry. *)

(** X17.  The envelope query returns the same value, that of [envelope], on
    the encoding of a well-formed geometry and on its re-encoding in the
    opposite byte order, behind any two well-formed headers, on any two
    processors and with any two default byte orders, for an ordinate that
    the records visited have. *)
Theorem readGPKGGeometryEnv_reorder (g : geometry) (p q : list byte)
  (flags flags' byteOrder byteOrder' ordinate maxmin expected : Z) (res res' : double) :
  well_formed_header p 0 flags -> well_formed_header q 0 flags' ->
  wf g -> ordinate_present ordinate g = true ->
  blen p <= Int.max_int -> blen q <= Int.max_int ->
  holds p (body_offset 0 flags) (encode g) ->
  holds q (body_offset 0 flags') (encode (reorder g)) ->
  exists i' j',
    readGPKGGeometryEnv cpu false (S (depth g)) p (blen p) 0 byteOrder ordinate maxmin
      expected res = Ret (envelope ordinate maxmin expected g) i' /\
    readGPKGGeometryEnv cpu' false (S (depth g)) q (blen q) 0 byteOrder' ordinate maxmin
      expected res' = Ret (envelope ordinate maxmin expected g) j'.
Proof.
  intros Hhp Hhq Hwf Ho Hp Hq Hbp Hbq.
  unfold readGPKGGeometryEnv.
  rewrite (skipGPKGHeader_ok p (blen p) 0 flags Hhp) by (unfold Int.max_int; lia).
  rewrite (skipGPKGHeader_ok q (blen q) 0 flags' Hhq) by (unfold Int.max_int; lia).
  cbn [bind]. change (1 =? 0) with false. cbv iota.
  apply readWKBGeometryEnv_reorder; assumption.
Qed.

(** X18.  The emptiness query returns the same code on the encoding of a
    well-formed geometry and on its re-encoding in the opposite byte order,
    behind two well-formed headers with the same empty flag, on any two
    processors and with any two default byte orders: 1 when the flag is
    set, the code of [emptiness] otherwise. *)
Theorem isEmptyGPKGGeometry_reorder (g : geometry) (p q : list byte)
  (flags flags' byteOrder byteOrder' expected : Z) :
  well_formed_header p 0 flags -> well_formed_header q 0 flags' ->
  header_isEmpty flags = header_isEmpty flags' ->
  wf g ->
  blen p <= Int.max_int -> blen q <= Int.max_int ->
  holds p (body_offset 0 flags) (encode g) ->
  holds q (body_offset 0 flags') (encode (reorder g)) ->
  exists c i' j',
    isEmptyGPKGGeometry cpu false (S (depth g)) p (blen p) 0 byteOrder expected
      = Ret c i' /\
    isEmptyGPKGGeometry cpu' false (S (depth g)) q (blen q) 0 byteOrder' expected
      = Ret c j' /\
    c = if header_isEmpty flags =? 1 then 1 else emptiness expected g.
Proof.
  intros Hhp Hhq Hfl Hwf Hp Hq Hbp Hbq.
  unfold isEmptyGPKGGeometry.
  rewrite (readEmptyGPKGHeader_ok p (blen p) 0 flags Hhp) by (unfold Int.max_int; lia).
  rewrite (readEmptyGPKGHeader_ok q (blen q) 0 flags' Hhq) by (unfold Int.max_int; lia).
  cbn [bind]. change (1 =? 0) with false. cbv iota. rewrite <- Hfl.
  destruct (header_isEmpty flags =? 1).
  - eexists _, _, _. repeat split.
  - destruct (isEmptyWKBGeometry_reorder g p q _ _ byteOrder byteOrder' expected
                Hwf Hp Hq Hbp Hbq) as (i' & j' & Hi & Hj).
    exists (emptiness expected g), i', j'. repeat split; assumption.
Qed.

End Reencoding.

(** ** Examples

    The decoder on the example blobs, for both byte orders of the
    processor. *)

(** A 2-D point: minimum and maximum of each ordinate are its coordinates,
    and the point is not empty. *)
Example point_extremes (cpu : cpu_order) (res : double) :
  readGPKGGeometryEnv cpu false 1 gpkg_point2d 29 0 (endian cpu) X MIN wkbGeometry res
    = Ret (Some d_1) 29 /\
  readGPKGGeometryEnv cpu false 1 gpkg_point2d 29 0 (endian cpu) X MAX wkbGeometry res
    = Ret (Some d_1) 29 /\
  readGPKGGeometryEnv cpu false 1 gpkg_point2d 29 0 (endian cpu) Y MIN wkbGeometry res
    = Ret (Some d_2) 29 /\
  readGPKGGeometryEnv cpu false 1 gpkg_point2d 29 0 (endian cpu) Y MAX wkbGeometry res
    = Ret (Some d_2) 29 /\
  isEmptyGPKGGeometry cpu false 1 gpkg_point2d 29 0 (endian cpu) wkbGeometry = Ret 0 29.
Proof. destruct cpu; vm_compute; repeat split; reflexivity. Qed.

(** A geometry collection without elements is empty and has no envelope. *)
Example collection_without_elements (cpu : cpu_order) :
  isEmptyWKBGeometry cpu 1 wkb_collection_empty 9 0 (endian cpu) wkbGeometry = Ret 1 9 /\
  readWKBGeometryEnv cpu 1 wkb_collection_empty 9 0 (endian cpu) X MIN wkbGeometry
    = Ret None 9.
Proof. destruct cpu; vm_compute; repeat split; reflexivity. Qed.

(** A multi-point whose second element is a line string is malformed for
    both queries: the answer comes from the second element, at the cursor 35
    where its type code was rejected, and the third element is not read. *)
Example multipoint_with_bad_element (cpu : cpu_order) :
  isEmptyWKBGeometry cpu 2 wkb_multipoint_bad 76 0 (endian cpu) wkbGeometry = Ret (-1) 35 /\
  readWKBGeometryEnv cpu 2 wkb_multipoint_bad 76 0 (endian cpu) X MIN wkbGeometry
    = Ret None 35.
Proof. destruct cpu; vm_compute; repeat split; reflexivity. Qed.

(** One level of nesting needs fuel 2: with fuel 1 the elements are out of
    reach. *)
Example multipoint_fuel (cpu : cpu_order) :
  isEmptyWKBGeometry cpu 1 wkb_multipoint_3 72 0 (endian cpu) wkbGeometry = OutOfFuel /\
  isEmptyWKBGeometry cpu 2 wkb_multipoint_3 72 0 (endian cpu) wkbGeometry = Ret 0 72.
Proof. destruct cpu; vm_compute; repeat split; reflexivity. Qed.

(** The envelope of a multi-point starts from its first point: when that
    point is (NaN, NaN) the running extreme stays NaN. *)
Example multipoint_nan_first (cpu : cpu_order) :
  readWKBGeometryEnv cpu 2 wkb_multipoint_3 72 0 (endian cpu) X MAX wkbGeometry
    = Ret (Some d_nan) 72.
Proof. destruct cpu; vm_compute; reflexivity. Qed.

(** The bodies of the two collection blobs are the two encodings of
    [collection_of_two_points]. *)
Example collection_bodies :
  encode collection_of_two_points = skipn 8 gpkg_collection_le /\
  encode (reorder collection_of_two_points) = skipn 8 gpkg_collection_be.
Proof. split; reflexivity. Qed.

(** * Further properties *)

(** ** The processor does not matter *)

Lemma byte_at_outside (p_blob : list byte) (i : Z) :
  ~ (0 <= i < Z.of_nat (length p_blob)) -> byte_at p_blob i = None.
Proof.
  intros H. unfold byte_at.
  destruct ((0 <=? i) && (i <? Z.of_nat (length p_blob))) eqn:E; [|reflexivity].
  apply andb_prop in E. destruct E as [E1 E2].
  apply Z.leb_le in E1. apply Z.ltb_lt in E2. lia.
Qed.

(** From an address of the blob, the address computed in [int] and the
    address itself hold the same byte, or are both outside the blob. *)
Lemma byte_at_add (p_blob : list byte) (i k b : Z) :
  Z.of_nat (length p_blob) <= Int.max_int -> 0 <= k <= 7 ->
  byte_at p_blob i = Some b ->
  byte_at p_blob (Int.add i k) = byte_at p_blob (i + k).
Proof.
  intros Hlen Hk Hb. destruct (byte_at_Some _ _ _ Hb) as [Hi _].
  destruct (Z_le_gt_dec (i + k) Int.max_int) as [Hle|Hgt].
  - rewrite Int_add_small by int_range. reflexivity.
  - rewrite (byte_at_outside p_blob (i + k)) by lia.
    apply byte_at_outside. unfold Int.add, Int.wrap, Int.max_int in *.
    replace ((i + k + 2147483648) mod 4294967296) with (i + k + 2147483648 - 4294967296).
    + lia.
    + apply Z.mod_unique with (q := 1); lia.
Qed.

Lemma bind_ext {A B : Type} (m m' : outcome A) (k k' : A -> Z -> outcome B) :
  m = m' -> (forall a i, m' = Ret a i -> k a i = k' a i) -> bind m k = bind m' k'.
Proof. intros -> H. destruct m' as [a i| |]; cbn [bind]; auto. Qed.

Lemma readByteOrder_valid (p_blob : list byte) (index byteOrder bo i : Z) :
  byteOrder = LITTLE_ENDIAN \/ byteOrder = BIG_ENDIAN ->
  readByteOrder p_blob index byteOrder = Ret bo i ->
  bo = LITTLE_ENDIAN \/ bo = BIG_ENDIAN.
Proof.
  intros Hbo. unfold readByteOrder, next_uchar.
  destruct (byte_at p_blob index) as [b|]; cbn [bind]; [|discriminate].
  intros H. injection H as <- _.
  destruct (b =? LITTLE_ENDIAN) eqn:E1; [left; apply Z.eqb_eq; exact E1|].
  destruct (b =? BIG_ENDIAN) eqn:E2; [right; apply Z.eqb_eq; exact E2|].
  exact Hbo.
Qed.

Section Processor.

Variable p_blob : list byte.
Hypothesis p_blob_int : Z.of_nat (length p_blob) <= Int.max_int.

Lemma getInt_cpu (index byteOrder : Z) :
  byteOrder = LITTLE_ENDIAN \/ byteOrder = BIG_ENDIAN ->
  getInt LittleEndianCPU p_blob index byteOrder = getInt BigEndianCPU p_blob index byteOrder.
Proof.
  intros Hbo. unfold getInt, endian, native, bytes_at.
  destruct (byte_at p_blob index) as [b0|] eqn:E0.
  - rewrite !(byte_at_add p_blob index _ b0 p_blob_int) by (lia || exact E0).
    destruct Hbo as [-> | ->]; cbv [LITTLE_ENDIAN BIG_ENDIAN Z.eqb Pos.eqb]; cbv iota;
      rewrite ?E0;
      destruct (byte_at p_blob (index + 1)), (byte_at p_blob (index + 2)),
        (byte_at p_blob (index + 3)); reflexivity.
  - destruct Hbo as [-> | ->]; cbv [LITTLE_ENDIAN BIG_ENDIAN Z.eqb Pos.eqb]; cbv iota;
      rewrite ?E0;
      destruct (byte_at p_blob (Int.add index 1)), (byte_at p_blob (Int.add index 2)),
        (byte_at p_blob (Int.add index 3)); reflexivity.
Qed.

Lemma getDouble_cpu (index byteOrder : Z) :
  byteOrder = LITTLE_ENDIAN \/ byteOrder = BIG_ENDIAN ->
  getDouble LittleEndianCPU p_blob index byteOrder
  = getDouble BigEndianCPU p_blob index byteOrder.
Proof.
  intros Hbo. unfold getDouble, endian, native, bytes_at.
  destruct (byte_at p_blob index) as [b0|] eqn:E0.
  - rewrite !(byte_at_add p_blob index _ b0 p_blob_int) by (lia || exact E0).
    destruct Hbo as [-> | ->]; cbv [LITTLE_ENDIAN BIG_ENDIAN Z.eqb Pos.eqb]; cbv iota;
      rewrite ?E0;
      destruct (byte_at p_blob (index + 1)), (byte_at p_blob (index + 2)),
        (byte_at p_blob (index + 3)), (byte_at p_blob (index + 4)),
        (byte_at p_blob (index + 5)), (byte_at p_blob (index + 6)),
        (byte_at p_blob (index + 7)); reflexivity.
  - destruct Hbo as [-> | ->]; cbv [LITTLE_ENDIAN BIG_ENDIAN Z.eqb Pos.eqb]; cbv iota;
      rewrite ?E0;
      destruct (byte_at p_blob (Int.add index 1)), (byte_at p_blob (Int.add index 2)),
        (byte_at p_blob (Int.add index 3)), (byte_at p_blob (Int.add index 4)),
        (byte_at p_blob (Int.add index 5)), (byte_at p_blob (Int.add index 6)),
        (byte_at p_blob (Int.add index 7)); reflexivity.
Qed.

Lemma readWKBPointOrd_cpu (n_bytes index byteOrder dimension ordinate : Z) :
  byteOrder = LITTLE_ENDIAN \/ byteOrder = BIG_ENDIAN ->
  readWKBPointOrd LittleEndianCPU p_blob n_bytes index byteOrder dimension ordinate
  = readWKBPointOrd BigEndianCPU p_blob n_bytes index byteOrder dimension ordinate.
Proof.
  intros Hbo. unfold readWKBPointOrd.
  destruct (_ >? n_bytes); [reflexivity|].
  apply bind_ext; [apply getDouble_cpu; exact Hbo|reflexivity].
Qed.

Lemma isEmptyWKBPoint_loop_cpu (n : nat) (index byteOrder dimension i : Z) :
  byteOrder = LITTLE_ENDIAN \/ byteOrder = BIG_ENDIAN ->
  isEmptyWKBPoint_loop LittleEndianCPU n p_blob index byteOrder dimension i
  = isEmptyWKBPoint_loop BigEndianCPU n p_blob index byteOrder dimension i.
Proof.
  intros Hbo. revert index i. induction n as [|n IH]; intros index i; cbn [isEmptyWKBPoint_loop].
  - reflexivity.
  - apply bind_ext; [apply getDouble_cpu; exact Hbo|].
    intros d j _. destruct (negb (isnan d)); [reflexivity|apply IH].
Qed.

Lemma isEmptyWKBPoint_cpu (n_bytes index byteOrder dimension : Z) :
  byteOrder = LITTLE_ENDIAN \/ byteOrder = BIG_ENDIAN ->
  isEmptyWKBPoint LittleEndianCPU p_blob n_bytes index byteOrder dimension
  = isEmptyWKBPoint BigEndianCPU p_blob n_bytes index byteOrder dimension.
Proof.
  intros Hbo. unfold isEmptyWKBPoint.
  destruct (_ >? n_bytes); [reflexivity|apply isEmptyWKBPoint_loop_cpu; exact Hbo].
Qed.

Lemma readWKBLineStringEnv_loop_cpu (n : nat)
  (n_bytes index byteOrder dimension ordinate maxmin : Z) (res : double) :
  byteOrder = LITTLE_ENDIAN \/ byteOrder = BIG_ENDIAN ->
  readWKBLineStringEnv_loop LittleEndianCPU n p_blob n_bytes index byteOrder dimension
    ordinate maxmin res
  = readWKBLineStringEnv_loop BigEndianCPU n p_blob n_bytes index byteOrder dimension
      ordinate maxmin res.
Proof.
  intros Hbo. revert index res.
  induction n as [|n IH]; intros index res; cbn [readWKBLineStringEnv_loop].
  - reflexivity.
  - apply bind_ext; [apply readWKBPointOrd_cpu; exact Hbo|].
    intros [res2|] j _; [apply IH|reflexivity].
Qed.

Lemma readWKBLineStringEnv_cpu (n_bytes index byteOrder dimension ordinate maxmin : Z) :
  byteOrder = LITTLE_ENDIAN \/ byteOrder = BIG_ENDIAN ->
  readWKBLineStringEnv LittleEndianCPU p_blob n_bytes index byteOrder dimension ordinate maxmin
  = readWKBLineStringEnv BigEndianCPU p_blob n_bytes index byteOrder dimension ordinate maxmin.
Proof.
  intros Hbo. unfold readWKBLineStringEnv.
  apply bind_ext; [apply getInt_cpu; exact Hbo|].
  intros numPoints j _. destruct (numPoints <? 1); [reflexivity|].
  destruct (_ >? n_bytes); [reflexivity|].
  apply bind_ext; [apply readWKBPointOrd_cpu; exact Hbo|].
  intros [res|] k _; [apply readWKBLineStringEnv_loop_cpu; exact Hbo|reflexivity].
Qed.

Lemma isEmptyWKBLineString_cpu (n_bytes index byteOrder dimension : Z) :
  byteOrder = LITTLE_ENDIAN \/ byteOrder = BIG_ENDIAN ->
  isEmptyWKBLineString LittleEndianCPU p_blob n_bytes index byteOrder dimension
  = isEmptyWKBLineString BigEndianCPU p_blob n_bytes index byteOrder dimension.
Proof.
  intros Hbo. unfold isEmptyWKBLineString.
  apply bind_ext; [apply getInt_cpu; exact Hbo|reflexivity].
Qed.

Lemma skipWKBLineString_cpu (n_bytes index byteOrder dimension : Z) :
  byteOrder = LITTLE_ENDIAN \/ byteOrder = BIG_ENDIAN ->
  skipWKBLineString LittleEndianCPU p_blob n_bytes index byteOrder dimension
  = skipWKBLineString BigEndianCPU p_blob n_bytes index byteOrder dimension.
Proof.
  intros Hbo. unfold skipWKBLineString.
  apply bind_ext; [apply getInt_cpu; exact Hbo|reflexivity].
Qed.

Lemma readWKBPolygonEnv_skip_cpu (n : nat) (n_bytes index byteOrder dimension : Z)
  (res : double) :
  byteOrder = LITTLE_ENDIAN \/ byteOrder = BIG_ENDIAN ->
  readWKBPolygonEnv_skip LittleEndianCPU n p_blob n_bytes index byteOrder dimension res
  = readWKBPolygonEnv_skip BigEndianCPU n p_blob n_bytes index byteOrder dimension res.
Proof.
  intros Hbo. revert index.
  induction n as [|n IH]; intros index; cbn [readWKBPolygonEnv_skip].
  - reflexivity.
  - apply bind_ext; [apply skipWKBLineString_cpu; exact Hbo|].
    intros ok j _. destruct (ok =? 0); [reflexivity|apply IH].
Qed.

Lemma readWKBPolygonEnv_fold_cpu (n : nat)
  (n_bytes index byteOrder dimension ordinate maxmin : Z) (res : double) :
  byteOrder = LITTLE_ENDIAN \/ byteOrder = BIG_ENDIAN ->
  readWKBPolygonEnv_fold LittleEndianCPU n p_blob n_bytes index byteOrder dimension ordinate
    maxmin res
  = readWKBPolygonEnv_fold BigEndianCPU n p_blob n_bytes index byteOrder dimension ordinate
      maxmin res.
Proof.
  intros Hbo. revert index res.
  induction n as [|n IH]; intros index res; cbn [readWKBPolygonEnv_fold].
  - reflexivity.
  - apply bind_ext; [apply readWKBLineStringEnv_cpu; exact Hbo|].
    intros [res2|] j _; [apply IH|reflexivity].
Qed.

Lemma readWKBPolygonEnv_cpu (n_bytes index byteOrder dimension ordinate maxmin : Z) :
  byteOrder = LITTLE_ENDIAN \/ byteOrder = BIG_ENDIAN ->
  readWKBPolygonEnv LittleEndianCPU p_blob n_bytes index byteOrder dimension ordinate maxmin
  = readWKBPolygonEnv BigEndianCPU p_blob n_bytes index byteOrder dimension ordinate maxmin.
Proof.
  intros Hbo. unfold readWKBPolygonEnv.
  apply bind_ext; [apply getInt_cpu; exact Hbo|].
  intros numRings j _. destruct (numRings <? 1); [reflexivity|].
  apply bind_ext; [apply readWKBLineStringEnv_cpu; exact Hbo|].
  intros [res|] k _; [|reflexivity].
  destruct (ordinate <? Z_);
    [apply readWKBPolygonEnv_skip_cpu|apply readWKBPolygonEnv_fold_cpu]; exact Hbo.
Qed.

Lemma isEmptyWKBPolygon_loop_cpu (n : nat) (n_bytes index byteOrder dimension : Z) :
  byteOrder = LITTLE_ENDIAN \/ byteOrder = BIG_ENDIAN ->
  isEmptyWKBPolygon_loop LittleEndianCPU n p_blob n_bytes index byteOrder dimension
  = isEmptyWKBPolygon_loop BigEndianCPU n p_blob n_bytes index byteOrder dimension.
Proof.
  intros Hbo. revert index.
  induction n as [|n IH]; intros index; cbn [isEmptyWKBPolygon_loop].
  - reflexivity.
  - apply bind_ext; [apply skipWKBLineString_cpu; exact Hbo|].
    intros ok j _. destruct (ok =? 0); [reflexivity|apply IH].
Qed.

Lemma isEmptyWKBPolygon_cpu (n_bytes index byteOrder dimension : Z) :
  byteOrder = LITTLE_ENDIAN \/ byteOrder = BIG_ENDIAN ->
  isEmptyWKBPolygon LittleEndianCPU p_blob n_bytes index byteOrder dimension
  = isEmptyWKBPolygon BigEndianCPU p_blob n_bytes index byteOrder dimension.
Proof.
  intros Hbo. unfold isEmptyWKBPolygon.
  apply bind_ext; [apply getInt_cpu; exact Hbo|].
  intros numRings j _. destruct (numRings <? 1); [reflexivity|].
  destruct (numRings =? 1);
    [apply isEmptyWKBLineString_cpu|apply isEmptyWKBPolygon_loop_cpu]; exact Hbo.
Qed.

(** The multi-geometries, for two dispatchers that agree. *)
Section Callees.

Variables env env' : list byte -> Z -> Z -> Z -> Z -> Z -> Z -> outcome (option double).
Variables empty empty' : list byte -> Z -> Z -> Z -> Z -> outcome Z.

Hypothesis env_agree : forall n_bytes index byteOrder ordinate maxmin kind,
  byteOrder = LITTLE_ENDIAN \/ byteOrder = BIG_ENDIAN ->
  env p_blob n_bytes index byteOrder ordinate maxmin kind
  = env' p_blob n_bytes index byteOrder ordinate maxmin kind.

Hypothesis empty_agree : forall n_bytes index byteOrder kind,
  byteOrder = LITTLE_ENDIAN \/ byteOrder = BIG_ENDIAN ->
  empty p_blob n_bytes index byteOrder kind = empty' p_blob n_bytes index byteOrder kind.

Lemma readWKBMultiEnv_loop_cpu (n : nat) (elementType n_bytes index byteOrder ordinate
  maxmin : Z) (res : double) :
  byteOrder = LITTLE_ENDIAN \/ byteOrder = BIG_ENDIAN ->
  readWKBMultiEnv_loop env n elementType p_blob n_bytes index byteOrder ordinate maxmin res
  = readWKBMultiEnv_loop env' n elementType p_blob n_bytes index byteOrder ordinate maxmin res.
Proof.
  intros Hbo. revert index res.
  induction n as [|n IH]; intros index res; cbn [readWKBMultiEnv_loop].
  - reflexivity.
  - apply bind_ext; [apply env_agree; exact Hbo|].
    intros [res2|] j _; [apply IH|reflexivity].
Qed.

Lemma readWKBMultiEnv_cpu (elementType n_bytes index byteOrder dimension ordinate maxmin : Z) :
  byteOrder = LITTLE_ENDIAN \/ byteOrder = BIG_ENDIAN ->
  readWKBMultiEnv LittleEndianCPU env elementType p_blob n_bytes index byteOrder dimension
    ordinate maxmin
  = readWKBMultiEnv BigEndianCPU env' elementType p_blob n_bytes index byteOrder dimension
      ordinate maxmin.
Proof.
  intros Hbo. unfold readWKBMultiEnv.
  apply bind_ext; [apply getInt_cpu; exact Hbo|].
  intros numGeoms j _. destruct (numGeoms <? 1); [reflexivity|].
  apply bind_ext; [apply env_agree; exact Hbo|].
  intros [res|] k _; [apply readWKBMultiEnv_loop_cpu; exact Hbo|reflexivity].
Qed.

Lemma isEmptyWKBMulti_loop_cpu (n : nat) (elementType n_bytes index byteOrder res : Z) :
  byteOrder = LITTLE_ENDIAN \/ byteOrder = BIG_ENDIAN ->
  isEmptyWKBMulti_loop empty n elementType p_blob n_bytes index byteOrder res
  = isEmptyWKBMulti_loop empty' n elementType p_blob n_bytes index byteOrder res.
Proof.
  intros Hbo. revert index res.
  induction n as [|n IH]; intros index res; cbn [isEmptyWKBMulti_loop].
  - reflexivity.
  - apply bind_ext; [apply empty_agree; exact Hbo|].
    intros res2 j _. destruct (res2 <? 0); [reflexivity|apply IH].
Qed.

Lemma isEmptyWKBMulti_cpu (elementType n_bytes index byteOrder dimension : Z) :
  byteOrder = LITTLE_ENDIAN \/ byteOrder = BIG_ENDIAN ->
  isEmptyWKBMulti LittleEndianCPU empty elementType p_blob n_bytes index byteOrder dimension
  = isEmptyWKBMulti BigEndianCPU empty' elementType p_blob n_bytes index byteOrder dimension.
Proof.
  intros Hbo. unfold isEmptyWKBMulti.
  apply bind_ext; [apply getInt_cpu; exact Hbo|].
  intros numGeoms j _. destruct (numGeoms <? 1); [reflexivity|].
  apply isEmptyWKBMulti_loop_cpu; exact Hbo.
Qed.

End Callees.

Lemma readWKBGeometryEnv_cpu (fuel : nat)
  (n_bytes index byteOrder ordinate maxmin geometryTypeExpected : Z) :
  byteOrder = LITTLE_ENDIAN \/ byteOrder = BIG_ENDIAN ->
  readWKBGeometryEnv LittleEndianCPU fuel p_blob n_bytes index byteOrder ordinate maxmin
    geometryTypeExpected
  = readWKBGeometryEnv BigEndianCPU fuel p_blob n_bytes index byteOrder ordinate maxmin
      geometryTypeExpected.
Proof.
  revert n_bytes index byteOrder ordinate maxmin geometryTypeExpected.
  induction fuel as [|fuel IH];
    intros n_bytes index byteOrder ordinate maxmin geometryTypeExpected Hbo;
    cbn [readWKBGeometryEnv]; [reflexivity|].
  apply bind_ext; [reflexivity|]. intros bo i Hread.
  pose proof (readByteOrder_valid _ _ _ _ _ Hbo Hread) as Hbo'.
  apply bind_ext; [apply getInt_cpu; exact Hbo'|]. intros typeInt j _.
  assert (Hcheck : forall o,
    (let index := if hasSRID typeInt then Int.add j 4 else j in
     let geometryType := geometryType_of typeInt in
     if negb (geometryTypeExpected =? wkbGeometry)
        && negb (geometryTypeExpected =? geometryType)
     then Ret None index
     else if geometryType =? wkbPoint then
       readWKBPointOrd LittleEndianCPU p_blob n_bytes index bo (dimension_of typeInt) o
     else if geometryType =? wkbLineString then
       readWKBLineStringEnv LittleEndianCPU p_blob n_bytes index bo (dimension_of typeInt) o
         maxmin
     else if geometryType =? wkbPolygon then
       readWKBPolygonEnv LittleEndianCPU p_blob n_bytes index bo (dimension_of typeInt) o maxmin
     else if geometryType =? wkbMultiPoint then
       readWKBMultiPointEnv LittleEndianCPU (readWKBGeometryEnv LittleEndianCPU fuel) p_blob
         n_bytes index bo (dimension_of typeInt) o maxmin
     else if geometryType =? wkbMultiLineString then
       readWKBMultiLineStringEnv LittleEndianCPU (readWKBGeometryEnv LittleEndianCPU fuel)
         p_blob n_bytes index bo (dimension_of typeInt) o maxmin
     else if geometryType =? wkbMultiPolygon then
       readWKBMultiPolygonEnv LittleEndianCPU (readWKBGeometryEnv LittleEndianCPU fuel) p_blob
         n_bytes index bo (dimension_of typeInt) o maxmin
     else if geometryType =? wkbGeometryCollection then
       readWKBGeometryCollectionEnv LittleEndianCPU (readWKBGeometryEnv LittleEndianCPU fuel)
         p_blob n_bytes index bo (dimension_of typeInt) o maxmin
     else Ret None index)
    =
    (let index := if hasSRID typeInt then Int.add j 4 else j in
     let geometryType := geometryType_of typeInt in
     if negb (geometryTypeExpected =? wkbGeometry)
        && negb (geometryTypeExpected =? geometryType)
     then Ret None index
     else if geometryType =? wkbPoint then
       readWKBPointOrd BigEndianCPU p_blob n_bytes index bo (dimension_of typeInt) o
     else if geometryType =? wkbLineString then
       readWKBLineStringEnv BigEndianCPU p_blob n_bytes index bo (dimension_of typeInt) o
         maxmin
     else if geometryType =? wkbPolygon then
       readWKBPolygonEnv BigEndianCPU p_blob n_bytes index bo (dimension_of typeInt) o maxmin
     else if geometryType =? wkbMultiPoint then
       readWKBMultiPointEnv BigEndianCPU (readWKBGeometryEnv BigEndianCPU fuel) p_blob
         n_bytes index bo (dimension_of typeInt) o maxmin
     else if geometryType =? wkbMultiLineString then
       readWKBMultiLineStringEnv BigEndianCPU (readWKBGeometryEnv BigEndianCPU fuel)
         p_blob n_bytes index bo (dimension_of typeInt) o maxmin
     else if geometryType =? wkbMultiPolygon then
       readWKBMultiPolygonEnv BigEndianCPU (readWKBGeometryEnv BigEndianCPU fuel) p_blob
         n_bytes index bo (dimension_of typeInt) o maxmin
     else if geometryType =? wkbGeometryCollection then
       readWKBGeometryCollectionEnv BigEndianCPU (readWKBGeometryEnv BigEndianCPU fuel)
         p_blob n_bytes index bo (dimension_of typeInt) o maxmin
     else Ret None index)).
  { intros o. cbv zeta.
    destruct (negb _ && negb _); [reflexivity|].
    destruct (_ =? wkbPoint); [apply readWKBPointOrd_cpu; exact Hbo'|].
    destruct (_ =? wkbLineString); [apply readWKBLineStringEnv_cpu; exact Hbo'|].
    destruct (_ =? wkbPolygon); [apply readWKBPolygonEnv_cpu; exact Hbo'|].
    unfold readWKBMultiPointEnv, readWKBMultiLineStringEnv, readWKBMultiPolygonEnv,
      readWKBGeometryCollectionEnv.
    repeat (destruct (_ =? _);
            [apply readWKBMultiEnv_cpu; [intros; apply IH; assumption|exact Hbo']|]).
    reflexivity. }
  cbv zeta in Hcheck |- *.
  destruct ((dimension_of typeInt =? 3) && (ordinate =? M)); [apply Hcheck|].
  destruct (dimension_of typeInt <? ordinate); [reflexivity|apply Hcheck].
Qed.

Lemma isEmptyWKBGeometry_cpu (fuel : nat) (n_bytes index byteOrder geometryTypeExpected : Z) :
  byteOrder = LITTLE_ENDIAN \/ byteOrder = BIG_ENDIAN ->
  isEmptyWKBGeometry LittleEndianCPU fuel p_blob n_bytes index byteOrder geometryTypeExpected
  = isEmptyWKBGeometry BigEndianCPU fuel p_blob n_bytes index byteOrder geometryTypeExpected.
Proof.
  revert n_bytes index byteOrder geometryTypeExpected.
  induction fuel as [|fuel IH]; intros n_bytes index byteOrder geometryTypeExpected Hbo;
    cbn [isEmptyWKBGeometry]; [reflexivity|].
  apply bind_ext; [reflexivity|]. intros bo i Hread.
  pose proof (readByteOrder_valid _ _ _ _ _ Hbo Hread) as Hbo'.
  apply bind_ext; [apply getInt_cpu; exact Hbo'|]. intros typeInt j _.
  cbv zeta.
  destruct (negb _ && negb _); [reflexivity|].
  destruct (_ =? wkbPoint); [apply isEmptyWKBPoint_cpu; exact Hbo'|].
  destruct (_ =? wkbLineString); [apply isEmptyWKBLineString_cpu; exact Hbo'|].
  destruct (_ =? wkbPolygon); [apply isEmptyWKBPolygon_cpu; exact Hbo'|].
  unfold isEmptyWKBMultiPoint, isEmptyWKBMultiLineString, isEmptyWKBMultiPolygon,
    isEmptyWKBGeometryCollection.
  repeat (destruct (_ =? _);
          [apply isEmptyWKBMulti_cpu; [intros; apply IH; assumption|exact Hbo']|]).
  reflexivity.
Qed.

Lemma byteorder_bit_valid (flags : Z) :
  Z.land flags GPKG_BYTEORDER_BIT = LITTLE_ENDIAN \/ Z.land flags GPKG_BYTEORDER_BIT = BIG_ENDIAN.
Proof.
  unfold GPKG_BYTEORDER_BIT, LITTLE_ENDIAN, BIG_ENDIAN.
  change 1 with (Z.ones 1) at 1 3. rewrite Z.land_ones by lia.
  change (2 ^ 1) with 2. pose proof (Z.mod_pos_bound flags 2 ltac:(lia)). lia.
Qed.

Lemma readGPKGHeaderEnv_cpu (n_bytes index ordinate maxmin : Z) (res : double) :
  readGPKGHeaderEnv LittleEndianCPU p_blob n_bytes index ordinate maxmin res
  = readGPKGHeaderEnv BigEndianCPU p_blob n_bytes index ordinate maxmin res.
Proof.
  unfold readGPKGHeaderEnv.
  do 3 (apply bind_ext; [reflexivity|]; intros ? ? _; destruct (negb _); [reflexivity|]).
  apply bind_ext; [reflexivity|]. intros flags i4 _. cbv zeta.
  pose proof (byteorder_bit_valid flags) as Hbo.
  repeat match goal with
         | |- context [if ?c then _ else _] => destruct c
         end;
    try reflexivity;
    (apply bind_ext; [apply getDouble_cpu; exact Hbo|reflexivity]).
Qed.

Lemma readGPKGGeometryEnv_cpu (GPKG_ALLWAYS_USE_HEADER : bool) (fuel : nat)
  (n_bytes index byteOrder ordinate maxmin geometryTypeExpected : Z) (res : double) :
  byteOrder = LITTLE_ENDIAN \/ byteOrder = BIG_ENDIAN ->
  readGPKGGeometryEnv LittleEndianCPU GPKG_ALLWAYS_USE_HEADER fuel p_blob n_bytes index
    byteOrder ordinate maxmin geometryTypeExpected res
  = readGPKGGeometryEnv BigEndianCPU GPKG_ALLWAYS_USE_HEADER fuel p_blob n_bytes index
      byteOrder ordinate maxmin geometryTypeExpected res.
Proof.
  intros Hbo. unfold readGPKGGeometryEnv. destruct GPKG_ALLWAYS_USE_HEADER.
  - apply bind_ext; [apply readGPKGHeaderEnv_cpu|].
    intros [headerOk r] i _. destruct (headerOk =? 1); [reflexivity|].
    apply readWKBGeometryEnv_cpu; exact Hbo.
  - apply bind_ext; [reflexivity|].
    intros ok i _. destruct (ok =? 0); [reflexivity|].
    apply readWKBGeometryEnv_cpu; exact Hbo.
Qed.

Lemma isEmptyGPKGGeometry_cpu (GPKG_ALLWAYS_USE_HEADER : bool) (fuel : nat)
  (n_bytes index byteOrder geometryTypeExpected : Z) :
  byteOrder = LITTLE_ENDIAN \/ byteOrder = BIG_ENDIAN ->
  isEmptyGPKGGeometry LittleEndianCPU GPKG_ALLWAYS_USE_HEADER fuel p_blob n_bytes index
    byteOrder geometryTypeExpected
  = isEmptyGPKGGeometry BigEndianCPU GPKG_ALLWAYS_USE_HEADER fuel p_blob n_bytes index
      byteOrder geometryTypeExpected.
Proof.
  intros Hbo. unfold isEmptyGPKGGeometry.
  apply bind_ext; [reflexivity|].
  intros [ok isEmpty] i _. destruct (ok =? 0); [reflexivity|].
  destruct GPKG_ALLWAYS_USE_HEADER; [reflexivity|].
  destruct (isEmpty =? 1); [reflexivity|].
  apply isEmptyWKBGeometry_cpu; exact Hbo.
Qed.

End Processor.

(** ** The container header *)

Lemma envelopeType_cases (flags : Z) (A : Type) (a0 a1 a2 a3 a4 a5 : A) :
  (if header_envelopeType flags =? 0 then a0
   else if header_envelopeType flags =? 1 then a1
   else if header_envelopeType flags =? 2 then a2
   else if header_envelopeType flags =? 3 then a3
   else if header_envelopeType flags =? 4 then a4
   else a5)
  = if (0 <=? header_envelopeType flags) && (header_envelopeType flags <=? 4)
    then (if header_envelopeType flags =? 0 then a0
          else if header_envelopeType flags =? 1 then a1
          else if header_envelopeType flags =? 2 then a2
          else if header_envelopeType flags =? 3 then a3
          else a4)
    else a5.
Proof.
  destruct (header_envelopeType flags =? 0) eqn:E0;
    [apply Z.eqb_eq in E0; rewrite E0; reflexivity|].
  destruct (header_envelopeType flags =? 1) eqn:E1;
    [apply Z.eqb_eq in E1; rewrite E1; reflexivity|].
  destruct (header_envelopeType flags =? 2) eqn:E2;
    [apply Z.eqb_eq in E2; rewrite E2; reflexivity|].
  destruct (header_envelopeType flags =? 3) eqn:E3;
    [apply Z.eqb_eq in E3; rewrite E3; reflexivity|].
  destruct (header_envelopeType flags =? 4) eqn:E4;
    [apply Z.eqb_eq in E4; rewrite E4; reflexivity|].
  apply Z.eqb_neq in E0, E1, E2, E3, E4.
  destruct ((0 <=? header_envelopeType flags) && (header_envelopeType flags <=? 4)) eqn:E;
    [|reflexivity].
  apply andb_prop in E. destruct E as [Ea Eb]. apply Z.leb_le in Ea, Eb. lia.
Qed.

(** What the first four bytes must be for the header functions to go on. *)
Lemma header_prefix_inv {A : Type} (p_blob : list byte) (reject : A)
  (k : Z -> Z -> outcome A) (a : A) (i : Z) :
  (let* (magic1, index) := next_uchar p_blob 0 in
   if negb (magic1 =? GPKG_MAGIC1) then Ret reject index else
   let* (magic2, index) := next_uchar p_blob index in
   if negb (magic2 =? GPKG_MAGIC2) then Ret reject index else
   let* (version, index) := next_uchar p_blob index in
   if negb (version =? GPKG_VERSION) then Ret reject index else
   let* (flags, index) := next_uchar p_blob index in
   k flags index) = Ret a i ->
  a = reject \/
  exists flags,
    byte_at p_blob 0 = Some GPKG_MAGIC1 /\ byte_at p_blob (0 + 1) = Some GPKG_MAGIC2 /\
    byte_at p_blob (0 + 2) = Some GPKG_VERSION /\ byte_at p_blob (0 + 3) = Some flags /\
    k flags 4 = Ret a i.
Proof.
  unfold next_uchar.
  destruct (byte_at p_blob 0) as [b0|] eqn:E0; cbn [bind]; [|discriminate].
  destruct (b0 =? GPKG_MAGIC1) eqn:M1; cbn [negb];
    [|intros H; injection H as <- _; left; reflexivity].
  change (Int.add 0 1) with 1.
  destruct (byte_at p_blob 1) as [b1|] eqn:E1; cbn [bind]; [|discriminate].
  destruct (b1 =? GPKG_MAGIC2) eqn:M2; cbn [negb];
    [|intros H; injection H as <- _; left; reflexivity].
  change (Int.add 1 1) with 2.
  destruct (byte_at p_blob 2) as [b2|] eqn:E2; cbn [bind]; [|discriminate].
  destruct (b2 =? GPKG_VERSION) eqn:M3; cbn [negb];
    [|intros H; injection H as <- _; left; reflexivity].
  change (Int.add 2 1) with 3.
  destruct (byte_at p_blob 3) as [flags|] eqn:E3; cbn [bind]; [|discriminate].
  change (Int.add 3 1) with 4.
  apply Z.eqb_eq in M1, M2, M3. subst b0 b1 b2.
  intros H. right. exists flags. repeat split; assumption.
Qed.

Lemma skipGPKGHeader_inv (p_blob : list byte) (n_bytes ok i : Z) :
  skipGPKGHeader p_blob n_bytes 0 = Ret ok i ->
  ok = 0 \/
  (ok = 1 /\ exists flags, well_formed_header p_blob 0 flags /\ i = body_offset 0 flags).
Proof.
  unfold skipGPKGHeader. intros H.
  apply (header_prefix_inv p_blob 0) in H.
  destruct H as [H|(flags & H0 & H1 & H2 & H3 & H)]; [left; exact H|].
  cbv zeta in H. fold (header_envelopeType flags) in H.
  change (Int.add 4 4) with 8 in H.
  rewrite envelopeType_cases in H.
  destruct ((0 <=? header_envelopeType flags) && (header_envelopeType flags <=? 4)) eqn:E;
    [|injection H as <- _; left; reflexivity].
  apply andb_prop in E. destruct E as [Ea Eb]. apply Z.leb_le in Ea, Eb.
  right.
  assert (Hok : ok = 1 /\ i = body_offset 0 flags).
  { unfold body_offset, envelope_bytes.
    destruct (header_envelopeType flags =? 0) eqn:E0;
      [apply Z.eqb_eq in E0; rewrite E0; injection H as <- <-; split; reflexivity|].
    destruct (header_envelopeType flags =? 1) eqn:E1;
      [injection H as <- <-; split; reflexivity|].
    destruct (header_envelopeType flags =? 2) eqn:E2;
      [injection H as <- <-; split; reflexivity|].
    destruct (header_envelopeType flags =? 3) eqn:E3;
      [injection H as <- <-; split; reflexivity|].
    apply Z.eqb_neq in E0, E1, E2, E3.
    replace (header_envelopeType flags =? 4) with true by (symmetry; apply Z.eqb_eq; lia).
    injection H as <- <-; split; reflexivity. }
  destruct Hok as [-> ->]. split; [reflexivity|].
  exists flags. split; [|reflexivity]. repeat split; assumption.
Qed.

Lemma readEmptyGPKGHeader_inv (p_blob : list byte) (n_bytes ok isEmpty i : Z) :
  readEmptyGPKGHeader p_blob n_bytes 0 = Ret (ok, isEmpty) i ->
  ok = 0 \/
  (ok = 1 /\ exists flags, well_formed_header p_blob 0 flags /\
     isEmpty = header_isEmpty flags /\ i = body_offset 0 flags).
Proof.
  unfold readEmptyGPKGHeader. intros H.
  apply (header_prefix_inv p_blob (0, -1)) in H.
  destruct H as [H|(flags & H0 & H1 & H2 & H3 & H)]; [left; congruence|].
  cbv zeta in H. fold (header_envelopeType flags) in H. fold (header_isEmpty flags) in H.
  change (Int.add 4 4) with 8 in H.
  rewrite envelopeType_cases in H.
  destruct ((0 <=? header_envelopeType flags) && (header_envelopeType flags <=? 4)) eqn:E;
    [|injection H as <- _ _; left; reflexivity].
  apply andb_prop in E. destruct E as [Ea Eb]. apply Z.leb_le in Ea, Eb.
  right.
  assert (Hok : ok = 1 /\ isEmpty = header_isEmpty flags /\ i = body_offset 0 flags).
  { unfold body_offset, envelope_bytes.
    destruct (header_envelopeType flags =? 0) eqn:E0;
      [apply Z.eqb_eq in E0; rewrite E0; injection H as <- <- <-; repeat split|].
    destruct (header_envelopeType flags =? 1) eqn:E1;
      [injection H as <- <- <-; repeat split|].
    destruct (header_envelopeType flags =? 2) eqn:E2;
      [injection H as <- <- <-; repeat split|].
    destruct (header_envelopeType flags =? 3) eqn:E3;
      [injection H as <- <- <-; repeat split|].
    apply Z.eqb_neq in E0, E1, E2, E3.
    replace (header_envelopeType flags =? 4) with true by (symmetry; apply Z.eqb_eq; lia).
    injection H as <- <- <-; repeat split. }
  destruct Hok as (-> & -> & ->). split; [reflexivity|].
  exists flags. split; [|split; reflexivity]. repeat split; assumption.
Qed.

(** ** The byte order handed down by the caller

    It is used for a record whose marker is neither 0 nor 1 only. *)

Lemma readByteOrder_ambient (p_blob : list byte) (index byteOrder byteOrder' : Z) :
  (forall b, byte_at p_blob index = Some b -> b = LITTLE_ENDIAN \/ b = BIG_ENDIAN) ->
  readByteOrder p_blob index byteOrder = readByteOrder p_blob index byteOrder'.
Proof.
  intros H. unfold readByteOrder, next_uchar.
  destruct (byte_at p_blob index) as [b|]; cbn [bind]; [|reflexivity].
  destruct (H b eq_refl) as [-> | ->]; reflexivity.
Qed.

Lemma readWKBGeometryEnv_ambient (cpu : cpu_order) (fuel : nat) (p_blob : list byte)
  (n_bytes index byteOrder byteOrder' ordinate maxmin geometryTypeExpected : Z) :
  (forall b, byte_at p_blob index = Some b -> b = LITTLE_ENDIAN \/ b = BIG_ENDIAN) ->
  readWKBGeometryEnv cpu fuel p_blob n_bytes index byteOrder ordinate maxmin
    geometryTypeExpected
  = readWKBGeometryEnv cpu fuel p_blob n_bytes index byteOrder' ordinate maxmin
      geometryTypeExpected.
Proof.
  intros H. destruct fuel as [|fuel]; [reflexivity|].
  cbn [readWKBGeometryEnv]. rewrite (readByteOrder_ambient _ _ byteOrder byteOrder' H).
  reflexivity.
Qed.

Lemma isEmptyWKBGeometry_ambient (cpu : cpu_order) (fuel : nat) (p_blob : list byte)
  (n_bytes index byteOrder byteOrder' geometryTypeExpected : Z) :
  (forall b, byte_at p_blob index = Some b -> b = LITTLE_ENDIAN \/ b = BIG_ENDIAN) ->
  isEmptyWKBGeometry cpu fuel p_blob n_bytes index byteOrder geometryTypeExpected
  = isEmptyWKBGeometry cpu fuel p_blob n_bytes index byteOrder' geometryTypeExpected.
Proof.
  intros H. destruct fuel as [|fuel]; [reflexivity|].
  cbn [isEmptyWKBGeometry]. rewrite (readByteOrder_ambient _ _ byteOrder byteOrder' H).
  reflexivity.
Qed.

Lemma endian_valid (cpu : cpu_order) : endian cpu = LITTLE_ENDIAN \/ endian cpu = BIG_ENDIAN.
Proof. destruct cpu; [left|right]; reflexivity. Qed.

(** ** The SQL functions *)

Section SqlProcessor.

Variable p_blob : list byte.
Hypothesis p_blob_int : Z.of_nat (length p_blob) <= Int.max_int.

(** The marker of the outermost WKB record is 0 or 1. *)
Hypothesis marker : forall flags b,
  well_formed_header p_blob 0 flags ->
  byte_at p_blob (body_offset 0 flags) = Some b ->
  b = LITTLE_ENDIAN \/ b = BIG_ENDIAN.

Lemma fnct_STEnv_cpu (ordinate maxmin : Z) (fuel : nat) (res res' : double) :
  fnct_STEnv LittleEndianCPU false ordinate maxmin fuel (SQLITE_BLOB p_blob) res
  = fnct_STEnv BigEndianCPU false ordinate maxmin fuel (SQLITE_BLOB p_blob) res'.
Proof.
  unfold fnct_STEnv. cbv zeta. destruct (_ >=? 29); [|reflexivity].
  unfold readGPKGGeometryEnv.
  destruct (skipGPKGHeader p_blob (sqlite3_value_bytes p_blob) 0) as [ok i| |] eqn:Hs;
    cbn [bind]; try reflexivity.
  destruct (skipGPKGHeader_inv _ _ _ _ Hs) as [-> | (-> & flags & Hwf & ->)];
    [reflexivity|].
  change (1 =? 0) with false. cbv iota.
  rewrite (readWKBGeometryEnv_ambient LittleEndianCPU fuel p_blob _ _ (endian LittleEndianCPU)
             (endian BigEndianCPU)) by (intros b Hb; exact (marker flags b Hwf Hb)).
  rewrite (readWKBGeometryEnv_cpu p_blob p_blob_int) by apply endian_valid.
  reflexivity.
Qed.

Lemma fnct_STIsEmpty_cpu (fuel : nat) :
  fnct_STIsEmpty LittleEndianCPU false fuel (SQLITE_BLOB p_blob)
  = fnct_STIsEmpty BigEndianCPU false fuel (SQLITE_BLOB p_blob).
Proof.
  unfold fnct_STIsEmpty. cbv zeta. destruct (_ >=? 13); [|reflexivity].
  unfold isEmptyGPKGGeometry.
  destruct (readEmptyGPKGHeader p_blob (sqlite3_value_bytes p_blob) 0) as [[ok e] i| |] eqn:Hs;
    cbn [bind]; try reflexivity.
  destruct (readEmptyGPKGHeader_inv _ _ _ _ _ Hs) as [-> | (-> & flags & Hwf & -> & ->)];
    [reflexivity|].
  change (1 =? 0) with false. cbv iota.
  destruct (header_isEmpty flags =? 1); [reflexivity|].
  rewrite (isEmptyWKBGeometry_ambient LittleEndianCPU fuel p_blob _ _ (endian LittleEndianCPU)
             (endian BigEndianCPU)) by (intros b Hb; exact (marker flags b Hwf Hb)).
  rewrite (isEmptyWKBGeometry_cpu p_blob p_blob_int) by apply endian_valid.
  reflexivity.
Qed.

End SqlProcessor.

(** ** Reads of a line string stay inside the buffer *)

Section LineStringBounds.

Variable cpu : cpu_order.
Variable p_blob : list byte.
Variable n_bytes : Z.
Hypothesis n_bytes_length : n_bytes <= Z.of_nat (length p_blob).
Hypothesis n_bytes_int : n_bytes + 32 <= Int.max_int.
Variables byteOrder dimension ordinate : Z.
Hypothesis dimension_range : 2 <= dimension <= 4.
Hypothesis ordinate_range : 0 <= ordinate < dimension.

Lemma readWKBPointOrd_inside (index : Z) :
  0 <= index <= n_bytes ->
  exists r i,
    readWKBPointOrd cpu p_blob n_bytes index byteOrder dimension ordinate = Ret r i /\
    index <= i <= n_bytes.
Proof.
  intros Hi. unfold readWKBPointOrd. int_simpl.
  destruct (index + dimension * 8 >? n_bytes) eqn:E.
  - exists None, index. split; [reflexivity|lia].
  - rewrite Z.gtb_ltb in E. apply Z.ltb_ge in E.
    destruct (getDouble_in_bounds cpu p_blob (index + ordinate * 8) byteOrder) as [d Hd];
      try lia.
    rewrite Hd. cbn [bind]. int_simpl.
    exists (Some d), (index + ordinate * 8 + 8 + (dimension - ordinate - 1) * 8).
    split; [reflexivity|lia].
Qed.

Lemma readWKBLineStringEnv_loop_inside (n : nat) (index maxmin : Z) (res : double) :
  0 <= index <= n_bytes ->
  exists r i,
    readWKBLineStringEnv_loop cpu n p_blob n_bytes index byteOrder dimension ordinate maxmin
      res = Ret r i /\
    index <= i <= n_bytes.
Proof.
  revert index res. induction n as [|n IH]; intros index res Hi;
    cbn [readWKBLineStringEnv_loop].
  - exists (Some res), index. split; [reflexivity|lia].
  - destruct (readWKBPointOrd_inside index Hi) as (r & i & Hr & Hri).
    rewrite Hr. cbn [bind]. destruct r as [res2|].
    + destruct (IH i (fold_extreme maxmin res res2) ltac:(lia)) as (r' & i' & Hr' & Hi').
      exists r', i'. split; [exact Hr'|lia].
    + exists None, i. split; [reflexivity|lia].
Qed.

Lemma readWKBLineStringEnv_inside (index maxmin : Z) :
  0 <= index -> index + 4 <= n_bytes ->
  exists r i,
    readWKBLineStringEnv cpu p_blob n_bytes index byteOrder dimension ordinate maxmin
      = Ret r i /\
    index + 4 <= i <= n_bytes.
Proof.
  intros H0 H4. unfold readWKBLineStringEnv.
  destruct (getInt_in_bounds cpu p_blob index byteOrder) as [numPoints Hn]; try lia.
  rewrite Hn. cbn [bind].
  destruct (numPoints <? 1); [exists None, (index + 4); split; [reflexivity|lia]|].
  destruct (_ >? n_bytes); [exists None, (index + 4); split; [reflexivity|lia]|].
  destruct (readWKBPointOrd_inside (index + 4) ltac:(lia)) as (r & i & Hr & Hri).
  rewrite Hr. cbn [bind]. destruct r as [res|].
  - destruct (readWKBLineStringEnv_loop_inside (Z.to_nat (numPoints - 1)) i maxmin res
                ltac:(lia)) as (r' & i' & Hr' & Hi').
    exists r', i'. split; [exact Hr'|lia].
  - exists None, i. split; [reflexivity|lia].
Qed.

End LineStringBounds.

(** ** The SQL functions on encoded geometries *)

(** A geometry that has an envelope takes 21 bytes at least: the length
    below which the envelope functions answer NULL without looking. *)
Lemma envelope_blen (n : nat) (g : geometry) (ordinate maxmin expected : Z) (v : double) :
  (depth g < n)%nat -> wf g ->
  envelope ordinate maxmin expected g = Some v -> 21 <= blen (encode g).
Proof.
  revert g ordinate expected v. induction n as [|n IH]; intros g ordinate expected v Hd Hwf He;
    [lia|].
  destruct Hwf as [bo t s c Hhdr Hkind Hc | bo t s pts Hhdr Hkind Hpts
                  | bo t s rings Hhdr Hkind Hrings | bo t s els Hhdr Hkind Hels];
    cbn [encode envelope] in *; rewrite blen_app, blen_put_header;
    pose proof (dimension_of_range t) as Hdim;
    destruct (effective_ordinate t ordinate) as [o|]; try discriminate;
    destruct (kind_accepted expected t); try discriminate.
  - rewrite (blen_put_point_wf _ _ _ Hc). destruct (hasSRID t); lia.
  - rewrite (blen_put_points _ _ _ Hpts).
    destruct pts as [|c pts]; [discriminate|].
    cbn [length]. destruct (hasSRID t); nia.
  - destruct rings as [|r rings]; [discriminate|]. cbn [polygon_envelope] in He.
    apply Forall_cons_iff in Hrings. destruct Hrings as [Hr _].
    destruct r as [|c r]; [discriminate|].
    cbn [flat_map]. rewrite !blen_app, blen_put_int, (blen_put_points _ _ _ Hr).
    pose proof (blen_nonneg (flat_map (put_points bo) rings)).
    cbn [length]. destruct (hasSRID t); nia.
  - destruct els as [|e els]; [discriminate|].
    destruct (envelope o maxmin (element_kind (geometryType_of t)) e) as [w|] eqn:Ee;
      [|discriminate].
    apply Forall_cons_iff in Hels. destruct Hels as [Hwe _].
    pose proof (depth_elements _ _ _ _ _ Hd) as Hde.
    apply Forall_cons_iff in Hde. destruct Hde as [Hde _].
    pose proof (IH e _ _ _ Hde Hwe Ee) as Hlen.
    cbn [flat_map]. rewrite !blen_app, blen_put_int.
    pose proof (blen_nonneg (flat_map encode els)).
    destruct (hasSRID t); lia.
Qed.

Section SqlEncoded.

Variable cpu : cpu_order.
Variable p_blob : list byte.
Variable flags : Z.
Variable g : geometry.
Hypothesis header : well_formed_header p_blob 0 flags.
Hypothesis body : holds p_blob (body_offset 0 flags) (encode g).
Hypothesis p_blob_int : Z.of_nat (length p_blob) <= Int.max_int.
Hypothesis g_wf : wf g.

Lemma body_offset_min : 8 <= body_offset 0 flags.
Proof.
  destruct header as (_ & _ & _ & _ & He). unfold body_offset.
  destruct (envelope_bytes_cases _ He) as [E|[E|[E|[E|E]]]]; rewrite E; cbv; discriminate.
Qed.

Lemma body_end : body_offset 0 flags + blen (encode g) <= Z.of_nat (length p_blob).
Proof.
  pose proof (blen_encode_pos g).
  apply (holds_end p_blob (body_offset 0 flags) (encode g) body). lia.
Qed.

Lemma fnct_STEnv_encoded (ordinate maxmin : Z) (fuel : nat) (res : double) :
  (depth g < fuel)%nat ->
  ordinate_present ordinate g = true ->
  fnct_STEnv cpu false ordinate maxmin fuel (SQLITE_BLOB p_blob) res
  = Result match envelope ordinate maxmin wkbGeometry g with
           | Some v => sqlite3_result_double v
           | None => sqlite3_result_null
           end.
Proof.
  intros Hfuel Ho. unfold fnct_STEnv, sqlite3_value_bytes. cbv zeta.
  pose proof body_offset_min as Hmin. pose proof body_end as Hend.
  destruct (Z.of_nat (length p_blob) >=? 29) eqn:E.
  - unfold readGPKGGeometryEnv.
    rewrite (skipGPKGHeader_ok p_blob _ 0 flags header) by (unfold Int.max_int; lia).
    cbn [bind]. change (1 =? 0) with false. cbv iota.
    destruct (readWKBGeometryEnv_encode cpu p_blob _ eq_refl p_blob_int fuel g
                (body_offset 0 flags) (endian cpu) ordinate maxmin wkbGeometry g_wf Hfuel Ho
                body) as (i & -> & _).
    destruct (envelope ordinate maxmin wkbGeometry g); reflexivity.
  - destruct (envelope ordinate maxmin wkbGeometry g) as [v|] eqn:Ee; [|reflexivity].
    pose proof (envelope_blen _ g _ _ _ v Hfuel g_wf Ee).
    rewrite Z.geb_leb in E. apply Z.leb_gt in E. lia.
Qed.

Lemma fnct_STIsEmpty_encoded (fuel : nat) :
  (depth g < fuel)%nat ->
  fnct_STIsEmpty cpu false fuel (SQLITE_BLOB p_blob)
  = Result (sqlite3_result_int
              (if header_isEmpty flags =? 1 then 1 else emptiness wkbGeometry g)).
Proof.
  intros Hfuel. unfold fnct_STIsEmpty, sqlite3_value_bytes. cbv zeta.
  pose proof body_offset_min as Hmin. pose proof body_end as Hend.
  pose proof (blen_encode_pos g) as Hpos.
  replace (Z.of_nat (length p_blob) >=? 13) with true
    by (symmetry; rewrite Z.geb_leb; apply Z.leb_le; lia).
  unfold isEmptyGPKGGeometry.
  rewrite (readEmptyGPKGHeader_ok p_blob _ 0 flags header) by (unfold Int.max_int; lia).
  cbn [bind]. change (1 =? 0) with false. cbv iota.
  destruct (header_isEmpty flags =? 1); [reflexivity|].
  destruct (isEmptyWKBGeometry_encode cpu p_blob _ eq_refl p_blob_int fuel g
              (body_offset 0 flags) (endian cpu) wkbGeometry g_wf Hfuel body) as (i & -> & _).
  reflexivity.
Qed.

End SqlEncoded.

(** ** The extremes of a line string *)

Lemma lex_lt_total (p q : Z * Z * Z) : ~ lex_lt q p -> lex_lt p q \/ p = q.
Proof.
  destruct p as [[a b] c], q as [[a' b'] c']. unfold lex_lt. intros H.
  destruct (Z.eq_dec a a') as [Ha|Ha]; [|left; lia].
  destruct (Z.eq_dec b b') as [Hb|Hb]; [|left; lia].
  destruct (Z.eq_dec c c') as [Hc|Hc]; [|left; lia].
  right. subst. reflexivity.
Qed.

Lemma SFleb_total (f g : spec_float) :
  SF_is_nan f = false -> SF_is_nan g = false -> SFltb g f = false -> SFleb f g = true.
Proof.
  intros Hf Hg Hlt. apply SFleb_key. split; [exact Hf|]. split; [exact Hg|].
  apply lex_lt_total. intros Hl.
  assert (SFltb g f = true) by (apply SFltb_key; auto). congruence.
Qed.

Lemma isnan_SF (a : double) : isnan a = SF_is_nan (SF_of_bits a).
Proof. reflexivity. Qed.

Lemma fold_extreme_in (maxmin : Z) (vs : list double) (acc : double) :
  In (fold_left (fold_extreme maxmin) vs acc) (acc :: vs).
Proof.
  revert acc. induction vs as [|x vs IH]; intros acc; cbn [fold_left].
  - left. reflexivity.
  - destruct (IH (fold_extreme maxmin acc x)) as [H|H].
    + rewrite <- H. unfold fold_extreme.
      destruct (maxmin =? MIN); [destruct (double_lt x acc)|destruct (double_gt x acc)];
        cbn [In]; auto.
    + right. right. exact H.
Qed.

Lemma fold_min_lower (vs : list double) (acc : double) :
  isnan acc = false -> Forall (fun v => isnan v = false) vs ->
  Forall (fun w => double_le (fold_left (fold_extreme MIN) vs acc) w = true) (acc :: vs).
Proof.
  revert acc. induction vs as [|x vs IH]; intros acc Hacc Hvs.
  - constructor; [apply double_le_refl; exact Hacc|constructor].
  - apply Forall_cons_iff in Hvs. destruct Hvs as [Hx Hvs]. cbn [fold_left].
    assert (Hstep : isnan (fold_extreme MIN acc x) = false /\
                    double_le (fold_extreme MIN acc x) acc = true /\
                    double_le (fold_extreme MIN acc x) x = true).
    { unfold fold_extreme. cbn [MIN Z.eqb]. destruct (double_lt x acc) eqn:E.
      - split; [exact Hx|]. split; [|apply double_le_refl; exact Hx].
        apply (double_lt_le_trans x acc acc E). apply double_le_refl. exact Hacc.
      - split; [exact Hacc|]. split; [apply double_le_refl; exact Hacc|].
        apply SFleb_total; [exact Hacc|exact Hx|exact E]. }
    destruct Hstep as (Hn & Ha & Hxx).
    specialize (IH _ Hn Hvs). apply Forall_cons_iff in IH. destruct IH as [_ IH].
    constructor; [apply fold_min_below; assumption|].
    constructor; [apply fold_min_below; assumption|exact IH].
Qed.

Lemma fold_max_upper (vs : list double) (acc : double) :
  isnan acc = false -> Forall (fun v => isnan v = false) vs ->
  Forall (fun w => double_le w (fold_left (fold_extreme MAX) vs acc) = true) (acc :: vs).
Proof.
  revert acc. induction vs as [|x vs IH]; intros acc Hacc Hvs.
  - constructor; [apply double_le_refl; exact Hacc|constructor].
  - apply Forall_cons_iff in Hvs. destruct Hvs as [Hx Hvs]. cbn [fold_left].
    assert (Hstep : isnan (fold_extreme MAX acc x) = false /\
                    double_le acc (fold_extreme MAX acc x) = true /\
                    double_le x (fold_extreme MAX acc x) = true).
    { unfold fold_extreme. cbn [MAX MIN Z.eqb]. destruct (double_gt x acc) eqn:E.
      - split; [exact Hx|]. split; [|apply double_le_refl; exact Hx].
        unfold double_gt in E.
        apply (double_le_lt_trans acc acc x); [apply double_le_refl; exact Hacc|exact E].
      - split; [exact Hacc|]. split; [apply double_le_refl; exact Hacc|].
        apply SFleb_total; [exact Hx|exact Hacc|exact E]. }
    destruct Hstep as (Hn & Ha & Hxx).
    specialize (IH _ Hn Hvs). apply Forall_cons_iff in IH. destruct IH as [_ IH].
    constructor; [apply fold_max_above; assumption|].
    constructor; [apply fold_max_above; assumption|exact IH].
Qed.

(** ** The build that trusts the header *)

(** Rewrites the four reads of the header prefix at the start of a blob. *)
Ltac header_bytes H1 H2 H3 H4 :=
  assert (0 + 72 <= Int.max_int) by (unfold Int.max_int; lia);
  rewrite (next_uchar_at _ _ _ H1) by lia; cbn [bind]; rewrite Z.eqb_refl; cbn [negb];
  rewrite (next_uchar_at _ _ _ H2) by lia; cbn [bind]; rewrite Z.eqb_refl; cbn [negb];
  replace (0 + 1 + 1) with (0 + 2) by lia;
  rewrite (next_uchar_at _ _ _ H3) by lia; cbn [bind]; rewrite Z.eqb_refl; cbn [negb];
  replace (0 + 2 + 1) with (0 + 3) by lia;
  rewrite (next_uchar_at _ _ _ H4) by lia; cbn [bind].

Lemma getDouble_cursor (cpu : cpu_order) (p_blob : list byte) (index byteOrder : Z)
  (d : double) (i : Z) :
  getDouble cpu p_blob index byteOrder = Ret d i -> i = Int.add index 8.
Proof.
  unfold getDouble. destruct (_ =? endian cpu); destruct (bytes_at _ _); try discriminate;
    intros H; injection H as _ <-; reflexivity.
Qed.

Section HeaderMode.

Variable cpu : cpu_order.
Variable p_blob : list byte.
Variable flags : Z.
Hypothesis header : well_formed_header p_blob 0 flags.

Lemma header_isEmpty_cases : header_isEmpty flags = 0 \/ header_isEmpty flags = 1.
Proof. rewrite header_isEmpty_bit. destruct (Z.testbit flags 4); [right|left]; reflexivity. Qed.

Lemma readGPKGHeaderEnv_flagged_empty (n_bytes ordinate maxmin : Z) (res : double) :
  header_isEmpty flags = 1 ->
  readGPKGHeaderEnv cpu p_blob n_bytes 0 ordinate maxmin res
  = Ret (1, res) (body_offset 0 flags).
Proof.
  intros Hempty. destruct header as (H1 & H2 & H3 & H4 & He).
  unfold readGPKGHeaderEnv. header_bytes H1 H2 H3 H4.
  fold (header_envelopeType flags). fold (header_isEmpty flags).
  rewrite Hempty. cbn [Z.eqb negb]. unfold body_offset.
  destruct (envelope_bytes_cases _ He) as [E|[E|[E|[E|E]]]]; rewrite E; reflexivity.
Qed.

Lemma readGPKGHeaderEnv_no_envelope (n_bytes ordinate maxmin : Z) (res : double) :
  header_isEmpty flags = 0 -> header_envelopeType flags = 0 ->
  readGPKGHeaderEnv cpu p_blob n_bytes 0 ordinate maxmin res
  = Ret (-1, res) (body_offset 0 flags).
Proof.
  intros Hempty Hnone. destruct header as (H1 & H2 & H3 & H4 & He).
  unfold readGPKGHeaderEnv. header_bytes H1 H2 H3 H4.
  fold (header_envelopeType flags). fold (header_isEmpty flags).
  rewrite Hempty, Hnone. unfold body_offset. rewrite Hnone. reflexivity.
Qed.

Lemma readGPKGHeaderEnv_min_nan (n_bytes ordinate : Z) (res d : double) (i : Z) :
  header_isEmpty flags = 0 ->
  1 <= header_envelopeType flags ->
  0 <= ordinate <= 3 ->
  ordinate_in_envelope (header_envelopeType flags) ordinate = true ->
  getDouble cpu p_blob (0 + 8 + 8 * envelope_ordinate (header_envelopeType flags) ordinate)
    (Z.land flags GPKG_BYTEORDER_BIT) = Ret d i ->
  isnan d = true ->
  readGPKGHeaderEnv cpu p_blob n_bytes 0 ordinate MIN res
  = Ret (-1, d) (body_offset 0 flags).
Proof.
  intros Hempty He1 Ho Hin Hget Hnan. destruct header as (H1 & H2 & H3 & H4 & He).
  assert (Hi : i = 0 + 8 + 8 * envelope_ordinate (header_envelopeType flags) ordinate + 8).
  { assert (Hb : 0 <= 0 + 8 + 8 * envelope_ordinate (header_envelopeType flags) ordinate
                 /\ 0 + 8 + 8 * envelope_ordinate (header_envelopeType flags) ordinate + 8
                    <= 72).
    { unfold envelope_ordinate.
      destruct ((ordinate =? M) && (header_envelopeType flags =? 3)); unfold Z_; lia. }
    rewrite (getDouble_cursor _ _ _ _ _ _ Hget).
    rewrite Int_add_small by (unfold Int.in_range, Int.min_int, Int.max_int; lia).
    reflexivity. }
  unfold readGPKGHeaderEnv. header_bytes H1 H2 H3 H4.
  fold (header_envelopeType flags). fold (header_isEmpty flags).
  rewrite Hempty. cbn [Z.eqb negb]. unfold body_offset.
  assert (Ee : header_envelopeType flags = 1 \/ header_envelopeType flags = 2 \/
               header_envelopeType flags = 3 \/ header_envelopeType flags = 4) by lia.
  assert (Eo : ordinate = 0 \/ ordinate = 1 \/ ordinate = 2 \/ ordinate = 3) by lia.
  destruct Ee as [Ee|[Ee|[Ee|Ee]]]; rewrite Ee in *;
    destruct Eo as [Eo|[Eo|[Eo|Eo]]]; subst ordinate;
    try discriminate Hin;
    cbv [envelope_ordinate envelope_bytes X Y Z_ M MIN Z.eqb Pos.eqb andb orb] in *;
    int_simpl;
    match goal with
    | Hg : getDouble cpu p_blob ?a _ = _ |- context [getDouble cpu p_blob ?b _] =>
        replace b with a by lia; rewrite Hg
    end;
    cbn [bind]; rewrite Hnan; subst i; int_simpl; f_equal; lia.
Qed.

End HeaderMode.

(** ** Answers and errors of the SQL functions *)

Lemma tri_state_b2z (b : bool) : tri_state (Z.b2z b).
Proof. destruct b; unfold tri_state; cbn; auto. Qed.

Lemma isEmptyGPKGGeometry_code (cpu : cpu_order) (GPKG_ALLWAYS_USE_HEADER : bool)
  (fuel : nat) (p_blob : list byte) (n_bytes byteOrder geometryTypeExpected c i : Z) :
  isEmptyGPKGGeometry cpu GPKG_ALLWAYS_USE_HEADER fuel p_blob n_bytes 0 byteOrder
    geometryTypeExpected = Ret c i ->
  tri_state c.
Proof.
  unfold isEmptyGPKGGeometry.
  destruct (readEmptyGPKGHeader p_blob n_bytes 0) as [[ok e] j| |] eqn:Hh; cbn [bind];
    try discriminate.
  destruct (readEmptyGPKGHeader_inv _ _ _ _ _ Hh) as [-> | (-> & flags & Hwf & -> & ->)].
  - cbn [Z.eqb]. intros H. injection H as <- _. left. reflexivity.
  - change (1 =? 0) with false. cbv iota.
    destruct GPKG_ALLWAYS_USE_HEADER.
    + intros H. injection H as <- _. rewrite header_isEmpty_bit. apply tri_state_b2z.
    + destruct (header_isEmpty flags =? 1).
      * intros H. injection H as <- _. right. right. reflexivity.
      * apply isEmptyWKBGeometry_code.
Qed.

(** The header functions read the first four bytes only. *)
Lemma header_prefix_returns {A : Type} (p_blob : list byte) (reject : A)
  (k : Z -> Z -> outcome A) :
  4 <= Z.of_nat (length p_blob) ->
  (forall flags, exists a i, k flags 4 = Ret a i) ->
  exists a i,
    (let* (magic1, index) := next_uchar p_blob 0 in
     if negb (magic1 =? GPKG_MAGIC1) then Ret reject index else
     let* (magic2, index) := next_uchar p_blob index in
     if negb (magic2 =? GPKG_MAGIC2) then Ret reject index else
     let* (version, index) := next_uchar p_blob index in
     if negb (version =? GPKG_VERSION) then Ret reject index else
     let* (flags, index) := next_uchar p_blob index in
     k flags index) = Ret a i.
Proof.
  intros Hlen Hk. unfold next_uchar.
  destruct (byte_at_in p_blob 0 ltac:(lia)) as [b0 ->]. cbn [bind].
  destruct (negb (b0 =? GPKG_MAGIC1)); [eexists _, _; reflexivity|].
  change (Int.add 0 1) with 1.
  destruct (byte_at_in p_blob 1 ltac:(lia)) as [b1 ->]. cbn [bind].
  destruct (negb (b1 =? GPKG_MAGIC2)); [eexists _, _; reflexivity|].
  change (Int.add 1 1) with 2.
  destruct (byte_at_in p_blob 2 ltac:(lia)) as [b2 ->]. cbn [bind].
  destruct (negb (b2 =? GPKG_VERSION)); [eexists _, _; reflexivity|].
  change (Int.add 2 1) with 3.
  destruct (byte_at_in p_blob 3 ltac:(lia)) as [flags ->]. cbn [bind].
  change (Int.add 3 1) with 4. apply Hk.
Qed.

Lemma skipGPKGHeader_returns (p_blob : list byte) (n_bytes : Z) :
  4 <= Z.of_nat (length p_blob) ->
  exists ok i, skipGPKGHeader p_blob n_bytes 0 = Ret ok i.
Proof.
  intros Hlen. unfold skipGPKGHeader. apply (header_prefix_returns p_blob 0); [exact Hlen|].
  intros flags. cbv zeta.
  repeat match goal with
         | |- context [if ?c then _ else _] => destruct c
         end; eexists _, _; reflexivity.
Qed.

Lemma readEmptyGPKGHeader_returns (p_blob : list byte) (n_bytes : Z) :
  4 <= Z.of_nat (length p_blob) ->
  exists r i, readEmptyGPKGHeader p_blob n_bytes 0 = Ret r i.
Proof.
  intros Hlen. unfold readEmptyGPKGHeader.
  apply (header_prefix_returns p_blob (0, -1)); [exact Hlen|].
  intros flags. cbv zeta.
  repeat match goal with
         | |- context [if ?c then _ else _] => destruct c
         end; eexists _, _; reflexivity.
Qed.

(** ** The minimum is below the maximum *)

Lemma fold_extreme_min_below (acc x : double) :
  isnan acc = false ->
  isnan (fold_extreme MIN acc x) = false /\ double_le (fold_extreme MIN acc x) acc = true.
Proof.
  intros Hacc. unfold fold_extreme. cbn [MIN Z.eqb].
  destruct (double_lt x acc) eqn:E.
  - destruct (double_lt_le_trans x acc acc E (double_le_refl _ Hacc)) as [Hle Hx].
    split; assumption.
  - split; [exact Hacc|apply double_le_refl; exact Hacc].
Qed.

Lemma fold_extreme_max_above (acc x : double) :
  isnan acc = false ->
  isnan (fold_extreme MAX acc x) = false /\ double_le acc (fold_extreme MAX acc x) = true.
Proof.
  intros Hacc. unfold fold_extreme. cbn [MAX MIN Z.eqb].
  destruct (double_gt x acc) eqn:E.
  - unfold double_gt in E.
    destruct (double_le_lt_trans acc acc x (double_le_refl _ Hacc) E) as [Hle Hx].
    split; assumption.
  - split; [exact Hacc|apply double_le_refl; exact Hacc].
Qed.

Lemma fold_some_ordered {A : Type} (f_min f_max : A -> option double) (l : list A)
  (lo hi : double) :
  Forall (fun x => ordered_extremes (f_min x) (f_max x)) l ->
  isnan lo = false -> isnan hi = false -> double_le lo hi = true ->
  ordered_extremes (fold_some f_min MIN l lo) (fold_some f_max MAX l hi).
Proof.
  intros H. revert lo hi. induction H as [|x l Hx _ IH]; intros lo hi Hlo Hhi Hle;
    cbn [fold_some].
  - cbn. auto.
  - unfold ordered_extremes in Hx.
    destruct (f_min x) as [l1|], (f_max x) as [h1|]; try contradiction; [|exact I].
    destruct (fold_extreme_min_below lo l1 Hlo) as [Hn1 Hb1].
    destruct (fold_extreme_max_above hi h1 Hhi) as [Hn2 Hb2].
    apply IH; try assumption.
    apply (double_le_trans _ lo); [exact Hb1|].
    apply (double_le_trans _ hi); [exact Hle|exact Hb2].
Qed.

Lemma line_envelope_ordered (o : Z) (pts : list (list double)) :
  Forall (fun c => isnan (ordinate_of o c) = false) pts ->
  ordered_extremes (line_envelope o MIN pts) (line_envelope o MAX pts).
Proof.
  intros H. unfold line_envelope, extreme. destruct pts as [|c rest]; cbn [map]; [exact I|].
  apply Forall_cons_iff in H. destruct H as [Hc Hrest].
  assert (Hvs : Forall (fun v => isnan v = false) (map (ordinate_of o) rest)).
  { apply Forall_forall. intros v Hv. apply in_map_iff in Hv. destruct Hv as (x & <- & Hx).
    rewrite Forall_forall in Hrest. apply Hrest. exact Hx. }
  pose proof (fold_min_lower _ _ Hc Hvs) as Hlo.
  pose proof (fold_max_upper _ _ Hc Hvs) as Hhi.
  apply Forall_cons_iff in Hlo, Hhi. destruct Hlo as [Hlo _], Hhi as [Hhi _].
  assert (Hall : Forall (fun v => isnan v = false)
                   (ordinate_of o c :: map (ordinate_of o) rest))
    by (constructor; assumption).
  rewrite Forall_forall in Hall.
  cbn. split; [apply Hall, fold_extreme_in|]. split; [apply Hall, fold_extreme_in|].
  apply (double_le_trans _ (ordinate_of o c)); assumption.
Qed.

(** An ordinate of a point without NaN is a number. *)
Lemma ordinate_of_number (dim o : Z) (c : list double) :
  wf_point dim c -> 0 <= o < dim ->
  forallb (fun d => negb (isnan d)) c = true ->
  isnan (ordinate_of o c) = false.
Proof.
  intros [Hlen _] Ho Hc. unfold ordinate_of.
  rewrite forallb_forall in Hc.
  assert (Hin : In (nth (Z.to_nat o) c 0) c) by (apply nth_In; lia).
  specialize (Hc _ Hin). destruct (isnan (nth (Z.to_nat o) c 0)); [discriminate|reflexivity].
Qed.

Lemma line_numbers (dim o : Z) (pts : list (list double)) :
  Forall (wf_point dim) pts -> 0 <= o < dim ->
  forallb (forallb (fun d => negb (isnan d))) pts = true ->
  Forall (fun c => isnan (ordinate_of o c) = false) pts.
Proof.
  intros Hwf Ho Hn. rewrite forallb_forall in Hn. rewrite Forall_forall in Hwf.
  apply Forall_forall. intros c Hc.
  apply (ordinate_of_number dim); [apply Hwf; exact Hc|exact Ho|apply Hn; exact Hc].
Qed.

Lemma envelope_ordered (n : nat) (g : geometry) (ordinate expected : Z) :
  (depth g < n)%nat -> wf g -> without_nan g = true ->
  ordinate_present ordinate g = true ->
  ordered_extremes (envelope ordinate MIN expected g) (envelope ordinate MAX expected g).
Proof.
  revert g ordinate expected.
  induction n as [|n IH]; intros g ordinate expected Hd Hwf Hnan Hpres; [lia|].
  destruct Hwf as [bo t s c Hhdr Hkind Hc | bo t s pts Hhdr Hkind Hpts
                  | bo t s rings Hhdr Hkind Hrings | bo t s els Hhdr Hkind Hels];
    cbn [envelope ordinate_present without_nan] in *;
    (destruct (effective_ordinate t ordinate) as [o|]; [|exact I]);
    (destruct (kind_accepted expected t); [|exact I]).
  - apply andb_prop in Hpres. destruct Hpres as [H0 H1].
    apply Z.leb_le in H0. apply Z.ltb_lt in H1.
    pose proof (ordinate_of_number _ o c Hc (conj H0 H1) Hnan) as Hnum.
    cbn. split; [exact Hnum|]. split; [exact Hnum|apply double_le_refl; exact Hnum].
  - apply andb_prop in Hpres. destruct Hpres as [H0 H1].
    apply Z.leb_le in H0. apply Z.ltb_lt in H1.
    apply line_envelope_ordered. apply (line_numbers (dimension_of t)); auto.
  - apply andb_prop in Hpres. destruct Hpres as [H0 H1].
    apply Z.leb_le in H0. apply Z.ltb_lt in H1.
    assert (Hall : Forall (fun r => ordered_extremes (line_envelope o MIN r)
                                      (line_envelope o MAX r)) rings).
    { rewrite forallb_forall in Hnan. rewrite Forall_forall in Hrings.
      apply Forall_forall. intros r Hr. apply line_envelope_ordered.
      apply (line_numbers (dimension_of t)); auto. }
    destruct rings as [|r rest]; cbn [polygon_envelope]; [exact I|].
    apply Forall_cons_iff in Hall. destruct Hall as [Hr Hrest].
    unfold ordered_extremes in Hr.
    destruct (line_envelope o MIN r) as [lo|], (line_envelope o MAX r) as [hi|];
      try contradiction; [|exact I].
    destruct Hr as (Hlo & Hhi & Hle).
    destruct (o <? Z_).
    + destruct (forallb nonempty rest); [cbn; auto|exact I].
    + apply fold_some_ordered; assumption.
  - apply andb_prop in Hpres. destruct Hpres as [Hrange Hpres].
    rewrite forallb_forall in Hpres, Hnan. rewrite Forall_forall in Hels.
    pose proof (depth_elements _ _ _ _ _ Hd) as Hde. rewrite Forall_forall in Hde.
    assert (Hall : Forall (fun e =>
              ordered_extremes (envelope o MIN (element_kind (geometryType_of t)) e)
                               (envelope o MAX (element_kind (geometryType_of t)) e)) els).
    { apply Forall_forall. intros e He. apply IH; auto. }
    destruct els as [|e rest]; [exact I|].
    apply Forall_cons_iff in Hall. destruct Hall as [He Hrest].
    unfold ordered_extremes in He.
    destruct (envelope o MIN (element_kind (geometryType_of t)) e) as [lo|],
             (envelope o MAX (element_kind (geometryType_of t)) e) as [hi|];
      try contradiction; [|exact I].
    destruct He as (Hlo & Hhi & Hle).
    apply fold_some_ordered; assumption.
Qed.

(** ** Counts that exceed the elements

    The loops over the elements of a multi-geometry run to the count that
    the blob announces; neither they nor the dispatcher they call compare
    the cursor with [n_bytes] before the byte order marker of the next
    element is read. *)

Lemma readByteOrder_end (p_blob : list byte) (index byteOrder : Z) :
  Z.of_nat (length p_blob) <= index -> readByteOrder p_blob index byteOrder = Fault.
Proof.
  intros H. unfold readByteOrder, next_uchar. rewrite byte_at_outside by lia. reflexivity.
Qed.

Lemma readWKBGeometryEnv_end (cpu : cpu_order) (fuel : nat) (p_blob : list byte)
  (n_bytes index byteOrder ordinate maxmin geometryTypeExpected : Z) :
  Z.of_nat (length p_blob) <= index ->
  readWKBGeometryEnv cpu (S fuel) p_blob n_bytes index byteOrder ordinate maxmin
    geometryTypeExpected = Fault.
Proof.
  intros H. rewrite readWKBGeometryEnv_S, readByteOrder_end by exact H. reflexivity.
Qed.

Lemma isEmptyWKBGeometry_end (cpu : cpu_order) (fuel : nat) (p_blob : list byte)
  (n_bytes index byteOrder geometryTypeExpected : Z) :
  Z.of_nat (length p_blob) <= index ->
  isEmptyWKBGeometry cpu (S fuel) p_blob n_bytes index byteOrder geometryTypeExpected = Fault.
Proof.
  intros H. cbn [isEmptyWKBGeometry]. rewrite readByteOrder_end by exact H. reflexivity.
Qed.

Section Overrun.

Variable cpu : cpu_order.
Variable p_blob : list byte.
Variable n_bytes : Z.
Hypothesis n_bytes_length : n_bytes = Z.of_nat (length p_blob).
Hypothesis n_bytes_int : n_bytes <= Int.max_int.

Section Loops.

Variable callee_env : list byte -> Z -> Z -> Z -> Z -> Z -> Z -> outcome (option double).
Variable callee_empty : list byte -> Z -> Z -> Z -> Z -> outcome Z.
Variables kind o maxmin bo : Z.
Hypothesis callee_env_end :
  forall ambient, callee_env p_blob n_bytes n_bytes ambient o maxmin kind = Fault.
Hypothesis callee_empty_end :
  forall ambient, callee_empty p_blob n_bytes n_bytes ambient kind = Fault.

Lemma readWKBMultiEnv_loop_overrun (els : list geometry) (k : nat) (i : Z) (acc : double) :
  Forall (element_env_ok p_blob n_bytes callee_env kind o maxmin) els ->
  Forall (fun e => envelope o maxmin kind e <> None) els ->
  holds p_blob i (flat_map encode els) ->
  i + blen (flat_map encode els) = n_bytes ->
  readWKBMultiEnv_loop callee_env (length els + S k) kind p_blob n_bytes i bo o maxmin acc
  = Fault.
Proof.
  intros Hok. revert i acc.
  induction Hok as [|e els He _ IH]; intros i acc Hsome Hh Hend;
    cbn [length Nat.add readWKBMultiEnv_loop flat_map] in *.
  - rewrite blen_nil in Hend. replace i with n_bytes by lia.
    rewrite callee_env_end. reflexivity.
  - apply Forall_cons_iff in Hsome. destruct Hsome as [Hv Hsome].
    apply holds_app_blen in Hh. destruct Hh as [He' Hrest]. rewrite blen_app in Hend.
    destruct (He i bo He') as (i' & Hs & Hi').
    rewrite Hs. cbn [bind].
    destruct (envelope o maxmin kind e) as [v|]; [|congruence].
    rewrite (Hi' ltac:(discriminate)). apply IH; [exact Hsome|exact Hrest|lia].
Qed.

Lemma isEmptyWKBMulti_loop_overrun (els : list geometry) (k : nat) (i res : Z) :
  Forall (element_empty_ok p_blob n_bytes callee_empty kind) els ->
  Forall (fun e => 0 <= emptiness kind e) els ->
  holds p_blob i (flat_map encode els) ->
  i + blen (flat_map encode els) = n_bytes ->
  isEmptyWKBMulti_loop callee_empty (length els + S k) kind p_blob n_bytes i bo res = Fault.
Proof.
  intros Hok. revert i res.
  induction Hok as [|e els He _ IH]; intros i res Hcode Hh Hend;
    cbn [length Nat.add isEmptyWKBMulti_loop flat_map] in *.
  - rewrite blen_nil in Hend. replace i with n_bytes by lia.
    rewrite callee_empty_end. reflexivity.
  - apply Forall_cons_iff in Hcode. destruct Hcode as [Hc Hcode].
    apply holds_app_blen in Hh. destruct Hh as [He' Hrest]. rewrite blen_app in Hend.
    destruct (He i bo He') as (i' & Hs & Hi').
    rewrite Hs. cbn [bind].
    replace (emptiness kind e <? 0) with false by (symmetry; apply Z.ltb_ge; exact Hc).
    rewrite (Hi' Hc). apply IH; [exact Hcode|exact Hrest|lia].
Qed.

Hypothesis bo_valid : bo = LITTLE_ENDIAN \/ bo = BIG_ENDIAN.

Lemma readWKBMultiEnv_overrun (dim i numGeoms : Z) (els : list geometry) :
  Forall (element_env_ok p_blob n_bytes callee_env kind o maxmin) els ->
  Forall (fun e => envelope o maxmin kind e <> None) els ->
  Int.in_range numGeoms -> Z.of_nat (length els) < numGeoms ->
  holds p_blob i (put_int bo numGeoms ++ flat_map encode els) ->
  i + 4 + blen (flat_map encode els) = n_bytes ->
  readWKBMultiEnv cpu callee_env kind p_blob n_bytes i bo dim o maxmin = Fault.
Proof.
  intros Hok Hsome Hn Hmore Hh Hend.
  pose proof (blen_nonneg (flat_map encode els)) as Hpos.
  apply holds_app_blen in Hh. destruct Hh as [Hcount Hdata]. rewrite blen_put_int in Hdata.
  unfold readWKBMultiEnv.
  rewrite (getInt_put cpu p_blob i bo numGeoms bo_valid Hn Hcount) by lia.
  cbn [bind].
  replace (numGeoms <? 1) with false by (symmetry; apply Z.ltb_ge; lia).
  destruct els as [|e rest].
  - cbn [flat_map] in Hend. rewrite blen_nil in Hend.
    replace (i + 4) with n_bytes by lia. rewrite callee_env_end. reflexivity.
  - apply Forall_cons_iff in Hok. destruct Hok as [He Hrest].
    apply Forall_cons_iff in Hsome. destruct Hsome as [Hv Hsome].
    cbn [flat_map] in Hdata, Hend. rewrite blen_app in Hend.
    apply holds_app_blen in Hdata. destruct Hdata as [He' Hrest'].
    destruct (He (i + 4) bo He') as (i' & Hs & Hi').
    rewrite Hs. cbn [bind].
    destruct (envelope o maxmin kind e) as [v|]; [|congruence].
    rewrite (Hi' ltac:(discriminate)).
    cbn [length] in Hmore.
    replace (Z.to_nat (numGeoms - 1))
      with (length rest + S (Z.to_nat (numGeoms - 1) - S (length rest)))%nat by lia.
    apply readWKBMultiEnv_loop_overrun; [exact Hrest|exact Hsome|exact Hrest'|lia].
Qed.

Lemma isEmptyWKBMulti_overrun (dim i numGeoms : Z) (els : list geometry) :
  Forall (element_empty_ok p_blob n_bytes callee_empty kind) els ->
  Forall (fun e => 0 <= emptiness kind e) els ->
  Int.in_range numGeoms -> Z.of_nat (length els) < numGeoms ->
  holds p_blob i (put_int bo numGeoms ++ flat_map encode els) ->
  i + 4 + blen (flat_map encode els) = n_bytes ->
  isEmptyWKBMulti cpu callee_empty kind p_blob n_bytes i bo dim = Fault.
Proof.
  intros Hok Hcode Hn Hmore Hh Hend.
  pose proof (blen_nonneg (flat_map encode els)) as Hpos.
  apply holds_app_blen in Hh. destruct Hh as [Hcount Hdata]. rewrite blen_put_int in Hdata.
  unfold isEmptyWKBMulti.
  rewrite (getInt_put cpu p_blob i bo numGeoms bo_valid Hn Hcount) by lia.
  cbn [bind].
  replace (numGeoms <? 1) with false by (symmetry; apply Z.ltb_ge; lia).
  replace (Z.to_nat numGeoms)
    with (length els + S (Z.to_nat numGeoms - S (length els)))%nat by lia.
  apply isEmptyWKBMulti_loop_overrun; [exact Hok|exact Hcode|exact Hdata|lia].
Qed.

End Loops.

Lemma multi_kind_cases (t : Z) :
  wkbMultiPoint <= geometryType_of t <= wkbGeometryCollection ->
  geometryType_of t = wkbMultiPoint \/ geometryType_of t = wkbMultiLineString
  \/ geometryType_of t = wkbMultiPolygon \/ geometryType_of t = wkbGeometryCollection.
Proof.
  unfold wkbMultiPoint, wkbMultiLineString, wkbMultiPolygon, wkbGeometryCollection. lia.
Qed.

Lemma effective_ordinate_XY (t ordinate : Z) :
  ordinate = X \/ ordinate = Y -> effective_ordinate t ordinate = Some ordinate.
Proof.
  intros Ho. unfold effective_ordinate. pose proof (dimension_of_range t).
  replace (ordinate =? M) with false
    by (symmetry; apply Z.eqb_neq; unfold X, Y, M in *; lia).
  rewrite andb_false_r.
  replace (dimension_of t <? ordinate) with false
    by (symmetry; apply Z.ltb_ge; unfold X, Y in *; lia).
  reflexivity.
Qed.

Lemma readWKBGeometryEnv_overrun (fuel : nat) (numGeoms bo t s : Z) (els : list geometry)
  (i ambient ordinate maxmin expected : Z) :
  wf (Collection bo t s els) -> (depth (Collection bo t s els) < fuel)%nat ->
  kind_accepted expected t = true ->
  ordinate = X \/ ordinate = Y ->
  Int.in_range numGeoms -> Z.of_nat (length els) < numGeoms ->
  Forall (fun e => envelope ordinate maxmin (element_kind (geometryType_of t)) e <> None)
         els ->
  holds p_blob i (encode_announcing numGeoms bo t s els) ->
  i + blen (encode_announcing numGeoms bo t s els) = n_bytes ->
  readWKBGeometryEnv cpu fuel p_blob n_bytes i ambient ordinate maxmin expected = Fault.
Proof.
  intros Hwf Hdepth Hacc Ho Hn Hmore Hsome Hh Hend.
  destruct fuel as [|fuel]; [lia|].
  inversion Hwf as [| | |bo' t' s' els' Hhdr Hkind Hels]; subst bo' t' s' els'.
  unfold encode_announcing in Hh, Hend.
  rewrite readWKBGeometryEnv_S.
  destruct (header_put cpu p_blob n_bytes n_bytes_length n_bytes_int ambient bo t s i _ Hhdr Hh)
    as (Hbo & Hty & Hidx & Hpay & Hi & Hlim).
  rewrite Hbo. cbn [bind]. rewrite Hty. cbn [bind].
  rewrite (effective_ordinate_XY t ordinate Ho).
  unfold env_dispatch. rewrite Hidx, kind_check, Hacc. cbn [negb].
  destruct Hhdr as (Hbov & _ & _). rewrite !blen_app, blen_put_int in Hend.
  pose proof (depth_elements _ _ _ _ _ Hdepth) as Hd.
  assert (Hfuel : exists fuel', fuel = S fuel').
  { destruct fuel as [|fuel']; [|exists fuel'; reflexivity].
    cbn [depth] in Hdepth. lia. }
  destruct Hfuel as (fuel' & Hfuel).
  assert (Hok : forall kind,
    Forall (element_env_ok p_blob n_bytes (readWKBGeometryEnv cpu fuel) kind ordinate maxmin)
           els).
  { intros kind. apply Forall_forall. intros e He j amb Hj.
    apply (readWKBGeometryEnv_encode cpu p_blob n_bytes n_bytes_length n_bytes_int).
    - rewrite Forall_forall in Hels. apply Hels. exact He.
    - rewrite Forall_forall in Hd. apply Hd. exact He.
    - apply (ordinate_present_XY fuel); [|exact Ho].
      rewrite Forall_forall in Hd. apply Hd. exact He.
    - exact Hj. }
  assert (Hfault : forall kind amb,
    readWKBGeometryEnv cpu fuel p_blob n_bytes n_bytes amb ordinate maxmin kind = Fault).
  { intros kind amb. rewrite Hfuel. apply readWKBGeometryEnv_end. lia. }
  destruct (multi_kind_cases t Hkind) as [Hk|[Hk|[Hk|Hk]]]; rewrite Hk in *;
    cbv [wkbPoint wkbLineString wkbPolygon wkbMultiPoint wkbMultiLineString wkbMultiPolygon
         wkbGeometryCollection element_kind Z.eqb Pos.eqb] in Hsome |- *;
    unfold readWKBMultiPointEnv, readWKBMultiLineStringEnv, readWKBMultiPolygonEnv,
      readWKBGeometryCollectionEnv;
    apply (readWKBMultiEnv_overrun (readWKBGeometryEnv cpu fuel) _ ordinate maxmin bo
             (Hfault _) Hbov _ _ numGeoms els (Hok _) Hsome Hn Hmore Hpay); lia.
Qed.

Lemma isEmptyWKBGeometry_overrun (fuel : nat) (numGeoms bo t s : Z) (els : list geometry)
  (i ambient expected : Z) :
  wf (Collection bo t s els) -> (depth (Collection bo t s els) < fuel)%nat ->
  kind_accepted expected t = true ->
  Int.in_range numGeoms -> Z.of_nat (length els) < numGeoms ->
  Forall (fun e => 0 <= emptiness (element_kind (geometryType_of t)) e) els ->
  holds p_blob i (encode_announcing numGeoms bo t s els) ->
  i + blen (encode_announcing numGeoms bo t s els) = n_bytes ->
  isEmptyWKBGeometry cpu fuel p_blob n_bytes i ambient expected = Fault.
Proof.
  intros Hwf Hdepth Hacc Hn Hmore Hcode Hh Hend.
  destruct fuel as [|fuel]; [lia|].
  inversion Hwf as [| | |bo' t' s' els' Hhdr Hkind Hels]; subst bo' t' s' els'.
  unfold encode_announcing in Hh, Hend.
  cbn [isEmptyWKBGeometry].
  destruct (header_put cpu p_blob n_bytes n_bytes_length n_bytes_int ambient bo t s i _ Hhdr Hh)
    as (Hbo & Hty & Hidx & Hpay & Hi & Hlim).
  rewrite Hbo. cbn [bind]. rewrite Hty. cbn [bind].
  rewrite Hidx, kind_check, Hacc. cbn [negb].
  destruct Hhdr as (Hbov & _ & _). rewrite !blen_app, blen_put_int in Hend.
  pose proof (depth_elements _ _ _ _ _ Hdepth) as Hd.
  assert (Hfuel : exists fuel', fuel = S fuel').
  { destruct fuel as [|fuel']; [|exists fuel'; reflexivity].
    cbn [depth] in Hdepth. lia. }
  destruct Hfuel as (fuel' & Hfuel).
  assert (Hok : forall kind,
    Forall (element_empty_ok p_blob n_bytes (isEmptyWKBGeometry cpu fuel) kind) els).
  { intros kind. apply Forall_forall. intros e He j amb Hj.
    apply (isEmptyWKBGeometry_encode cpu p_blob n_bytes n_bytes_length n_bytes_int).
    - rewrite Forall_forall in Hels. apply Hels. exact He.
    - rewrite Forall_forall in Hd. apply Hd. exact He.
    - exact Hj. }
  assert (Hfault : forall kind amb,
    isEmptyWKBGeometry cpu fuel p_blob n_bytes n_bytes amb kind = Fault).
  { intros kind amb. rewrite Hfuel. apply isEmptyWKBGeometry_end. lia. }
  destruct (multi_kind_cases t Hkind) as [Hk|[Hk|[Hk|Hk]]]; rewrite Hk in *;
    cbv [wkbPoint wkbLineString wkbPolygon wkbMultiPoint wkbMultiLineString wkbMultiPolygon
         wkbGeometryCollection element_kind Z.eqb Pos.eqb] in Hcode |- *;
    unfold isEmptyWKBMultiPoint, isEmptyWKBMultiLineString, isEmptyWKBMultiPolygon,
      isEmptyWKBGeometryCollection;
    apply (isEmptyWKBMulti_overrun (isEmptyWKBGeometry cpu fuel) _ bo
             (Hfault _) Hbov _ _ numGeoms els (Hok _) Hcode Hn Hmore Hpay); lia.
Qed.

End Overrun.

(** ** Main statements *)

(** X1.  [getInt] and [getDouble] return the same value and cursor on a
    little-endian and on a big-endian processor, from any cursor of any blob
    of at most [INT_MAX] bytes, for the two byte orders a blob can declare:
    the branch on [endian()] only chooses between the plain read and the
    byte-swapped one. *)
Theorem readers_processor_independent (p_blob : list byte) (index byteOrder : Z) :
  Z.of_nat (length p_blob) <= Int.max_int ->
  byteOrder = LITTLE_ENDIAN \/ byteOrder = BIG_ENDIAN ->
  getInt LittleEndianCPU p_blob index byteOrder = getInt BigEndianCPU p_blob index byteOrder /\
  getDouble LittleEndianCPU p_blob index byteOrder
  = getDouble BigEndianCPU p_blob index byteOrder.
Proof.
  intros Hlen Hbo. split; [apply getInt_cpu|apply getDouble_cpu]; assumption.
Qed.

Lemma readers_processor_independent_witness :
  getInt LittleEndianCPU gpkg_point2d 9 LITTLE_ENDIAN
  = getInt BigEndianCPU gpkg_point2d 9 LITTLE_ENDIAN /\
  getDouble LittleEndianCPU gpkg_point2d 9 LITTLE_ENDIAN
  = getDouble BigEndianCPU gpkg_point2d 9 LITTLE_ENDIAN.
Proof.
  apply (readers_processor_independent gpkg_point2d 9 LITTLE_ENDIAN);
    [vm_compute; discriminate | left; reflexivity].
Defined.

(** X2.  The two walkers of WKB return the same outcome on a little-endian and
    on a big-endian processor: for every blob of at most [INT_MAX] bytes,
    well formed or not, every cursor, and a caller's byte order that is 0
    or 1. *)
Theorem walkers_processor_independent (fuel : nat) (p_blob : list byte)
  (n_bytes index byteOrder ordinate maxmin geometryTypeExpected : Z) :
  Z.of_nat (length p_blob) <= Int.max_int ->
  byteOrder = LITTLE_ENDIAN \/ byteOrder = BIG_ENDIAN ->
  readWKBGeometryEnv LittleEndianCPU fuel p_blob n_bytes index byteOrder ordinate maxmin
    geometryTypeExpected
  = readWKBGeometryEnv BigEndianCPU fuel p_blob n_bytes index byteOrder ordinate maxmin
      geometryTypeExpected /\
  isEmptyWKBGeometry LittleEndianCPU fuel p_blob n_bytes index byteOrder geometryTypeExpected
  = isEmptyWKBGeometry BigEndianCPU fuel p_blob n_bytes index byteOrder geometryTypeExpected.
Proof.
  intros Hlen Hbo.
  split; [apply readWKBGeometryEnv_cpu|apply isEmptyWKBGeometry_cpu]; assumption.
Qed.

Lemma walkers_processor_independent_witness :
  readWKBGeometryEnv LittleEndianCPU 2 wkb_multipoint_3 72 0 BIG_ENDIAN X MAX wkbGeometry
  = readWKBGeometryEnv BigEndianCPU 2 wkb_multipoint_3 72 0 BIG_ENDIAN X MAX wkbGeometry /\
  isEmptyWKBGeometry LittleEndianCPU 2 wkb_multipoint_3 72 0 BIG_ENDIAN wkbGeometry
  = isEmptyWKBGeometry BigEndianCPU 2 wkb_multipoint_3 72 0 BIG_ENDIAN wkbGeometry.
Proof.
  apply (walkers_processor_independent 2 wkb_multipoint_3 72 0 BIG_ENDIAN X MAX wkbGeometry);
    [vm_compute; discriminate | right; reflexivity].
Defined.

(** X3.  In the build as distributed, the nine SQL functions on geometries give
    the same result on a little-endian and on a big-endian processor for
    every argument whose outermost WKB record, when the container header is
    well formed, starts with a byte order marker that is 0 or 1.  (For
    another marker the record is read in the byte order of the processor,
    which [endian()] hands down.) *)
Theorem sql_functions_processor_independent (argv0 : sqlite3_value)
  (ordinate maxmin : Z) (fuel : nat) (res res' : double) :
  (forall p_blob, argv0 = SQLITE_BLOB p_blob ->
     Z.of_nat (length p_blob) <= Int.max_int /\
     forall flags b,
       well_formed_header p_blob 0 flags ->
       byte_at p_blob (body_offset 0 flags) = Some b ->
       b = LITTLE_ENDIAN \/ b = BIG_ENDIAN) ->
  fnct_STEnv LittleEndianCPU false ordinate maxmin fuel argv0 res
  = fnct_STEnv BigEndianCPU false ordinate maxmin fuel argv0 res' /\
  fnct_STIsEmpty LittleEndianCPU false fuel argv0
  = fnct_STIsEmpty BigEndianCPU false fuel argv0.
Proof.
  intros H. destruct argv0 as [| | |p_blob|]; try (split; reflexivity).
  destruct (H p_blob eq_refl) as [Hlen Hmark].
  split; [apply fnct_STEnv_cpu|apply fnct_STIsEmpty_cpu]; assumption.
Qed.

Lemma byte_at_header_flags (p_blob : list byte) (flags flags' : Z) :
  well_formed_header p_blob 0 flags -> byte_at p_blob 3 = Some flags' -> flags = flags'.
Proof. intros (_ & _ & _ & H & _) H'. cbn in H. congruence. Qed.

Lemma sql_functions_processor_independent_witness :
  fnct_STEnv LittleEndianCPU false Y MIN 2 (SQLITE_BLOB gpkg_collection_be) 0
  = fnct_STEnv BigEndianCPU false Y MIN 2 (SQLITE_BLOB gpkg_collection_be) 0 /\
  fnct_STIsEmpty LittleEndianCPU false 2 (SQLITE_BLOB gpkg_collection_be)
  = fnct_STIsEmpty BigEndianCPU false 2 (SQLITE_BLOB gpkg_collection_be).
Proof.
  apply (sql_functions_processor_independent (SQLITE_BLOB gpkg_collection_be) Y MIN 2 0 0).
  intros p_blob E.
  assert (Hp : p_blob = gpkg_collection_be) by congruence. rewrite Hp. clear E Hp p_blob.
  split; [vm_compute; discriminate|].
  intros flags b Hwf.
  rewrite (byte_at_header_flags gpkg_collection_be flags 0 Hwf eq_refl).
  vm_compute. intros Hb. injection Hb as <-. right. reflexivity.
Defined.

(** X4.  [getInt] and [getDouble] read back what was written: a 32-bit integer
    or a 64-bit pattern laid out in the declared byte order, anywhere in a
    blob, is returned as it was, with the cursor 4 or 8 bytes further, on
    both processors. *)
Theorem readers_round_trip (cpu : cpu_order) (pre post : list byte) (byteOrder v : Z)
  (d : double) :
  byteOrder = LITTLE_ENDIAN \/ byteOrder = BIG_ENDIAN ->
  Int.in_range v -> 0 <= d < 2 ^ 64 ->
  blen pre + 8 <= Int.max_int ->
  getInt cpu (pre ++ put_int byteOrder v ++ post) (blen pre) byteOrder
    = Ret v (blen pre + 4) /\
  getDouble cpu (pre ++ put_double byteOrder d ++ post) (blen pre) byteOrder
    = Ret d (blen pre + 8).
Proof.
  intros Hbo Hv Hd Hmax. split.
  - apply getInt_put; [exact Hbo|exact Hv|apply holds_middle|lia].
  - apply getDouble_put; [exact Hbo|exact Hd|apply holds_middle|lia].
Qed.

Lemma readers_round_trip_witness :
  getInt BigEndianCPU ([x47; x50] ++ put_int LITTLE_ENDIAN (-2) ++ [x00]) (blen [x47; x50])
    LITTLE_ENDIAN = Ret (-2) (blen [x47; x50] + 4) /\
  getDouble BigEndianCPU ([x47; x50] ++ put_double LITTLE_ENDIAN d_nan ++ [x00])
    (blen [x47; x50]) LITTLE_ENDIAN = Ret d_nan (blen [x47; x50] + 8).
Proof.
  apply (readers_round_trip BigEndianCPU [x47; x50] [x00] LITTLE_ENDIAN (-2) d_nan);
    [left; reflexivity | vm_compute; split; discriminate
    | vm_compute; split; [discriminate|reflexivity] | vm_compute; discriminate].
Defined.

(** X5.  [skipGPKGHeader] from the start of a blob answers 1 exactly when the
    blob starts with the two magic bytes, the version 0 and a flag byte whose
    envelope code is 0 to 4, and it then leaves the cursor behind the SRID
    and the envelope, which it does not read. *)
Theorem skipGPKGHeader_accepts_iff (p_blob : list byte) (n_bytes i : Z) :
  skipGPKGHeader p_blob n_bytes 0 = Ret 1 i <->
  exists flags, well_formed_header p_blob 0 flags /\ i = body_offset 0 flags.
Proof.
  split.
  - intros H. destruct (skipGPKGHeader_inv _ _ _ _ H) as [H0|[_ H1]];
      [discriminate|exact H1].
  - intros (flags & Hwf & ->). apply skipGPKGHeader_ok; [exact Hwf|].
    unfold Int.max_int. lia.
Qed.

(** X6.  [readWKBLineStringEnv] never reads outside the buffer, whatever number
    of points the blob announces: when the 4 bytes of the count lie inside
    a buffer of at most [INT_MAX - 32] bytes, it returns, and leaves the
    cursor between the end of the count and the end of the buffer. *)
Theorem readWKBLineStringEnv_inside_buffer (cpu : cpu_order) (p_blob : list byte)
  (n_bytes index byteOrder dimension ordinate maxmin : Z) :
  n_bytes <= Z.of_nat (length p_blob) -> n_bytes + 32 <= Int.max_int ->
  2 <= dimension <= 4 -> 0 <= ordinate < dimension ->
  0 <= index -> index + 4 <= n_bytes ->
  exists r i,
    readWKBLineStringEnv cpu p_blob n_bytes index byteOrder dimension ordinate maxmin
      = Ret r i /\
    index + 4 <= i <= n_bytes.
Proof. intros. apply readWKBLineStringEnv_inside; assumption. Qed.

(** At [wkb_linestring_hostile]: the count passes the check of the size
    of the points, the first point is read, and the second one is refused at
    the end of the buffer. *)
Lemma readWKBLineStringEnv_inside_buffer_witness :
  exists r i,
    readWKBLineStringEnv LittleEndianCPU wkb_linestring_hostile 25 5 LITTLE_ENDIAN 2 X MIN
      = Ret r i /\
    5 + 4 <= i <= 25.
Proof.
  apply (readWKBLineStringEnv_inside_buffer LittleEndianCPU wkb_linestring_hostile 25 5
           LITTLE_ENDIAN 2 X MIN);
    try (vm_compute; discriminate); try (unfold X; lia); lia.
Defined.

Example readWKBLineStringEnv_hostile_count (cpu : cpu_order) :
  getInt cpu wkb_linestring_hostile 5 LITTLE_ENDIAN = Ret 0x20000000 9 /\
  Int.mul (Int.mul 0x20000000 2) 8 = 0 /\
  readWKBLineStringEnv cpu wkb_linestring_hostile 25 5 LITTLE_ENDIAN 2 X MIN = Ret None 25.
Proof. destruct cpu; repeat split; lazy; reflexivity. Qed.

(** X7.  The minimum and the maximum that [readWKBLineStringEnv] returns for a
    line string without NaN in the requested ordinate are ordinates of
    points of the line string, the minimum is below the ordinate of every
    point and the maximum above it; the cursor is left at the end of the
    line string. *)
Theorem readWKBLineStringEnv_extremes (cpu : cpu_order) (p_blob : list byte)
  (n_bytes index byteOrder dimension ordinate : Z) (points : list (list double)) :
  n_bytes = Z.of_nat (length p_blob) -> n_bytes <= Int.max_int ->
  byteOrder = LITTLE_ENDIAN \/ byteOrder = BIG_ENDIAN ->
  2 <= dimension <= 4 -> 0 <= ordinate < dimension ->
  Forall (wf_point dimension) points -> points <> [] ->
  Forall (fun c => isnan (ordinate_of ordinate c) = false) points ->
  holds p_blob index (put_points byteOrder points) ->
  exists lo hi,
    readWKBLineStringEnv cpu p_blob n_bytes index byteOrder dimension ordinate MIN
      = Ret (Some lo) (index + blen (put_points byteOrder points)) /\
    readWKBLineStringEnv cpu p_blob n_bytes index byteOrder dimension ordinate MAX
      = Ret (Some hi) (index + blen (put_points byteOrder points)) /\
    In lo (map (ordinate_of ordinate) points) /\
    In hi (map (ordinate_of ordinate) points) /\
    Forall (fun c => double_le lo (ordinate_of ordinate c) = true /\
                     double_le (ordinate_of ordinate c) hi = true) points.
Proof.
  intros Hn Hmax Hbo Hdim Ho Hwf Hne Hnan Hh.
  destruct points as [|c rest]; [congruence|].
  destruct (readWKBLineStringEnv_put cpu p_blob n_bytes Hn Hmax byteOrder Hbo dimension
              ordinate MIN index (c :: rest) Hwf Hdim Ho Hh) as (i1 & H1 & Hs1).
  destruct (readWKBLineStringEnv_put cpu p_blob n_bytes Hn Hmax byteOrder Hbo dimension
              ordinate MAX index (c :: rest) Hwf Hdim Ho Hh) as (i2 & H2 & Hs2).
  unfold line_envelope, extreme in H1, Hs1, H2, Hs2. cbn [map] in H1, Hs1, H2, Hs2 |- *.
  rewrite (Hs1 ltac:(discriminate)) in H1. rewrite (Hs2 ltac:(discriminate)) in H2.
  apply Forall_cons_iff in Hnan. destruct Hnan as [Hc Hrest].
  assert (Hvs : Forall (fun v => isnan v = false) (map (ordinate_of ordinate) rest)).
  { apply Forall_forall. intros v Hv. apply in_map_iff in Hv. destruct Hv as (x & <- & Hx).
    rewrite Forall_forall in Hrest. apply Hrest. exact Hx. }
  pose proof (fold_min_lower _ _ Hc Hvs) as Hlo.
  pose proof (fold_max_upper _ _ Hc Hvs) as Hhi.
  eexists _, _. split; [exact H1|]. split; [exact H2|].
  split; [apply fold_extreme_in|]. split; [apply fold_extreme_in|].
  rewrite Forall_forall in Hlo, Hhi. apply Forall_forall. intros x Hx.
  assert (Hin : In (ordinate_of ordinate x)
                   (ordinate_of ordinate c :: map (ordinate_of ordinate) rest)).
  { destruct Hx as [<-|Hx]; [left; reflexivity|right; apply in_map; exact Hx]. }
  split; [apply Hlo|apply Hhi]; exact Hin.
Qed.

(** At the line string (2.0 1.0, 1.0 3.0, 3.0 2.0) of [wkb_linestring_3]. *)
Lemma readWKBLineStringEnv_extremes_witness :
  exists lo hi,
    readWKBLineStringEnv LittleEndianCPU wkb_linestring_3 57 5 LITTLE_ENDIAN 2 X MIN
      = Ret (Some lo)
          (5 + blen (put_points LITTLE_ENDIAN [[d_2; d_1]; [d_1; d_3]; [d_3; d_2]])) /\
    readWKBLineStringEnv LittleEndianCPU wkb_linestring_3 57 5 LITTLE_ENDIAN 2 X MAX
      = Ret (Some hi)
          (5 + blen (put_points LITTLE_ENDIAN [[d_2; d_1]; [d_1; d_3]; [d_3; d_2]])) /\
    In lo (map (ordinate_of X) [[d_2; d_1]; [d_1; d_3]; [d_3; d_2]]) /\
    In hi (map (ordinate_of X) [[d_2; d_1]; [d_1; d_3]; [d_3; d_2]]) /\
    Forall (fun c => double_le lo (ordinate_of X c) = true /\
                     double_le (ordinate_of X c) hi = true)
           [[d_2; d_1]; [d_1; d_3]; [d_3; d_2]].
Proof.
  apply (readWKBLineStringEnv_extremes LittleEndianCPU wkb_linestring_3 57 5 LITTLE_ENDIAN 2 X
           [[d_2; d_1]; [d_1; d_3]; [d_3; d_2]]).
  - reflexivity.
  - vm_compute. discriminate.
  - left. reflexivity.
  - lia.
  - unfold X. lia.
  - repeat constructor; vm_compute; congruence.
  - discriminate.
  - repeat constructor.
  - vm_compute. intuition reflexivity.
Defined.

(** X8.  [isEmptyWKBPoint] on a coordinate block that lies in the buffer answers
    1 when every ordinate of the point is NaN and 0 otherwise, and in both
    cases it leaves the cursor at the end of the block, also when it stops
    at the first ordinate that is not NaN. *)
Theorem isEmptyWKBPoint_all_nan (cpu : cpu_order) (p_blob : list byte)
  (n_bytes index byteOrder dimension : Z) (coordinates : list double) :
  n_bytes = Z.of_nat (length p_blob) -> n_bytes <= Int.max_int ->
  byteOrder = LITTLE_ENDIAN \/ byteOrder = BIG_ENDIAN ->
  2 <= dimension <= 4 -> wf_point dimension coordinates ->
  holds p_blob index (put_point byteOrder coordinates) ->
  isEmptyWKBPoint cpu p_blob n_bytes index byteOrder dimension
  = Ret (if forallb isnan coordinates then 1 else 0) (index + 8 * dimension).
Proof.
  intros Hn Hmax Hbo Hdim Hwf Hh.
  apply (isEmptyWKBPoint_put cpu p_blob n_bytes Hn Hmax byteOrder Hbo dimension index
           coordinates Hwf Hdim Hh).
Qed.

(** At the point (1.0, 2.0) of [coords_1_2]. *)
Lemma isEmptyWKBPoint_all_nan_witness :
  isEmptyWKBPoint BigEndianCPU coords_1_2 16 0 LITTLE_ENDIAN 2
  = Ret (if forallb isnan [d_1; d_2] then 1 else 0) (0 + 8 * 2).
Proof.
  apply (isEmptyWKBPoint_all_nan BigEndianCPU coords_1_2 16 0 LITTLE_ENDIAN 2 [d_1; d_2]).
  - reflexivity.
  - vm_compute. discriminate.
  - left. reflexivity.
  - lia.
  - split; [reflexivity|]. repeat constructor; vm_compute; congruence.
  - vm_compute. intuition reflexivity.
Defined.

Lemma forallb_nonempty {A : Type} (l : list (list A)) :
  Forall (fun x => x <> []) l -> forallb nonempty l = true.
Proof.
  induction 1 as [|x l Hx _ IH]; [reflexivity|].
  cbn [forallb]. rewrite IH. destruct x; [congruence|reflexivity].
Qed.

(** X9.  For X and Y the envelope of a polygon is that of its first ring: the
    other rings are skipped, not read, and change nothing to the answer as
    long as each has a point.  The cursor is left at the end of the
    polygon. *)
Theorem readWKBPolygonEnv_first_ring (cpu : cpu_order) (p_blob : list byte)
  (n_bytes index byteOrder dimension ordinate maxmin : Z)
  (ring : list (list double)) (rest : list (list (list double))) :
  n_bytes = Z.of_nat (length p_blob) -> n_bytes <= Int.max_int ->
  byteOrder = LITTLE_ENDIAN \/ byteOrder = BIG_ENDIAN ->
  2 <= dimension <= 4 -> ordinate = X \/ ordinate = Y ->
  Forall (Forall (wf_point dimension)) (ring :: rest) ->
  Forall (fun r => r <> []) (ring :: rest) ->
  holds p_blob index
    (put_int byteOrder (Z.of_nat (length (ring :: rest)))
       ++ flat_map (put_points byteOrder) (ring :: rest)) ->
  readWKBPolygonEnv cpu p_blob n_bytes index byteOrder dimension ordinate maxmin
  = Ret (line_envelope ordinate maxmin ring)
      (index + 4 + blen (flat_map (put_points byteOrder) (ring :: rest))).
Proof.
  intros Hn Hmax Hbo Hdim Ho Hwf Hne Hh.
  assert (Hord : 0 <= ordinate < dimension) by (unfold X, Y in Ho; lia).
  destruct (readWKBPolygonEnv_put cpu p_blob n_bytes Hn Hmax byteOrder Hbo dimension ordinate
              maxmin index (ring :: rest) Hwf Hdim Hord Hh) as (i & Hr & Hstop).
  apply Forall_cons_iff in Hne. destruct Hne as [Hring Hrest].
  assert (Hpoly : polygon_envelope ordinate maxmin (ring :: rest)
                  = line_envelope ordinate maxmin ring).
  { cbn [polygon_envelope]. destruct ring as [|c ring]; [congruence|].
    unfold line_envelope, extreme. cbn [map].
    replace (ordinate <? Z_) with true
      by (symmetry; apply Z.ltb_lt; unfold X, Y, Z_ in *; lia).
    rewrite (forallb_nonempty _ Hrest). reflexivity. }
  rewrite Hpoly in Hr, Hstop. rewrite Hr. f_equal. apply Hstop.
  destruct ring as [|c ring]; [congruence|discriminate].
Qed.

(** At the two rings (1.0 2.0) and (1.0 1.0, 2.0 2.0) of
    [wkb_polygon_two_rings]. *)
Lemma readWKBPolygonEnv_first_ring_witness :
  readWKBPolygonEnv LittleEndianCPU wkb_polygon_two_rings 65 5 LITTLE_ENDIAN 2 Y MAX
  = Ret (line_envelope Y MAX [[d_1; d_2]])
      (5 + 4 + blen (flat_map (put_points LITTLE_ENDIAN)
                       [[[d_1; d_2]]; [[d_1; d_1]; [d_2; d_2]]])).
Proof.
  apply (readWKBPolygonEnv_first_ring LittleEndianCPU wkb_polygon_two_rings 65 5
           LITTLE_ENDIAN 2 Y MAX [[d_1; d_2]] [[[d_1; d_1]; [d_2; d_2]]]).
  - reflexivity.
  - vm_compute. discriminate.
  - left. reflexivity.
  - lia.
  - right. reflexivity.
  - repeat constructor; vm_compute; congruence.
  - repeat constructor; discriminate.
  - vm_compute. intuition reflexivity.
Defined.

(** X10.  The type code of a WKB record is decoded in its two flavours.  With the
    ISO offsets (kind + 1000 for Z, + 2000 for M, + 3000 for both) and with
    the EWKB flag bits (0x80000000 for Z, 0x40000000 for M, 0x20000000 for
    an SRID), for each of the kinds 0 to 7: the kind is recovered, Z and M
    are detected, the SRID is detected in the EWKB form only, and the
    dimension is 2 plus one for Z and one for M. *)
Theorem type_code_flavours (kind : Z) (z m srid : bool) :
  0 <= kind <= 7 ->
  let iso := kind + 1000 * (Z.b2z z + 2 * Z.b2z m) in
  let ewkb := Int.wrap (kind + (if z then 0x80000000 else 0) + (if m then 0x40000000 else 0)
                        + (if srid then 0x20000000 else 0)) in
  (geometryType_of iso = kind /\ hasZ iso = z /\ hasM iso = m /\ hasSRID iso = false /\
   dimension_of iso = 2 + Z.b2z z + Z.b2z m) /\
  (geometryType_of ewkb = kind /\ hasZ ewkb = z /\ hasM ewkb = m /\ hasSRID ewkb = srid /\
   dimension_of ewkb = 2 + Z.b2z z + Z.b2z m).
Proof.
  intros Hk.
  assert (H : kind = 0 \/ kind = 1 \/ kind = 2 \/ kind = 3 \/ kind = 4 \/ kind = 5
              \/ kind = 6 \/ kind = 7) by lia.
  destruct H as [->|[->|[->|[->|[->|[->|[->| ->]]]]]]];
    destruct z, m, srid; vm_compute; repeat split; reflexivity.
Qed.

(** At the polygon with Z and an SRID. *)
Lemma type_code_flavours_witness :
  let iso := 3 + 1000 * (Z.b2z true + 2 * Z.b2z false) in
  let ewkb := Int.wrap (3 + (if true then 0x80000000 else 0) + (if false then 0x40000000 else 0)
                        + (if true then 0x20000000 else 0)) in
  (geometryType_of iso = 3 /\ hasZ iso = true /\ hasM iso = false /\ hasSRID iso = false /\
   dimension_of iso = 2 + Z.b2z true + Z.b2z false) /\
  (geometryType_of ewkb = 3 /\ hasZ ewkb = true /\ hasM ewkb = false /\ hasSRID ewkb = true /\
   dimension_of ewkb = 2 + Z.b2z true + Z.b2z false).
Proof. apply (type_code_flavours 3 true false true). lia. Defined.

(** X11.  End to end, in the build as distributed: on a blob made of a
    well-formed container header and the encoding of a well-formed geometry,
    each of the eight envelope functions returns the extreme [envelope]
    computes from the geometry, for X, for Y and for any ordinate that its
    records have, or NULL when there is none (a geometry without points, or of another kind
    than its multi-geometry allows).  No length is assumed: a geometry that
    has an envelope is never shorter than the 29 bytes the functions ask
    for. *)
Theorem fnct_STEnv_on_encoded_geometry (cpu : cpu_order) (p_blob : list byte) (flags : Z)
  (g : geometry) (ordinate maxmin : Z) (fuel : nat) (res : double) :
  well_formed_header p_blob 0 flags ->
  holds p_blob (body_offset 0 flags) (encode g) ->
  Z.of_nat (length p_blob) <= Int.max_int ->
  wf g -> (depth g < fuel)%nat ->
  ordinate = X \/ ordinate = Y \/ ordinate_present ordinate g = true ->
  fnct_STEnv cpu false ordinate maxmin fuel (SQLITE_BLOB p_blob) res
  = Result match envelope ordinate maxmin wkbGeometry g with
           | Some v => sqlite3_result_double v
           | None => sqlite3_result_null
           end.
Proof.
  intros Hwf Hbody Hlen Hg Hfuel Ho.
  apply (fnct_STEnv_encoded cpu p_blob flags g); try assumption.
  destruct Ho as [Ho|[Ho|Ho]]; [| |exact Ho];
    apply (ordinate_present_XY fuel); auto.
Qed.

Lemma collection_of_two_points_wf : wf collection_of_two_points.
Proof.
  unfold collection_of_two_points, d_1, d_2, d_3, d_4, d_5.
  repeat first
    [ apply wf_Collection | apply wf_Point | apply Forall_cons | apply Forall_nil
    | split | left; reflexivity | reflexivity
    | vm_compute; intuition congruence ].
Qed.

Lemma gpkg_collection_le_header : well_formed_header gpkg_collection_le 0 1.
Proof. vm_compute. intuition congruence. Qed.

Lemma gpkg_collection_be_header : well_formed_header gpkg_collection_be 0 0.
Proof. vm_compute. intuition congruence. Qed.

Lemma gpkg_collection_le_body :
  holds gpkg_collection_le (body_offset 0 1) (encode collection_of_two_points).
Proof. vm_compute. intuition reflexivity. Qed.

Lemma gpkg_collection_be_body :
  holds gpkg_collection_be (body_offset 0 0) (encode (reorder collection_of_two_points)).
Proof. vm_compute. intuition reflexivity. Qed.

(** ST_MaxX of the collection of POINT(1 2) and POINT Z(3 4 5). *)
Lemma fnct_STEnv_on_encoded_geometry_witness :
  fnct_STEnv BigEndianCPU false X MAX 2 (SQLITE_BLOB gpkg_collection_le) 0
  = Result match envelope X MAX wkbGeometry collection_of_two_points with
           | Some v => sqlite3_result_double v
           | None => sqlite3_result_null
           end.
Proof.
  apply (fnct_STEnv_on_encoded_geometry BigEndianCPU gpkg_collection_le 1
           collection_of_two_points X MAX 2 0).
  - exact gpkg_collection_le_header.
  - exact gpkg_collection_le_body.
  - vm_compute. discriminate.
  - exact collection_of_two_points_wf.
  - cbn. lia.
  - left. reflexivity.
Defined.

(** X12.  End to end, in the build as distributed: on a blob made of a
    well-formed container header and the encoding of a well-formed geometry,
    ST_IsEmpty returns 1 when the empty flag of the header is set, and
    otherwise the code [emptiness] computes from the geometry: 1 empty,
    0 not empty, -1 malformed. *)
Theorem fnct_STIsEmpty_on_encoded_geometry (cpu : cpu_order) (p_blob : list byte) (flags : Z)
  (g : geometry) (fuel : nat) :
  well_formed_header p_blob 0 flags ->
  holds p_blob (body_offset 0 flags) (encode g) ->
  Z.of_nat (length p_blob) <= Int.max_int ->
  wf g -> (depth g < fuel)%nat ->
  fnct_STIsEmpty cpu false fuel (SQLITE_BLOB p_blob)
  = Result (sqlite3_result_int
              (if header_isEmpty flags =? 1 then 1 else emptiness wkbGeometry g)).
Proof. intros. apply (fnct_STIsEmpty_encoded cpu p_blob flags g); assumption. Qed.

Lemma fnct_STIsEmpty_on_encoded_geometry_witness :
  fnct_STIsEmpty LittleEndianCPU false 2 (SQLITE_BLOB gpkg_collection_be)
  = Result (sqlite3_result_int
              (if header_isEmpty 0 =? 1 then 1
               else emptiness wkbGeometry (reorder collection_of_two_points))).
Proof.
  apply (fnct_STIsEmpty_on_encoded_geometry LittleEndianCPU gpkg_collection_be 0
           (reorder collection_of_two_points) 2).
  - exact gpkg_collection_be_header.
  - exact gpkg_collection_be_body.
  - vm_compute. discriminate.
  - apply (reorder_facts 2); [cbn; lia|exact collection_of_two_points_wf].
  - cbn. lia.
Defined.

(** X13.  ST_IsEmpty answers -1, 0 or 1 whenever it answers: whatever the
    argument, in both builds and on both processors. *)
Theorem fnct_STIsEmpty_answers (cpu : cpu_order) (GPKG_ALLWAYS_USE_HEADER : bool)
  (fuel : nat) (argv0 : sqlite3_value) (r : sqlite3_result) :
  fnct_STIsEmpty cpu GPKG_ALLWAYS_USE_HEADER fuel argv0 = Result r ->
  exists c, r = sqlite3_result_int c /\ (c = -1 \/ c = 0 \/ c = 1).
Proof.
  unfold fnct_STIsEmpty. cbv zeta.
  destruct argv0 as [| | |p_blob|];
    try (intros H; injection H as <-; exists (-1); split; [reflexivity|left; reflexivity]).
  destruct (_ >=? 13);
    [|intros H; injection H as <-; exists (-1); split; [reflexivity|left; reflexivity]].
  destruct (isEmptyGPKGGeometry _ _ _ _ _ _ _ _) as [c i| |] eqn:E; try discriminate.
  intros H. injection H as <-. exists c. split; [reflexivity|].
  exact (isEmptyGPKGGeometry_code _ _ _ _ _ _ _ _ _ E).
Qed.

Lemma fnct_STIsEmpty_answers_witness :
  exists c, sqlite3_result_int 0 = sqlite3_result_int c /\ (c = -1 \/ c = 0 \/ c = 1).
Proof.
  apply (fnct_STIsEmpty_answers LittleEndianCPU true 1 (SQLITE_BLOB gpkg_point2d)
           (sqlite3_result_int 0)).
  vm_compute. reflexivity.
Defined.

(** X14.  The SQL functions of the build as distributed look at the WKB only
    behind a well-formed container header: for an argument that is not a
    BLOB, or is shorter than 13 bytes, or does not start with the magic
    bytes, the version 0 and an envelope code of 0 to 4, the envelope
    functions return NULL and ST_IsEmpty returns -1, without a read outside
    the blob. *)
Theorem sql_functions_reject (cpu : cpu_order) (argv0 : sqlite3_value)
  (ordinate maxmin : Z) (fuel : nat) (res : double) :
  (forall p_blob flags, argv0 = SQLITE_BLOB p_blob ->
     13 <= Z.of_nat (length p_blob) -> well_formed_header p_blob 0 flags -> False) ->
  fnct_STEnv cpu false ordinate maxmin fuel argv0 res = Result sqlite3_result_null /\
  fnct_STIsEmpty cpu false fuel argv0 = Result (sqlite3_result_int (-1)).
Proof.
  intros H. destruct argv0 as [| | |p_blob|]; try (split; reflexivity).
  unfold fnct_STEnv, fnct_STIsEmpty, sqlite3_value_bytes. cbv zeta. split.
  - destruct (_ >=? 29) eqn:E; [|reflexivity].
    rewrite Z.geb_leb in E. apply Z.leb_le in E.
    unfold readGPKGGeometryEnv.
    destruct (skipGPKGHeader_returns p_blob (Z.of_nat (length p_blob)) ltac:(lia))
      as (ok & i & Hs).
    rewrite Hs. cbn [bind].
    destruct (skipGPKGHeader_inv _ _ _ _ Hs) as [-> | (_ & flags & Hwf & _)];
      [reflexivity|].
    exfalso. apply (H p_blob flags eq_refl); [lia|exact Hwf].
  - destruct (_ >=? 13) eqn:E; [|reflexivity].
    rewrite Z.geb_leb in E. apply Z.leb_le in E.
    unfold isEmptyGPKGGeometry.
    destruct (readEmptyGPKGHeader_returns p_blob (Z.of_nat (length p_blob)) ltac:(lia))
      as ([ok e] & i & Hs).
    rewrite Hs. cbn [bind].
    destruct (readEmptyGPKGHeader_inv _ _ _ _ _ Hs) as [-> | (_ & flags & Hwf & _)];
      [reflexivity|].
    exfalso. apply (H p_blob flags eq_refl); [lia|exact Hwf].
Qed.

(** At the raw WKB of [wkb_linestring_3], which has no container header. *)
Lemma sql_functions_reject_witness :
  fnct_STEnv LittleEndianCPU false X MIN 1 (SQLITE_BLOB wkb_linestring_3) 0
    = Result sqlite3_result_null /\
  fnct_STIsEmpty LittleEndianCPU false 1 (SQLITE_BLOB wkb_linestring_3)
    = Result (sqlite3_result_int (-1)).
Proof.
  apply (sql_functions_reject LittleEndianCPU (SQLITE_BLOB wkb_linestring_3) X MIN 1 0).
  intros p_blob flags E _ (H1 & _).
  assert (Hp : p_blob = wkb_linestring_3) by congruence. rewrite Hp in H1.
  vm_compute in H1. discriminate.
Defined.

(** X15.  In the build with [GPKG_ALLWAYS_USE_HEADER], a well-formed header whose
    empty flag is set ends both queries at the header: ST_IsEmpty returns 1,
    and the envelope functions report a success without having written the
    result, so that what they return is the content the local [res] had on
    entry.  The body is not read. *)
Theorem header_mode_flagged_empty (cpu : cpu_order) (p_blob : list byte) (flags : Z)
  (ordinate maxmin : Z) (fuel : nat) (res : double) :
  well_formed_header p_blob 0 flags ->
  header_isEmpty flags = 1 ->
  29 <= Z.of_nat (length p_blob) ->
  fnct_STEnv cpu true ordinate maxmin fuel (SQLITE_BLOB p_blob) res
    = Result (sqlite3_result_double res) /\
  fnct_STIsEmpty cpu true fuel (SQLITE_BLOB p_blob) = Result (sqlite3_result_int 1).
Proof.
  intros Hwf Hempty Hlen.
  unfold fnct_STEnv, fnct_STIsEmpty, sqlite3_value_bytes. cbv zeta.
  replace (Z.of_nat (length p_blob) >=? 29) with true
    by (symmetry; rewrite Z.geb_leb; apply Z.leb_le; lia).
  replace (Z.of_nat (length p_blob) >=? 13) with true
    by (symmetry; rewrite Z.geb_leb; apply Z.leb_le; lia).
  unfold readGPKGGeometryEnv, isEmptyGPKGGeometry.
  rewrite (readGPKGHeaderEnv_flagged_empty cpu p_blob flags Hwf _ _ _ _ Hempty).
  rewrite (readEmptyGPKGHeader_ok p_blob _ 0 flags Hwf) by (unfold Int.max_int; lia).
  cbn [bind]. rewrite Hempty. split; reflexivity.
Qed.

(** At [gpkg_stale_empty], whose body is the point (1 2). *)
Lemma header_mode_flagged_empty_witness :
  fnct_STEnv LittleEndianCPU true X MIN 1 (SQLITE_BLOB gpkg_stale_empty) d_5
    = Result (sqlite3_result_double d_5) /\
  fnct_STIsEmpty LittleEndianCPU true 1 (SQLITE_BLOB gpkg_stale_empty)
    = Result (sqlite3_result_int 1).
Proof.
  apply (header_mode_flagged_empty LittleEndianCPU gpkg_stale_empty 0x11 X MIN 1 d_5).
  - vm_compute. intuition congruence.
  - reflexivity.
  - vm_compute. discriminate.
Defined.

(** X16.  In the build with [GPKG_ALLWAYS_USE_HEADER], the envelope query falls
    back on the body, from its first byte, and so answers as the build as
    distributed does, when the header is well formed, not flagged empty, and
    either has no envelope or, for a minimum, holds NaN as the minimum of
    the requested ordinate. *)
Theorem header_mode_falls_back (cpu : cpu_order) (p_blob : list byte) (flags : Z)
  (n_bytes byteOrder ordinate maxmin geometryTypeExpected : Z) (fuel : nat)
  (res : double) :
  well_formed_header p_blob 0 flags ->
  header_isEmpty flags = 0 ->
  header_envelopeType flags = 0 \/
  (maxmin = MIN /\ 1 <= header_envelopeType flags /\ 0 <= ordinate <= 3 /\
   ordinate_in_envelope (header_envelopeType flags) ordinate = true /\
   exists d i,
     getDouble cpu p_blob (0 + 8 + 8 * envelope_ordinate (header_envelopeType flags) ordinate)
       (Z.land flags GPKG_BYTEORDER_BIT) = Ret d i /\
     isnan d = true) ->
  readGPKGGeometryEnv cpu true fuel p_blob n_bytes 0 byteOrder ordinate maxmin
    geometryTypeExpected res
  = readGPKGGeometryEnv cpu false fuel p_blob n_bytes 0 byteOrder ordinate maxmin
      geometryTypeExpected res.
Proof.
  intros Hwf Hempty Hcase. unfold readGPKGGeometryEnv.
  rewrite (skipGPKGHeader_ok p_blob _ 0 flags Hwf) by (unfold Int.max_int; lia).
  destruct Hcase as [Hnone|(-> & He & Ho & Hin & d & i & Hget & Hnan)].
  - rewrite (readGPKGHeaderEnv_no_envelope cpu p_blob flags Hwf _ _ _ _ Hempty Hnone).
    reflexivity.
  - rewrite (readGPKGHeaderEnv_min_nan cpu p_blob flags Hwf _ _ _ d i Hempty He Ho Hin Hget
               Hnan).
    reflexivity.
Qed.

(** At [gpkg_point2d], whose header has no envelope. *)
Lemma header_mode_falls_back_witness :
  readGPKGGeometryEnv LittleEndianCPU true 1 gpkg_point2d 29 0 LITTLE_ENDIAN Y MAX
    wkbGeometry 0
  = readGPKGGeometryEnv LittleEndianCPU false 1 gpkg_point2d 29 0 LITTLE_ENDIAN Y MAX
      wkbGeometry 0.
Proof.
  apply (header_mode_falls_back LittleEndianCPU gpkg_point2d 1 29 LITTLE_ENDIAN Y MAX
           wkbGeometry 1 0).
  - vm_compute. intuition congruence.
  - reflexivity.
  - left. reflexivity.
Defined.

(** ST_MaxY of the collection of POINT(1 2) and POINT Z(3 4 5), written
    little-endian and read on a big-endian processor, and written
    big-endian and read on a little-endian processor. *)
Lemma readGPKGGeometryEnv_reorder_witness :
  exists i' j',
    readGPKGGeometryEnv BigEndianCPU false (S (depth collection_of_two_points))
      gpkg_collection_le (blen gpkg_collection_le) 0 BIG_ENDIAN Y MAX wkbGeometry 0
    = Ret (envelope Y MAX wkbGeometry collection_of_two_points) i' /\
    readGPKGGeometryEnv LittleEndianCPU false (S (depth collection_of_two_points))
      gpkg_collection_be (blen gpkg_collection_be) 0 LITTLE_ENDIAN Y MAX wkbGeometry 0
    = Ret (envelope Y MAX wkbGeometry collection_of_two_points) j'.
Proof.
  apply (readGPKGGeometryEnv_reorder BigEndianCPU LittleEndianCPU collection_of_two_points
           gpkg_collection_le gpkg_collection_be 1 0 BIG_ENDIAN LITTLE_ENDIAN Y MAX wkbGeometry
           0 0).
  - exact gpkg_collection_le_header.
  - exact gpkg_collection_be_header.
  - exact collection_of_two_points_wf.
  - reflexivity.
  - vm_compute. discriminate.
  - vm_compute. discriminate.
  - exact gpkg_collection_le_body.
  - exact gpkg_collection_be_body.
Defined.

Lemma isEmptyGPKGGeometry_reorder_witness :
  exists c i' j',
    isEmptyGPKGGeometry BigEndianCPU false (S (depth collection_of_two_points))
      gpkg_collection_le (blen gpkg_collection_le) 0 BIG_ENDIAN wkbGeometry = Ret c i' /\
    isEmptyGPKGGeometry LittleEndianCPU false (S (depth collection_of_two_points))
      gpkg_collection_be (blen gpkg_collection_be) 0 LITTLE_ENDIAN wkbGeometry = Ret c j' /\
    c = if header_isEmpty 1 =? 1 then 1 else emptiness wkbGeometry collection_of_two_points.
Proof.
  apply (isEmptyGPKGGeometry_reorder BigEndianCPU LittleEndianCPU collection_of_two_points
           gpkg_collection_le gpkg_collection_be 1 0 BIG_ENDIAN LITTLE_ENDIAN wkbGeometry).
  - exact gpkg_collection_le_header.
  - exact gpkg_collection_be_header.
  - reflexivity.
  - exact collection_of_two_points_wf.
  - vm_compute. discriminate.
  - vm_compute. discriminate.
  - exact gpkg_collection_le_body.
  - exact gpkg_collection_be_body.
Defined.

(** X19.  In the build as distributed, on a blob made of a well-formed container
    header and the encoding of a well-formed geometry without NaN
    coordinates, the minimum and the maximum functions of X, of Y and of any
    ordinate that the records have agree: both return NULL, or both return a number and
    the minimum is below the maximum, as the spatial index requires of the
    bounds it is given. *)
Theorem fnct_STMin_below_STMax (cpu : cpu_order) (p_blob : list byte) (flags : Z)
  (g : geometry) (ordinate : Z) (fuel : nat) (res res' : double) :
  well_formed_header p_blob 0 flags ->
  holds p_blob (body_offset 0 flags) (encode g) ->
  Z.of_nat (length p_blob) <= Int.max_int ->
  wf g -> (depth g < fuel)%nat ->
  ordinate = X \/ ordinate = Y \/ ordinate_present ordinate g = true ->
  without_nan g = true ->
  match fnct_STEnv cpu false ordinate MIN fuel (SQLITE_BLOB p_blob) res,
        fnct_STEnv cpu false ordinate MAX fuel (SQLITE_BLOB p_blob) res' with
  | Result (sqlite3_result_double lo), Result (sqlite3_result_double hi) =>
      double_le lo hi = true
  | Result sqlite3_result_null, Result sqlite3_result_null => True
  | _, _ => False
  end.
Proof.
  intros Hwf Hbody Hlen Hg Hfuel Ho Hnan.
  assert (Hpres : ordinate_present ordinate g = true)
    by (destruct Ho as [Ho|[Ho|Ho]]; [| |exact Ho]; apply (ordinate_present_XY fuel); auto).
  rewrite !(fnct_STEnv_encoded cpu p_blob flags g Hwf Hbody Hlen Hg _ _ fuel _ Hfuel Hpres).
  pose proof (envelope_ordered fuel g ordinate wkbGeometry Hfuel Hg Hnan Hpres) as H.
  unfold ordered_extremes in H.
  destruct (envelope ordinate MIN wkbGeometry g), (envelope ordinate MAX wkbGeometry g);
    try contradiction; [|exact I].
  apply H.
Qed.

(** ST_MinX and ST_MaxX of the collection of POINT(1 2) and
    POINT Z(3 4 5). *)
Lemma fnct_STMin_below_STMax_witness :
  match fnct_STEnv LittleEndianCPU false X MIN 2 (SQLITE_BLOB gpkg_collection_le) 0,
        fnct_STEnv LittleEndianCPU false X MAX 2 (SQLITE_BLOB gpkg_collection_le) 0 with
  | Result (sqlite3_result_double lo), Result (sqlite3_result_double hi) =>
      double_le lo hi = true
  | Result sqlite3_result_null, Result sqlite3_result_null => True
  | _, _ => False
  end.
Proof.
  apply (fnct_STMin_below_STMax LittleEndianCPU gpkg_collection_le 1 collection_of_two_points
           X 2 0 0).
  - exact gpkg_collection_le_header.
  - exact gpkg_collection_le_body.
  - vm_compute. discriminate.
  - exact collection_of_two_points_wf.
  - cbn. lia.
  - left. reflexivity.
  - reflexivity.
Defined.

(** X20.  ST_IsEmpty reads past the end of the blob when the outermost record is
    a multi-geometry or a collection that announces more elements than the
    blob holds: on a blob that is a well-formed container header, not
    flagged empty, and such a record whose elements are well formed and
    none of which is rejected, the loop goes on to the byte order marker of
    an element that is not there, at the address [n_bytes]. *)
Theorem fnct_STIsEmpty_count_overrun (cpu : cpu_order) (p_blob : list byte)
  (flags numGeoms bo t s : Z) (els : list geometry) (fuel : nat) :
  well_formed_header p_blob 0 flags ->
  header_isEmpty flags = 0 ->
  holds p_blob (body_offset 0 flags) (encode_announcing numGeoms bo t s els) ->
  body_offset 0 flags + blen (encode_announcing numGeoms bo t s els)
    = Z.of_nat (length p_blob) ->
  Z.of_nat (length p_blob) <= Int.max_int ->
  wf (Collection bo t s els) -> (depth (Collection bo t s els) < fuel)%nat ->
  Int.in_range numGeoms -> Z.of_nat (length els) < numGeoms ->
  Forall (fun e => 0 <= emptiness (element_kind (geometryType_of t)) e) els ->
  fnct_STIsEmpty cpu false fuel (SQLITE_BLOB p_blob) = SqlFault.
Proof.
  intros Hwf Hflag Hbody Hend Hlen Hg Hfuel Hn Hmore Hcode.
  unfold fnct_STIsEmpty, sqlite3_value_bytes. cbv zeta.
  pose proof (body_offset_min p_blob flags Hwf) as Hmin.
  assert (Hpos : 9 <= blen (encode_announcing numGeoms bo t s els)).
  { unfold encode_announcing. rewrite !blen_app, blen_put_header, blen_put_int.
    pose proof (blen_nonneg (flat_map encode els)). destruct (hasSRID t); lia. }
  replace (Z.of_nat (length p_blob) >=? 13) with true
    by (symmetry; rewrite Z.geb_leb; apply Z.leb_le; lia).
  unfold isEmptyGPKGGeometry.
  rewrite (readEmptyGPKGHeader_ok p_blob _ 0 flags Hwf) by (unfold Int.max_int; lia).
  cbn [bind]. change (1 =? 0) with false. cbv iota.
  rewrite Hflag. change (0 =? 1) with false. cbv iota.
  rewrite (isEmptyWKBGeometry_overrun cpu p_blob _ eq_refl Hlen fuel numGeoms bo t s els
             (body_offset 0 flags) (endian cpu) wkbGeometry Hg Hfuel eq_refl Hn Hmore Hcode
             Hbody Hend).
  reflexivity.
Qed.

(** At [gpkg_multipoint_short]: a multi-point of 2 points that holds one. *)
Lemma fnct_STIsEmpty_count_overrun_witness :
  fnct_STIsEmpty LittleEndianCPU false 2 (SQLITE_BLOB gpkg_multipoint_short) = SqlFault.
Proof.
  apply (fnct_STIsEmpty_count_overrun LittleEndianCPU gpkg_multipoint_short 1 2 1 4 0
           [Point 1 1 0 [d_1; d_2]] 2).
  - vm_compute. intuition congruence.
  - reflexivity.
  - vm_compute. intuition reflexivity.
  - reflexivity.
  - vm_compute. discriminate.
  - unfold d_1, d_2.
    repeat first
      [ apply wf_Collection | apply wf_Point | apply Forall_cons | apply Forall_nil
      | split | left; reflexivity | reflexivity
      | vm_compute; intuition congruence ].
  - cbn. lia.
  - vm_compute. split; discriminate.
  - cbn. lia.
  - repeat constructor. vm_compute. discriminate.
Defined.

(** X21.  The envelope functions of X and of Y read past the end of the blob in
    the same case: a blob of 29 bytes or more that is a well-formed
    container header and a multi-geometry or collection that announces more
    elements than the blob holds, each element well formed and with an
    extreme of its own. *)
Theorem fnct_STEnv_count_overrun (cpu : cpu_order) (p_blob : list byte)
  (flags numGeoms bo t s : Z) (els : list geometry) (ordinate maxmin : Z) (fuel : nat)
  (res : double) :
  well_formed_header p_blob 0 flags ->
  holds p_blob (body_offset 0 flags) (encode_announcing numGeoms bo t s els) ->
  body_offset 0 flags + blen (encode_announcing numGeoms bo t s els)
    = Z.of_nat (length p_blob) ->
  29 <= Z.of_nat (length p_blob) <= Int.max_int ->
  wf (Collection bo t s els) -> (depth (Collection bo t s els) < fuel)%nat ->
  Int.in_range numGeoms -> Z.of_nat (length els) < numGeoms ->
  ordinate = X \/ ordinate = Y ->
  Forall (fun e => envelope ordinate maxmin (element_kind (geometryType_of t)) e <> None)
         els ->
  fnct_STEnv cpu false ordinate maxmin fuel (SQLITE_BLOB p_blob) res = SqlFault.
Proof.
  intros Hwf Hbody Hend [Hmin Hlen] Hg Hfuel Hn Hmore Ho Hsome.
  unfold fnct_STEnv, sqlite3_value_bytes. cbv zeta.
  replace (Z.of_nat (length p_blob) >=? 29) with true
    by (symmetry; rewrite Z.geb_leb; apply Z.leb_le; lia).
  unfold readGPKGGeometryEnv.
  rewrite (skipGPKGHeader_ok p_blob _ 0 flags Hwf) by (unfold Int.max_int; lia).
  cbn [bind]. change (1 =? 0) with false. cbv iota.
  rewrite (readWKBGeometryEnv_overrun cpu p_blob _ eq_refl Hlen fuel numGeoms bo t s els
             (body_offset 0 flags) (endian cpu) ordinate maxmin wkbGeometry Hg Hfuel eq_refl
             Ho Hn Hmore Hsome Hbody Hend).
  reflexivity.
Qed.

(** ST_MaxY of [gpkg_multipoint_short], on a big-endian processor. *)
Lemma fnct_STEnv_count_overrun_witness :
  fnct_STEnv BigEndianCPU false Y MAX 2 (SQLITE_BLOB gpkg_multipoint_short) 0 = SqlFault.
Proof.
  apply (fnct_STEnv_count_overrun BigEndianCPU gpkg_multipoint_short 1 2 1 4 0
           [Point 1 1 0 [d_1; d_2]] Y MAX 2 0).
  - vm_compute. intuition congruence.
  - vm_compute. intuition reflexivity.
  - reflexivity.
  - vm_compute. split; discriminate.
  - unfold d_1, d_2.
    repeat first
      [ apply wf_Collection | apply wf_Point | apply Forall_cons | apply Forall_nil
      | split | left; reflexivity | reflexivity
      | vm_compute; intuition congruence ].
  - cbn. lia.
  - vm_compute. split; discriminate.
  - cbn. lia.
  - right. reflexivity.
  - repeat constructor. vm_compute. discriminate.
Defined.

(** ** GPKG_AddGeometryColumn *)

Section AddGeometryColumnFacts.

Import Stdlib.Strings.String Stdlib.Strings.Ascii.

Lemma _stricmp_zero (string1 string2 : string) :
  _stricmp string1 string2 = 0 <-> cstr_lower string1 = cstr_lower string2.
Proof.
  revert string2. induction string1 as [|c1 s1 IH]; intros [|c2 s2];
    cbn [_stricmp cstr_lower].
  - tauto.
  - destruct (N.eqb_spec (N_of_ascii (tolower c2)) 0) as [E|E]; split; intros H;
      try reflexivity; try discriminate; lia.
  - destruct (N.eqb_spec (N_of_ascii (tolower c1)) 0) as [E|E]; split; intros H;
      try reflexivity; try discriminate; lia.
  - destruct (N.eqb_spec (N_of_ascii (tolower c1)) (N_of_ascii (tolower c2))) as [E|E].
    + rewrite <- E. destruct (N.eqb_spec (N_of_ascii (tolower c1)) 0) as [E0|E0].
      * tauto.
      * rewrite IH. split; [intros ->; reflexivity|intros H; injection H; auto].
    + destruct (N.eqb_spec (N_of_ascii (tolower c1)) 0) as [E1|E1];
        destruct (N.eqb_spec (N_of_ascii (tolower c2)) 0) as [E2|E2];
        split; intros H; try discriminate; try lia.
      injection H as H _. contradiction.
Qed.


Lemma find_geometry_type_first (gtype : string) (before : list string) (entry : string)
  (after : list string) (igtype : nat) :
  Forall (fun e => _stricmp gtype e <> 0) before ->
  _stricmp gtype entry = 0 ->
  find_geometry_type gtype (before ++ entry :: after) igtype
  = (igtype + List.length before)%nat.
Proof.
  intros H He. revert igtype. induction H as [|e rest Hne _ IH]; intros igtype;
    cbn [find_geometry_type List.length app].
  - rewrite He. cbn. lia.
  - destruct (Z.eqb_spec (_stricmp gtype e) 0) as [E|E]; [contradiction|].
    rewrite IH. lia.
Qed.

Variable sqlite3 : Type.
Variable sqlite3_exec : sqlite3 -> string -> sqlite3 * Z * string.
Variable sqlite3_mprintf : string -> list printf_arg -> string.

Lemma fnct_GPKGAddGeometryColumn_found (db : sqlite3)
  (identifier table gcolumn : option string) (gtype : string) (srsid zflag mflag : Z)
  (igtype : nat) (entry : string) :
  find_geometry_type gtype wktGeomtryTypes 0 = igtype ->
  nth_error wktGeomtryTypes igtype = Some entry ->
  0 <= zflag <= 2 -> 0 <= mflag <= 2 ->
  fnct_GPKGAddGeometryColumn sqlite3 sqlite3_exec sqlite3_mprintf db identifier table gcolumn
    (Some gtype) srsid zflag mflag
  = let '(db1, res1, err1) :=
      sqlite3_exec db
        (sqlite3_mprintf insert_gpkg_contents
           [arg_text table; arg_text identifier; arg_int srsid]) in
    if res1 =? SQLITE_OK then
      let '(db2, res2, err2) :=
        sqlite3_exec db1
          (sqlite3_mprintf insert_gpkg_geometry_columns
             [arg_text table; arg_text gcolumn;
              arg_text (nth_error wktGeomtryTypes (if (igtype =? 8)%nat then 7%nat else igtype));
              arg_int srsid; arg_int zflag; arg_int mflag]) in
      Completed db2 (if res2 =? SQLITE_OK then None else Some err2)
    else Completed db1 (Some err1).
Proof.
  intros Hfind Hnth Hz Hm. unfold fnct_GPKGAddGeometryColumn. cbv zeta.
  rewrite Hfind, Hnth.
  replace (negb (zflag =? 0) && negb (zflag =? 1) && negb (zflag =? 2)) with false
    by (symmetry; destruct (Z.eqb_spec zflag 0), (Z.eqb_spec zflag 1), (Z.eqb_spec zflag 2);
        try reflexivity; lia).
  replace (negb (mflag =? 0) && negb (mflag =? 1) && negb (mflag =? 2)) with false
    by (symmetry; destruct (Z.eqb_spec mflag 0), (Z.eqb_spec mflag 1), (Z.eqb_spec mflag 2);
        try reflexivity; lia).
  unfold sqlite3_exec_free.
  destruct (sqlite3_exec db _) as [[db1 res1] err1]. cbv beta iota.
  destruct (res1 =? SQLITE_OK) eqn:E1; cbv [negb]; rewrite ?E1; cbv beta iota;
    [|reflexivity].
  destruct (sqlite3_exec db1 _) as [[db2 res2] err2]. cbv beta iota.
  destruct (res2 =? SQLITE_OK); reflexivity.
Qed.

Lemma fnct_GPKGAddGeometryColumn_entry (db : sqlite3)
  (identifier table gcolumn : option string) (gtype : string) (srsid zflag mflag : Z)
  (before : list string) (entry : string) (after : list string) :
  wktGeomtryTypes = before ++ entry :: after ->
  Forall (fun e => cstr_lower e <> cstr_lower entry) before ->
  _stricmp gtype entry = 0 ->
  0 <= zflag <= 2 -> 0 <= mflag <= 2 ->
  fnct_GPKGAddGeometryColumn sqlite3 sqlite3_exec sqlite3_mprintf db identifier table gcolumn
    (Some gtype) srsid zflag mflag
  = let '(db1, res1, err1) :=
      sqlite3_exec db
        (sqlite3_mprintf insert_gpkg_contents
           [arg_text table; arg_text identifier; arg_int srsid]) in
    if res1 =? SQLITE_OK then
      let '(db2, res2, err2) :=
        sqlite3_exec db1
          (sqlite3_mprintf insert_gpkg_geometry_columns
             [arg_text table; arg_text gcolumn;
              arg_text (nth_error wktGeomtryTypes
                          (if (List.length before =? 8)%nat then 7%nat
                           else List.length before));
              arg_int srsid; arg_int zflag; arg_int mflag]) in
      Completed db2 (if res2 =? SQLITE_OK then None else Some err2)
    else Completed db1 (Some err1).
Proof.
  intros Hsplit Hbefore Hentry Hz Hm.
  apply (fnct_GPKGAddGeometryColumn_found db identifier table gcolumn gtype srsid zflag mflag
           (List.length before) entry); try assumption.
  - rewrite Hsplit. apply (find_geometry_type_first gtype before entry after 0).
    + apply Forall_forall. intros e He E. rewrite Forall_forall in Hbefore.
      apply (Hbefore e He). apply _stricmp_zero in E, Hentry. congruence.
    + exact Hentry.
  - rewrite Hsplit. rewrite nth_error_app2 by lia. rewrite Nat.sub_diag. reflexivity.
Qed.

End AddGeometryColumnFacts.

Section AddGeometryColumnProperties.

Import Stdlib.Strings.String Stdlib.Strings.Ascii.



(** X23.  GPKG_AddGeometryColumn on arguments it accepts (a geometry type that
    matches a name of [wktGeomtryTypes] under [_stricmp], so in any case of
    the letters, and flags in 0..2): it runs the insertion into
    [gpkg_contents], then, only if that one succeeded, the insertion into
    [gpkg_geometry_columns], to which it hands the name as the table spells
    it, with GEOMCOLLECTION for GEOMETRYCOLLECTION; it reports the error of
    the statement that failed, and rolls nothing back. *)
Theorem fnct_GPKGAddGeometryColumn_inserts (sqlite3 : Type)
  (sqlite3_exec : sqlite3 -> string -> sqlite3 * Z * string)
  (sqlite3_mprintf : string -> list printf_arg -> string) (db : sqlite3)
  (identifier table gcolumn : option string) (gtype name : string) (srsid zflag mflag : Z) :
  In name wktGeomtryTypes -> _stricmp gtype name = 0 ->
  0 <= zflag <= 2 -> 0 <= mflag <= 2 ->
  fnct_GPKGAddGeometryColumn sqlite3 sqlite3_exec sqlite3_mprintf db identifier table gcolumn
    (Some gtype) srsid zflag mflag
  = let '(db1, res1, err1) :=
      sqlite3_exec db
        (sqlite3_mprintf insert_gpkg_contents
           [arg_text table; arg_text identifier; arg_int srsid]) in
    if res1 =? SQLITE_OK then
      let '(db2, res2, err2) :=
        sqlite3_exec db1
          (sqlite3_mprintf insert_gpkg_geometry_columns
             [arg_text table; arg_text gcolumn;
              arg_text (Some (if String.eqb name "GEOMETRYCOLLECTION"%string
                              then "GEOMCOLLECTION"%string else name));
              arg_int srsid; arg_int zflag; arg_int mflag]) in
      Completed db2 (if res2 =? SQLITE_OK then None else Some err2)
    else Completed db1 (Some err1).
Proof.
  intros Hin Hname Hz Hm.
  assert (Hentry : forall before after,
            wktGeomtryTypes = before ++ name :: after ->
            Forall (fun e => cstr_lower e <> cstr_lower name) before ->
            nth_error wktGeomtryTypes
              (if (List.length before =? 8)%nat then 7%nat else List.length before)
            = Some (if String.eqb name "GEOMETRYCOLLECTION"%string
                    then "GEOMCOLLECTION"%string else name) ->
            fnct_GPKGAddGeometryColumn sqlite3 sqlite3_exec sqlite3_mprintf db identifier table
              gcolumn (Some gtype) srsid zflag mflag
            = let '(db1, res1, err1) :=
                sqlite3_exec db
                  (sqlite3_mprintf insert_gpkg_contents
                     [arg_text table; arg_text identifier; arg_int srsid]) in
              if res1 =? SQLITE_OK then
                let '(db2, res2, err2) :=
                  sqlite3_exec db1
                    (sqlite3_mprintf insert_gpkg_geometry_columns
                       [arg_text table; arg_text gcolumn;
                        arg_text (Some (if String.eqb name "GEOMETRYCOLLECTION"%string
                                        then "GEOMCOLLECTION"%string else name));
                        arg_int srsid; arg_int zflag; arg_int mflag]) in
                Completed db2 (if res2 =? SQLITE_OK then None else Some err2)
              else Completed db1 (Some err1)).
  { intros before after Hsplit Hbefore Hnth.
    rewrite (fnct_GPKGAddGeometryColumn_entry sqlite3 sqlite3_exec sqlite3_mprintf db identifier
               table gcolumn gtype srsid zflag mflag before name after Hsplit Hbefore Hname
               Hz Hm).
    rewrite Hnth. reflexivity. }
  unfold wktGeomtryTypes in Hin. cbn [In] in Hin.
  destruct Hin as [E|[E|[E|[E|[E|[E|[E|[E|[E|[]]]]]]]]]]; subst name.
  - apply (Hentry [] (tl wktGeomtryTypes)); [reflexivity| |reflexivity].
    repeat constructor.
  - apply (Hentry (firstn 1 wktGeomtryTypes) (skipn 2 wktGeomtryTypes));
      [reflexivity| |reflexivity].
    repeat constructor; vm_compute; discriminate.
  - apply (Hentry (firstn 2 wktGeomtryTypes) (skipn 3 wktGeomtryTypes));
      [reflexivity| |reflexivity].
    repeat constructor; vm_compute; discriminate.
  - apply (Hentry (firstn 3 wktGeomtryTypes) (skipn 4 wktGeomtryTypes));
      [reflexivity| |reflexivity].
    repeat constructor; vm_compute; discriminate.
  - apply (Hentry (firstn 4 wktGeomtryTypes) (skipn 5 wktGeomtryTypes));
      [reflexivity| |reflexivity].
    repeat constructor; vm_compute; discriminate.
  - apply (Hentry (firstn 5 wktGeomtryTypes) (skipn 6 wktGeomtryTypes));
      [reflexivity| |reflexivity].
    repeat constructor; vm_compute; discriminate.
  - apply (Hentry (firstn 6 wktGeomtryTypes) (skipn 7 wktGeomtryTypes));
      [reflexivity| |reflexivity].
    repeat constructor; vm_compute; discriminate.
  - apply (Hentry (firstn 7 wktGeomtryTypes) (skipn 8 wktGeomtryTypes));
      [reflexivity| |reflexivity].
    repeat constructor; vm_compute; discriminate.
  - apply (Hentry (firstn 8 wktGeomtryTypes) (skipn 9 wktGeomtryTypes));
      [reflexivity| |reflexivity].
    repeat constructor; vm_compute; discriminate.
Qed.

(** With a database that is the list of the statements run so far and
    accepts everything, and a [sqlite3_mprintf] that returns the geometry
    type name it was handed: GeometryCollection is written
    GEOMCOLLECTION. *)
Lemma fnct_GPKGAddGeometryColumn_inserts_witness :
  fnct_GPKGAddGeometryColumn (list string)
    (fun db sql => (db ++ [sql], SQLITE_OK, EmptyString))
    (fun format args =>
       match args with
       | [_; _; arg_text (Some name); _; _; _] => name
       | _ => format
       end)
    [] (Some "roads"%string) (Some "roads"%string) (Some "geom"%string)
    (Some "GeometryCollection"%string) 4326 0 2
  = Completed [insert_gpkg_contents; "GEOMCOLLECTION"%string] None.
Proof.
  apply (fnct_GPKGAddGeometryColumn_inserts (list string)
           (fun db sql => (db ++ [sql], SQLITE_OK, EmptyString))
           (fun format args =>
              match args with
              | [_; _; arg_text (Some name); _; _; _] => name
              | _ => format
              end)
           [] (Some "roads"%string) (Some "roads"%string) (Some "geom"%string)
           "GeometryCollection"%string "GEOMETRYCOLLECTION"%string 4326 0 2).
  - unfold wktGeomtryTypes. cbn [In]. tauto.
  - vm_compute. reflexivity.
  - lia.
  - lia.
Defined.

End AddGeometryColumnProperties.
